(** * python-samplerate-ledfx: the nanobind session layer over libsamplerate

    A shallow embedding of [src/samplerate_nb.cpp]: the converter
    selector ([get_converter_type]), the error translator
    ([error_handler]), the bulk entry point ([resample]), the incremental
    session ([Resampler]) and the callback-driven session
    ([CallbackResampler]) with its bridge ([the_callback_func]), each with
    its constructors, its methods and its destructor.

    libsamplerate itself is an opaque collaborator: it is the interface
    [Engine] below, together with the allocator, and every theorem holds
    for every implementation of it. Callback sessions live at addresses:
    the engine calls back the address it was given as callback data, and
    the bridge runs on the session that lives there. Sample values are
    not modelled (arrays carry their shape only); the interpreter lock is
    not modelled either. *)

From Stdlib Require Import ZArith List String Bool Lia.
From Corelib Require Import SpecFloat.
Import ListNotations.

Local Open Scope Z_scope.
Local Open Scope list_scope.

(* ===================================================================== *)
(** ** C integer types *)
(* ===================================================================== *)

(** Values of the fixed-width types are integers of [Z]; a conversion to
    a narrower or differently signed type wraps around (LP64: [int] has 32
    bits, [long] and [size_t] have 64). *)
Module C.

Definition wrap_unsigned (bits x : Z) : Z := x mod 2 ^ bits.

Definition wrap_signed (bits x : Z) : Z :=
  (x + 2 ^ (bits - 1)) mod 2 ^ bits - 2 ^ (bits - 1).

Definition to_int : Z -> Z := wrap_signed 32.
Definition to_long : Z -> Z := wrap_signed 64.
Definition to_size_t : Z -> Z := wrap_unsigned 64.

Definition INT_MAX : Z := 2 ^ 31 - 1.
Definition SIZE_MAX : Z := 2 ^ 64 - 1.

End C.

(* ===================================================================== *)
(** ** double *)
(* ===================================================================== *)

(** [double] is IEEE 754 binary64, by the reference semantics of
    [SpecFloat]: 53 bits of precision, round to nearest even. *)
Module Double.

Definition prec : Z := 53.
Definition emax : Z := 1024.

Definition double : Type := spec_float.

(** [a * b] *)
Definition mul : double -> double -> double := SFmul prec emax.

(** Conversion of an integer to [double]: the nearest double. *)
Definition of_Z (n : Z) : double := binary_normalize prec emax n 0 false.

(** The integer [m / 2^k] rounded towards plus infinity. *)
Definition cdiv_pow2 (m k : Z) : Z := - ((- m) / 2 ^ k).

(** The integer [std::ceil] returns, for a finite double. A double with a
    non-negative exponent is an integer already. *)
Definition ceil_Z (x : double) : option Z :=
  match x with
  | S754_zero _ => Some 0
  | S754_finite s m e =>
      let v := cond_Zopp s (Zpos m) in
      Some (if 0 <=? e then v * 2 ^ e else cdiv_pow2 v (- e))
  | S754_infinity _ | S754_nan => None
  end.

(** [std::ceil]: infinities and NaN are returned as they are; the result
    of a finite argument is an integer of at most 53 bits when the argument
    had a fraction, so the conversion back is exact. *)
Definition ceil (x : double) : double :=
  match x with
  | S754_finite s m e =>
      if 0 <=? e then x
      else
        let q := cdiv_pow2 (cond_Zopp s (Zpos m)) (- e) in
        if q =? 0 then S754_zero s else of_Z q
  | _ => x
  end.

(** [static_cast<size_t>(x)]: the value truncated towards zero when that
    fits the type, undefined otherwise ([None]). *)
Definition to_size_t (x : double) : option Z :=
  match x with
  | S754_zero _ => Some 0
  | S754_finite s m e =>
      let v := cond_Zopp s (Zpos m) in
      let t := if 0 <=? e then v * 2 ^ e else Z.quot v (2 ^ (- e)) in
      if (0 <=? t) && (t <=? C.SIZE_MAX) then Some t else None
  | S754_infinity _ | S754_nan => None
  end.

(** A finite double above zero. *)
Definition positive_finite (x : double) : Prop :=
  exists m e, x = S754_finite false m e /\ valid_binary prec emax x = true.

End Double.

Abbreviation double := Double.double.

(* ===================================================================== *)
(** ** Arrays and Python values *)
(* ===================================================================== *)

(** [nb::ndarray<nb::numpy, float>]: its shape. A default-constructed
    array (what [callback] returns for [None]) has no dimension. *)
Record nb_array_f32 := { shape_of : list Z }.

Definition ndim (a : nb_array_f32) : Z := Z.of_nat (List.length (shape_of a)).

(** [a.shape(i)] *)
Definition shape (a : nb_array_f32) (i : nat) : Z := nth i (shape_of a) 0.

(** The default-constructed array. *)
Definition empty_array : nb_array_f32 := {| shape_of := [] |}.

Inductive ConverterType :=
  sinc_best | sinc_medium | sinc_fastest | zero_order_hold | linear.

(** The values of [nb::object] the bindings look at. *)
Inductive py_object :=
| PyNone
| PyStr (s : string)
| PyInt (n : Z)
| PyConverterType (c : ConverterType)
| PyArray (a : nb_array_f32)
| PyOther.

(* ===================================================================== *)
(** ** Exceptions and outcomes *)
(* ===================================================================== *)

Inductive exception :=
| ResamplingException (message : string)   (* samplerate::ResamplingException *)
| runtime_error (what : string)            (* std::runtime_error *)
| domain_error (what : string)             (* std::domain_error *)
| cast_error                               (* nb::cast_error *)
| bad_alloc.                               (* std::bad_alloc, and the
                                              std::bad_array_new_length
                                              derived from it *)

(** What a call does: it returns, it throws, or its behaviour is
    undefined (a null [const char *] given to [std::string], a double out
    of range converted to an integer). *)
Inductive outcome (A : Type) :=
| Returns (a : A)
| Throws (e : exception)
| Undefined.

Arguments Returns {A} a.
Arguments Throws {A} e.
Arguments Undefined {A}.

(** The error taxonomy of the specification, on the C++ exceptions. *)
Definition ConversionFailed (message : string) : exception :=
  ResamplingException message.
Definition FatalEngineContract (what : string) : exception :=
  runtime_error what.
Definition InvalidShape (what : string) : exception := domain_error what.
Definition CallbackError (what : string) : exception := domain_error what.
Definition InvalidConverter (what : string) : exception := domain_error what.

(* ===================================================================== *)
(** ** The conversion engine (libsamplerate) *)
(* ===================================================================== *)

(** [SRC_DATA], without the two sample pointers. *)
Record SRC_DATA := {
  input_frames : Z;
  output_frames : Z;
  input_frames_used : Z;
  output_frames_gen : Z;
  end_of_input : Z;
  src_ratio : double
}.

(** Where an object lives. The callback data of a pull-mode converter
    state, a [void *], is the address of a callback session. *)
Definition address : Type := nat.

(** One call of [src_callback_read], as the caller sees it: the engine
    calls its data source any number of times, each time with the
    callback data it holds for the state, resuming with the frame count
    the source returned and the array the source pointed it at, and in
    the end returns a frame count and leaves the library in a new
    state. *)
Inductive pull (L : Type) :=
| Pull (cb_data : address) (resume : Z -> option nb_array_f32 -> pull L)
| Return (frames : Z) (after : L).

Arguments Pull {L} cb_data resume.
Arguments Return {L} frames after.

(** What the bindings call from outside: the functions of [samplerate.h],
    and the allocator. [lib] is the state of the native side (all
    converter states, and the free store); a [SRC_STATE *] is [None] when
    null. Functions with an [int *error] parameter return the error
    beside their result. [src_callback_new] is always given
    [the_callback_func] as its data source, and the callback data beside
    it; [src_clone] is given no callback data. [operator_new] is
    [operator new[]] for that many bytes: whether it returns storage (it
    throws otherwise). *)
Class Engine := {
  lib : Type;
  SRC_STATE : Type;
  src_strerror : Z -> option string;
  src_new : Z -> Z -> lib -> option SRC_STATE * Z * lib;
  src_callback_new : Z -> Z -> address -> lib -> option SRC_STATE * Z * lib;
  src_clone : option SRC_STATE -> lib -> option SRC_STATE * Z * lib;
  src_delete : option SRC_STATE -> lib -> lib;
  src_simple : SRC_DATA -> Z -> Z -> lib -> Z * SRC_DATA * lib;
  src_process : option SRC_STATE -> SRC_DATA -> lib -> Z * SRC_DATA * lib;
  src_set_ratio : option SRC_STATE -> double -> lib -> Z * lib;
  src_reset : option SRC_STATE -> lib -> Z * lib;
  src_error : option SRC_STATE -> lib -> Z;
  src_callback_read : option SRC_STATE -> double -> Z -> lib -> pull lib;
  operator_new : Z -> lib -> bool * lib
}.

(* ===================================================================== *)
(** ** The data members of class CallbackResampler *)
(* ===================================================================== *)

Section Producer.

(** [py] is the state of the Python side (what a producer function reads
    and changes). *)
Context {py : Type}.

(** [std::function<nb::object(void)>]: a Python callable, here one that
    keeps to the type the interface file gives a producer,
    [Callable[[], Optional[NDArray[float32]]]]: it answers [None] or an
    array of floats. *)
Definition callback_t : Type := py -> option nb_array_f32 * py.

End Producer.

(** The members come before the world, which holds the sessions alive;
    the class itself, with its methods, is [CallbackResampler] below. *)
Module CallbackMembers.

Section Members.

Context {E : Engine} {py : Type}.

Record CallbackResampler := {
  _state : option SRC_STATE;
  _callback : @callback_t py;
  _current_buffer : nb_array_f32;
  _buffer_ndim : Z;
  _callback_error_msg : string;
  _ratio : double;
  _converter_type : Z;
  _channels : Z
}.

End Members.

Arguments CallbackResampler {E} py.

End CallbackMembers.

(* ===================================================================== *)
(** ** The world the bindings run in *)
(* ===================================================================== *)

Section World.

Context {E : Engine} {py : Type}.

(** What the bindings did, in order: every call into the engine with
    what the engine answered, every call of the engine back into the
    bridge with the callback data it passed, every call of a producer
    with what it returned, every return of the bridge to the engine, and
    every assignment to the attribute [ratio]. A call of
    [src_callback_read] is two events, since the bridge runs in between. *)
Inductive event :=
| Ev_strerror (errnum : Z)
| Ev_new (converter_type channels : Z) (state : option SRC_STATE) (error : Z)
| Ev_callback_new (converter_type channels : Z)
    (state : option SRC_STATE) (error : Z)
| Ev_clone (orig : option SRC_STATE) (state : option SRC_STATE) (error : Z)
| Ev_delete (state : option SRC_STATE)
| Ev_simple (data : SRC_DATA) (converter_type channels : Z)
    (error : Z) (data_after : SRC_DATA)
| Ev_process (state : option SRC_STATE) (data : SRC_DATA)
    (error : Z) (data_after : SRC_DATA)
| Ev_set_ratio (state : option SRC_STATE) (new_ratio : double) (error : Z)
| Ev_reset (state : option SRC_STATE) (error : Z)
| Ev_error (state : option SRC_STATE) (error : Z)
| Ev_callback_read (state : option SRC_STATE) (ratio : double) (frames : Z)
| Ev_callback_read_returned (frames_generated : Z)
| Ev_producer (returned : option nb_array_f32)
| Ev_bridge (returned : Z)
| Ev_callback (cb_data : address)
| Ev_ratio_assigned (ratio : double).

(** [w_this] is the address of the callback session at work, the one
    whose constructor or method runs ([this]); [w_sessions] are the other
    callback sessions alive, each at its address. *)
Record world := {
  w_lib : lib;
  w_py : py;
  w_trace : list event;
  w_this : address;
  w_sessions : list (address * CallbackMembers.CallbackResampler py)
}.

Definition log (ev : event) (w : world) : world :=
  {| w_lib := w_lib w; w_py := w_py w; w_trace := w_trace w ++ [ev];
     w_this := w_this w; w_sessions := w_sessions w |}.

Definition with_lib (l : lib) (w : world) : world :=
  {| w_lib := l; w_py := w_py w; w_trace := w_trace w;
     w_this := w_this w; w_sessions := w_sessions w |}.

Definition with_py (p : py) (w : world) : world :=
  {| w_lib := w_lib w; w_py := p; w_trace := w_trace w;
     w_this := w_this w; w_sessions := w_sessions w |}.

Definition with_this (a : address) (w : world) : world :=
  {| w_lib := w_lib w; w_py := w_py w; w_trace := w_trace w;
     w_this := a; w_sessions := w_sessions w |}.

Definition with_sessions
    (l : list (address * CallbackMembers.CallbackResampler py)) (w : world)
  : world :=
  {| w_lib := w_lib w; w_py := w_py w; w_trace := w_trace w;
     w_this := w_this w; w_sessions := l |}.

(** The session that lives at [a], among the others. *)
Definition session_at (a : address) (w : world)
  : option (CallbackMembers.CallbackResampler py) :=
  match find (fun e => Nat.eqb (fst e) a) (w_sessions w) with
  | Some e => Some (snd e)
  | None => None
  end.

(** No session lives at [a] any more. *)
Definition drop_session (a : address) (w : world) : world :=
  with_sessions (filter (fun e => negb (Nat.eqb (fst e) a)) (w_sessions w)) w.

(** The session at [a] is [cb] from now on. *)
Definition put_session (a : address)
    (cb : CallbackMembers.CallbackResampler py) (w : world) : world :=
  with_sessions ((a, cb) :: w_sessions (drop_session a w)) w.

(** A computation on an object of type [O] (the [this] of a method; [unit]
    for a free function): the object and the world change in place, also
    when the computation throws. *)
Definition M (O A : Type) : Type := O * world -> outcome A * (O * world).

Definition ret {O A} (a : A) : M O A := fun s => (Returns a, s).

Definition throw {O A} (e : exception) : M O A := fun s => (Throws e, s).

Definition undefined {O A} : M O A := fun s => (Undefined, s).

Definition bind {O A B} (m : M O A) (k : A -> M O B) : M O B :=
  fun s =>
    match m s with
    | (Returns a, s') => k a s'
    | (Throws e, s') => (Throws e, s')
    | (Undefined, s') => (Undefined, s')
    end.

(** Reading and changing [this]. *)
Definition this {O} : M O O := fun s => (Returns (fst s), s).

Definition update {O} (f : O -> O) : M O unit :=
  fun s => (Returns tt, (f (fst s), snd s)).

(** A step on the world alone. *)
Definition on_world {O A} (f : world -> A * world) : M O A :=
  fun s => let '(a, w) := f (snd s) in (Returns a, (fst s, w)).

(** A free function called from a method. *)
Definition call {O A} (m : M unit A) : M O A :=
  fun s => let '(r, (_, w)) := m (tt, snd s) in (r, (fst s, w)).

End World.

Arguments world {E} py.
Arguments event {E}.

Declare Scope cxx_scope.
Delimit Scope cxx_scope with cxx.
Notation "x <- m ;; k" := (bind m (fun x => k))
  (at level 61, m at next level, right associativity) : cxx_scope.
Notation "m ;; k" := (bind m (fun _ => k))
  (at level 61, right associativity) : cxx_scope.
Local Open Scope cxx_scope.

(* ===================================================================== *)
(** ** Free functions of namespace samplerate *)
(* ===================================================================== *)

Section Bindings.

Context {E : Engine} {py : Type}.

Local Abbreviation M := (@M E py).

(** *** Calls into the engine, each recorded in the trace *)

Definition trace {O} (ev : event) : M O unit :=
  on_world (fun w => (tt, log ev w)).

(** [std::string(src_strerror(errnum))]; a null pointer there is
    undefined behaviour. *)
Definition strerror {O} (errnum : Z) : M O string :=
  trace (Ev_strerror errnum) ;;
  match src_strerror errnum with
  | Some text => ret text
  | None => undefined
  end.

(** [static_cast<void *>(this)] *)
Definition this_address {O} : M O address :=
  fun s => (Returns (w_this (snd s)), s).

Definition sizeof_float : Z := 4.

(** [new float[total_elements]]: it throws when the array cannot be
    had: [std::bad_array_new_length], which is a [std::bad_alloc], when
    its size in bytes is no [size_t], and [std::bad_alloc] when the
    allocator has no storage for it. *)
Definition new_float {O} (total_elements : Z) : M O unit :=
  if C.SIZE_MAX <? total_elements * sizeof_float then throw bad_alloc
  else
    fun s =>
      let '(ok, l) :=
        operator_new (total_elements * sizeof_float) (w_lib (snd s)) in
      (if ok then Returns tt else Throws bad_alloc,
       (fst s, with_lib l (snd s))).

Definition engine_new {O} (converter_type channels : Z)
  : M O (option SRC_STATE * Z) :=
  on_world (fun w =>
    let '(st, err, l) := src_new converter_type channels (w_lib w) in
    ((st, err), with_lib l (log (Ev_new converter_type channels st err) w))).

Definition engine_callback_new {O} (converter_type channels : Z)
    (cb_data : address) : M O (option SRC_STATE * Z) :=
  on_world (fun w =>
    let '(st, err, l) :=
      src_callback_new converter_type channels cb_data (w_lib w) in
    ((st, err),
     with_lib l (log (Ev_callback_new converter_type channels st err) w))).

Definition engine_clone {O} (state : option SRC_STATE)
  : M O (option SRC_STATE * Z) :=
  on_world (fun w =>
    let '(st, err, l) := src_clone state (w_lib w) in
    ((st, err), with_lib l (log (Ev_clone state st err) w))).

Definition engine_delete {O} (state : option SRC_STATE) : M O unit :=
  on_world (fun w =>
    (tt, with_lib (src_delete state (w_lib w)) (log (Ev_delete state) w))).

Definition engine_simple {O} (data : SRC_DATA) (converter_type channels : Z)
  : M O (Z * SRC_DATA) :=
  on_world (fun w =>
    let '(err, data', l) := src_simple data converter_type channels (w_lib w) in
    ((err, data'),
     with_lib l (log (Ev_simple data converter_type channels err data') w))).

Definition engine_process {O} (state : option SRC_STATE) (data : SRC_DATA)
  : M O (Z * SRC_DATA) :=
  on_world (fun w =>
    let '(err, data', l) := src_process state data (w_lib w) in
    ((err, data'), with_lib l (log (Ev_process state data err data') w))).

Definition engine_set_ratio {O} (state : option SRC_STATE) (new_ratio : double)
  : M O Z :=
  on_world (fun w =>
    let '(err, l) := src_set_ratio state new_ratio (w_lib w) in
    (err, with_lib l (log (Ev_set_ratio state new_ratio err) w))).

Definition engine_reset {O} (state : option SRC_STATE) : M O Z :=
  on_world (fun w =>
    let '(err, l) := src_reset state (w_lib w) in
    (err, with_lib l (log (Ev_reset state err) w))).

Definition engine_error {O} (state : option SRC_STATE) : M O Z :=
  on_world (fun w =>
    let err := src_error state (w_lib w) in
    (err, log (Ev_error state err) w)).

(** *** get_converter_type *)

Definition ConverterType_value (c : ConverterType) : Z :=
  match c with
  | sinc_best => 0
  | sinc_medium => 1
  | sinc_fastest => 2
  | zero_order_hold => 3
  | linear => 4
  end.

(** The names under which the module registers the members of
    [ConverterType] ([nb::enum_<ConverterType>] with its [value] calls). *)
Definition ConverterType_name (c : ConverterType) : string :=
  match c with
  | sinc_best => "sinc_best"
  | sinc_medium => "sinc_medium"
  | sinc_fastest => "sinc_fastest"
  | zero_order_hold => "zero_order_hold"
  | linear => "linear"
  end.

Definition Unsupported_converter_type : string :=
  "Unsupported converter type"%string.

Definition get_converter_type {O} (obj : py_object) : M O Z :=
  match obj with
  | PyStr s =>
      if String.eqb s "sinc_best" then ret 0
      else if String.eqb s "sinc_medium" then ret 1
      else if String.eqb s "sinc_fastest" then ret 2
      else if String.eqb s "zero_order_hold" then ret 3
      else if String.eqb s "linear" then ret 4
      else throw (domain_error Unsupported_converter_type)
  | PyInt n =>
      (* nb::cast<int> *)
      if (- 2 ^ 31 <=? n) && (n <=? C.INT_MAX) then ret n else throw cast_error
  | PyConverterType c => ret (ConverterType_value c)
  | _ => throw (domain_error Unsupported_converter_type)
  end.

(** *** error_handler *)

Definition unknown_error_code : string :=
  "libsamplerate raised an unknown error code"%string.

(** [ResamplingException(err_num)]: the constructor reads the message
    from the engine. *)
Definition new_ResamplingException {O} (err_num : Z) : M O exception :=
  message <- strerror err_num ;;
  ret (ResamplingException message).

Definition error_handler {O} (errnum : Z) : M O unit :=
  if (0 <? errnum) && (errnum <? 24) then
    e <- new_ResamplingException errnum ;;
    throw e
  else if negb (errnum =? 0) then
    throw (runtime_error unknown_error_code)
  else
    ret tt.

(** *** resample *)

Definition END_OF_INPUT_EXTRA_OUTPUT_FRAMES : Z := 10000.

Definition at_most_2_dimensions : string :=
  "Input array should have at most 2 dimensions"%string.
Definition invalid_channels_0 : string :=
  "Invalid number of channels (0) in input data."%string.
Definition invalid_channels : string :=
  "Invalid number of channels in input data."%string.
Definition more_than_expected : string :=
  "Generated more output samples than expected!"%string.

(** [static_cast<size_t>(std::ceil(num_frames * sr_ratio))
      + END_OF_INPUT_EXTRA_OUTPUT_FRAMES], as [resample] computes it. *)
Definition resample_new_size (num_frames : Z) (sr_ratio : double) : option Z :=
  match
    Double.to_size_t (Double.ceil (Double.mul (Double.of_Z num_frames) sr_ratio))
  with
  | Some c => Some (C.to_size_t (c + END_OF_INPUT_EXTRA_OUTPUT_FRAMES))
  | None => None
  end.

(** The array [resample] and [process] return. *)
Definition output_array (ndim output_frames_gen channels : Z) : nb_array_f32 :=
  if ndim =? 2 then
    {| shape_of := [C.to_size_t output_frames_gen; C.to_size_t channels] |}
  else
    {| shape_of := [C.to_size_t output_frames_gen] |}.

Definition resample {O} (input : nb_array_f32) (sr_ratio : double)
    (converter_type : py_object) (verbose : bool) : M O nb_array_f32 :=
  converter_type_int <- get_converter_type converter_type ;;
  let ndim := ndim input in
  let num_frames := shape input 0 in
  channels <-
    (if ndim =? 2 then ret (C.to_int (shape input 1))
     else if 2 <? ndim then throw (domain_error at_most_2_dimensions)
     else ret 1) ;;
  (if channels =? 0 then throw (domain_error invalid_channels_0) else ret tt) ;;
  new_size <-
    match resample_new_size num_frames sr_ratio with
    | Some n => ret n
    | None => undefined
    end ;;
  let total_elements := C.to_size_t (new_size * C.to_size_t channels) in
  new_float total_elements ;;
  let src_data :=
    {| input_frames := C.to_long num_frames;
       output_frames := C.to_long new_size;
       input_frames_used := 0;
       output_frames_gen := 0;
       end_of_input := 0;
       src_ratio := sr_ratio |} in
  r <- engine_simple src_data converter_type_int channels ;;
  let err_code := fst r in
  let output_frames_gen := output_frames_gen (snd r) in
  error_handler err_code ;;
  (if new_size <? C.to_size_t output_frames_gen
   then throw (runtime_error more_than_expected) else ret tt) ;;
  ret (output_array ndim output_frames_gen channels).

End Bindings.

(* ===================================================================== *)
(** ** class Resampler *)
(* ===================================================================== *)

Module Resampler.

Section Class.

Context {E : Engine} {py : Type}.

Record Resampler := {
  _state : option SRC_STATE;
  _converter_type : Z;
  _channels : Z
}.

Local Abbreviation Method := (@M E py Resampler).

(** [Resampler(converter_type, channels)]: the object exists when the
    constructor returns. *)
Definition constructor {O} (converter_type : py_object) (channels : Z)
  : @M E py O Resampler :=
  converter_type_int <- get_converter_type converter_type ;;
  r <- engine_new converter_type_int channels ;;
  error_handler (snd r) ;;
  ret {| _state := fst r;
         _converter_type := converter_type_int;
         _channels := channels |}.

(** The copy constructor. *)
Definition copy_constructor {O} (r : Resampler)
  : @M E py O Resampler :=
  c <- engine_clone (_state r) ;;
  error_handler (snd c) ;;
  ret {| _state := fst c;
         _converter_type := _converter_type r;
         _channels := _channels r |}.

(** [static_cast<size_t>(std::ceil(num_frames * sr_ratio))
      + END_OF_INPUT_EXTRA_OUTPUT_FRAMES], as [process] computes it. *)
Definition process_new_size (num_frames : Z) (sr_ratio : double) : option Z :=
  match
    Double.to_size_t (Double.ceil (Double.mul (Double.of_Z num_frames) sr_ratio))
  with
  | Some c => Some (C.to_size_t (c + END_OF_INPUT_EXTRA_OUTPUT_FRAMES))
  | None => None
  end.

(** [int channels] as [process] and [resample] read it off the input. *)
Definition input_channels (input : nb_array_f32) : Z :=
  if ndim input =? 2 then C.to_int (shape input 1) else 1.

Definition process (input : nb_array_f32) (sr_ratio : double)
    (end_of_input : bool) : Method nb_array_f32 :=
  self <- this ;;
  let ndim := ndim input in
  let num_frames := shape input 0 in
  channels <-
    (if ndim =? 2 then ret (C.to_int (shape input 1))
     else if 2 <? ndim then throw (domain_error at_most_2_dimensions)
     else ret 1) ;;
  (if negb (channels =? _channels self) || (channels =? 0)
   then throw (domain_error invalid_channels) else ret tt) ;;
  new_size <-
    match process_new_size num_frames sr_ratio with
    | Some n => ret n
    | None => undefined
    end ;;
  let total_elements := C.to_size_t (new_size * C.to_size_t channels) in
  new_float total_elements ;;
  let src_data :=
    {| input_frames := C.to_long num_frames;
       output_frames := C.to_long new_size;
       input_frames_used := 0;
       output_frames_gen := 0;
       end_of_input := if end_of_input then 1 else 0;
       src_ratio := sr_ratio |} in
  r <- engine_process (_state self) src_data ;;
  let err_code := fst r in
  let output_frames_gen := output_frames_gen (snd r) in
  error_handler err_code ;;
  (if new_size <? C.to_size_t output_frames_gen
   then throw (runtime_error more_than_expected) else ret tt) ;;
  ret (output_array ndim output_frames_gen channels).

Definition set_ratio (new_ratio : double) : Method unit :=
  self <- this ;;
  err <- engine_set_ratio (_state self) new_ratio ;;
  error_handler err.

Definition reset : Method unit :=
  self <- this ;;
  err <- engine_reset (_state self) ;;
  error_handler err.

Definition clone : Method Resampler :=
  self <- this ;;
  copy_constructor self.

(** [~Resampler()] *)
Definition destructor : Method unit :=
  self <- this ;;
  engine_delete (_state self).

(** The move constructor: the new object, and what it leaves of [r]. *)
Definition move_constructor (r : Resampler) : Resampler * Resampler :=
  ({| _state := _state r;
      _converter_type := _converter_type r;
      _channels := _channels r |},
   {| _state := None; _converter_type := 0; _channels := 0 |}).

End Class.

Arguments Resampler {E}.

End Resampler.

(* ===================================================================== *)
(** ** class CallbackResampler and the bridge *)
(* ===================================================================== *)

Module CallbackResampler.

Include CallbackMembers.

Section Class.

Context {E : Engine} {py : Type}.

Local Abbreviation CallbackResampler := (CallbackResampler py).

Local Abbreviation Method := (@M E py CallbackResampler).

Definition set_state (st : option SRC_STATE) (cb : CallbackResampler) :=
  {| _state := st;
     _callback := _callback cb;
     _current_buffer := _current_buffer cb;
     _buffer_ndim := _buffer_ndim cb;
     _callback_error_msg := _callback_error_msg cb;
     _ratio := _ratio cb;
     _converter_type := _converter_type cb;
     _channels := _channels cb |}.

Definition set_buffer (new_buf : nb_array_f32) (cb : CallbackResampler) :=
  {| _state := _state cb;
     _callback := _callback cb;
     _current_buffer := new_buf;
     _buffer_ndim := _buffer_ndim cb;
     _callback_error_msg := _callback_error_msg cb;
     _ratio := _ratio cb;
     _converter_type := _converter_type cb;
     _channels := _channels cb |}.

Definition set_buffer_ndim (n : Z) (cb : CallbackResampler) :=
  {| _state := _state cb;
     _callback := _callback cb;
     _current_buffer := _current_buffer cb;
     _buffer_ndim := n;
     _callback_error_msg := _callback_error_msg cb;
     _ratio := _ratio cb;
     _converter_type := _converter_type cb;
     _channels := _channels cb |}.

Definition set_callback_error (error_msg : string) (cb : CallbackResampler) :=
  {| _state := _state cb;
     _callback := _callback cb;
     _current_buffer := _current_buffer cb;
     _buffer_ndim := _buffer_ndim cb;
     _callback_error_msg := error_msg;
     _ratio := _ratio cb;
     _converter_type := _converter_type cb;
     _channels := _channels cb |}.

Definition set_ratio_field (r : double) (cb : CallbackResampler) :=
  {| _state := _state cb;
     _callback := _callback cb;
     _current_buffer := _current_buffer cb;
     _buffer_ndim := _buffer_ndim cb;
     _callback_error_msg := _callback_error_msg cb;
     _ratio := r;
     _converter_type := _converter_type cb;
     _channels := _channels cb |}.

Definition get_channels (cb : CallbackResampler) : Z := _channels cb.
Definition get_callback_error (cb : CallbackResampler) : string :=
  _callback_error_msg cb.
Definition clear_callback_error (cb : CallbackResampler) : CallbackResampler :=
  set_callback_error EmptyString cb.

(** [std::string::empty] *)
Definition empty (s : string) : bool :=
  match s with EmptyString => true | String _ _ => false end.

(** [_create]: the new converter state is given [this] as its callback
    data. *)
Definition _create : Method unit :=
  self <- this ;;
  cb_data <- this_address ;;
  r <- engine_callback_new (_converter_type self) (C.to_int (_channels self))
         cb_data ;;
  update (set_state (fst r)) ;;
  match fst r with
  | None => error_handler (snd r)
  | Some _ => ret tt
  end.

Definition _destroy : Method unit :=
  self <- this ;;
  match _state self with
  | Some st =>
      engine_delete (Some st) ;;
      update (set_state None)
  | None => ret tt
  end.

(** The constructor: the object exists when it returns. *)
Definition constructor {O} (callback_func : @callback_t py) (ratio : double)
    (converter_type : py_object) (channels : Z)
  : @M E py O CallbackResampler :=
  converter_type_int <- get_converter_type converter_type ;;
  let self :=
    {| _state := None;
       _callback := callback_func;
       _current_buffer := empty_array;
       _buffer_ndim := 0;
       _callback_error_msg := EmptyString;
       _ratio := ratio;
       _converter_type := converter_type_int;
       _channels := channels |} in
  fun s =>
    match _create (self, snd s) with
    | (Returns _, (self', w)) => (Returns self', (fst s, w))
    | (Throws e, (_, w)) => (Throws e, (fst s, w))
    | (Undefined, (_, w)) => (Undefined, (fst s, w))
    end.

(** [callback]: ask the producer for the next chunk; [None] becomes the
    default-constructed array. *)
Definition callback (s : CallbackResampler * world py)
  : nb_array_f32 * (CallbackResampler * world py) :=
  let '(cb, w) := s in
  let '(input_obj, p) := _callback cb (w_py w) in
  let w := log (Ev_producer input_obj) (with_py p w) in
  match input_obj with
  | None => (empty_array, (cb, w))
  | Some input =>
      let cb :=
        if (0 <? ndim input) && (_buffer_ndim cb =? 0)
        then set_buffer_ndim (ndim input) cb else cb in
      (input, (set_buffer input cb, w))
  end.

(** [the_callback_func]: the data source the engine is given. It returns
    the number of frames it has, and the array the engine may read them
    from when it set [*data]. *)
Definition the_callback_func (s : CallbackResampler * world py)
  : (Z * option nb_array_f32) * (CallbackResampler * world py) :=
  let cb_channels := C.to_int (get_channels (fst s)) in
  let '(input, (cb, w)) := callback s in
  let ndim := ndim input in
  let done (r : Z) (data : option nb_array_f32) (cb : CallbackResampler) :=
    ((r, data), (cb, log (Ev_bridge r) w)) in
  if ndim =? 0 then done 0 None cb
  else
    let num_frames := shape input 0 in
    if 2 <? ndim then
      done 0 None (set_callback_error at_most_2_dimensions cb)
    else
      let num_channels := if ndim =? 2 then shape input 1 else 1 in
      if negb (C.to_int num_channels =? cb_channels) || (num_channels =? 0) then
        done 0 None (set_callback_error invalid_channels cb)
      else
        done (C.to_long num_frames) (Some input) cb.

(** One call of [src_callback_read], made by the session at work:
    whenever the engine calls back, the bridge runs on the session that
    lives at the callback data, which is the session at work or another
    one; calling back an address where no session lives is undefined
    behaviour. *)
Fixpoint drive (p : pull lib) (s : CallbackResampler * world py)
  : outcome Z * (CallbackResampler * world py) :=
  match p with
  | Return frames after => (Returns frames, (fst s, with_lib after (snd s)))
  | Pull cb_data resume =>
      let w := log (Ev_callback cb_data) (snd s) in
      if Nat.eqb cb_data (w_this w) then
        let '((n, data), s') := the_callback_func (fst s, w) in
        drive (resume n data) s'
      else
        match session_at cb_data w with
        | Some other =>
            let '((n, data), (other', w')) := the_callback_func (other, w) in
            drive (resume n data) (fst s, put_session cb_data other' w')
        | None => (Undefined, (fst s, w))
        end
  end.

Definition engine_callback_read (frames : Z) : Method Z :=
  fun s =>
    let '(cb, w) := s in
    let w := log (Ev_callback_read (_state cb) (_ratio cb) frames) w in
    match
      drive (src_callback_read (_state cb) (_ratio cb) frames (w_lib w)) (cb, w)
    with
    | (Returns n, (cb', w')) =>
        (Returns n, (cb', log (Ev_callback_read_returned n) w'))
    | (Throws e, s') => (Throws e, s')
    | (Undefined, s') => (Undefined, s')
    end.

Definition read (frames : Z) : Method nb_array_f32 :=
  self <- this ;;
  let total_elements := C.to_size_t (frames * _channels self) in
  new_float total_elements ;;
  (match _state self with None => _create | Some _ => ret tt end) ;;
  update clear_callback_error ;;
  n <- engine_callback_read (C.to_long frames) ;;
  let output_frames_gen := C.to_size_t n in
  self <- this ;;
  err_code <-
    (if output_frames_gen =? 0 then engine_error (_state self) else ret 0) ;;
  let callback_error := get_callback_error self in
  (if negb (empty callback_error)
   then throw (domain_error callback_error) else ret tt) ;;
  (if output_frames_gen =? 0 then error_handler err_code else ret tt) ;;
  if (_channels self =? 1) && (_buffer_ndim self =? 1) then
    ret {| shape_of := [output_frames_gen] |}
  else
    ret {| shape_of := [output_frames_gen; _channels self] |}.

Definition set_starting_ratio (new_ratio : double) : Method unit :=
  self <- this ;;
  err <- engine_set_ratio (_state self) new_ratio ;;
  error_handler err ;;
  update (set_ratio_field new_ratio).

Definition reset : Method unit :=
  self <- this ;;
  err <- engine_reset (_state self) ;;
  error_handler err.

Definition __enter__ : Method CallbackResampler := this.

Definition __exit__ (exc_type exc exc_tb : py_object) : Method unit := _destroy.

(** The copy constructor: the producer, the ratio, the converter type and
    the channel count are copied; the buffer, the recorded rank and the
    deferred-error slot start from their defaults. *)
Definition copy_constructor {O} (r : CallbackResampler)
  : @M E py O CallbackResampler :=
  c <- engine_clone (_state r) ;;
  (match fst c with
   | None => error_handler (snd c)
   | Some _ => ret tt
   end) ;;
  ret {| _state := fst c;
         _callback := _callback r;
         _current_buffer := empty_array;
         _buffer_ndim := 0;
         _callback_error_msg := EmptyString;
         _ratio := _ratio r;
         _converter_type := _converter_type r;
         _channels := _channels r |}.

Definition clone : Method CallbackResampler :=
  self <- this ;;
  copy_constructor self.

(** The move constructor, as far as the new object goes: it has every
    member of [r] as it is, the converter state with the callback data
    the engine holds for it. ([r] is left without state and without
    producer, to be destroyed.) *)
Definition move_constructor (r : CallbackResampler) : CallbackResampler :=
  {| _state := _state r;
     _callback := _callback r;
     _current_buffer := _current_buffer r;
     _buffer_ndim := _buffer_ndim r;
     _callback_error_msg := _callback_error_msg r;
     _ratio := _ratio r;
     _converter_type := _converter_type r;
     _channels := _channels r |}.

(** [~CallbackResampler()] *)
Definition destructor : Method unit := _destroy.

(** The attribute [ratio] as Python sees it ([def_rw]): reading it, and
    assigning to it, which the engine is not told. The attributes
    [converter_type] and [channels] can only be read ([def_ro]). *)
Definition getattr_ratio : Method double :=
  self <- this ;;
  ret (_ratio self).

Definition setattr_ratio (ratio : double) : Method unit :=
  trace (Ev_ratio_assigned ratio) ;;
  update (set_ratio_field ratio).

(** The constructor as Python calls it,
    [nb::init<const callback_t &, double, const nb::object &, int>]: the
    channel count arrives as an [int] and becomes the [size_t] of the C++
    constructor. *)
Definition __init__ {O} (callback_func : @callback_t py) (ratio : double)
    (converter_type : py_object) (channels : Z)
  : @M E py O CallbackResampler :=
  constructor callback_func ratio converter_type (C.to_size_t channels).

End Class.

End CallbackResampler.

(* ===================================================================== *)
(** ** Callback sessions as Python holds them *)
(* ===================================================================== *)

(** Python holds every callback session in an object of its own, at an
    address that does not change, and works on one session at a time
    ([class_<CallbackResampler>] and its [def]s). *)
Module Python.

Section Sessions.

Context {E : Engine} {py : Type}.

(** A method called on the session that lives at [a]. *)
Definition call_method {A : Type} (a : address)
    (m : @M E py (CallbackResampler.CallbackResampler py) A) (w : world py)
  : outcome A * world py :=
  match session_at a w with
  | Some cb =>
      let '(r, (cb', w')) := m (cb, with_this a (drop_session a w)) in
      (r, put_session a cb' w')
  | None => (Undefined, w)
  end.

(** [CallbackResampler(callback, ratio, converter_type, channels)]: the
    session is constructed in place, in the storage of the new Python
    object, at [a]. *)
Definition init (a : address) (callback_func : @callback_t py)
    (ratio : double) (converter_type : py_object) (channels : Z)
    (w : world py) : outcome unit * world py :=
  match
    CallbackResampler.__init__ callback_func ratio converter_type channels
      (tt, with_this a w)
  with
  | (Returns cb, (_, w')) => (Returns tt, put_session a cb w')
  | (Throws e, (_, w')) => (Throws e, w')
  | (Undefined, (_, w')) => (Undefined, w')
  end.

(** [session.clone()] on the session at [a]: the copy constructor builds
    the copy, and the copy is moved into the storage of a new Python
    object, at [b]. *)
Definition clone (a b : address) (w : world py) : outcome unit * world py :=
  match call_method a CallbackResampler.clone w with
  | (Returns copy, w') =>
      (Returns tt, put_session b (CallbackResampler.move_constructor copy) w')
  | (Throws e, w') => (Throws e, w')
  | (Undefined, w') => (Undefined, w')
  end.

(** The Python object at [a] is collected: the destructor runs, and no
    session lives at [a] any more. *)
Definition del (a : address) (w : world py) : world py :=
  drop_session a (snd (call_method a CallbackResampler.destructor w)).

End Sessions.

End Python.

(* ===================================================================== *)
(** ** A stand-in engine and scripted producers *)
(* ===================================================================== *)

(** Test doubles on which the model runs on concrete inputs. Nothing
    general is proved from them: the theorems quantify over every
    [Engine] and every producer. *)
Module Sim.

(** The Python side is the list of answers the producer still has to
    give; after the last one it answers [None] forever. *)
Definition script : Type := list (option nb_array_f32).

Definition next_chunk : @callback_t script :=
  fun p =>
    match p with
    | [] => (None, [])
    | x :: rest => (x, rest)
    end.

(** A chunk of [frames] frames of rank 1, and one of rank 2. *)
Definition mono (frames : Z) : option nb_array_f32 :=
  Some {| shape_of := [frames] |}.
Definition chunk (frames channels : Z) : option nb_array_f32 :=
  Some {| shape_of := [frames; channels] |}.

(** The engine's message table: a text for the codes up to 23. *)
Definition messages (errnum : Z) : option string :=
  if (0 <=? errnum) && (errnum <=? 23)
  then Some "libsamplerate message"%string else None.

(** The stand-in's state: for every converter state created so far, in
    order, the callback data it holds (none for a push-mode state).
    Converter states are numbered from 1 as they are created. *)
Definition states : Type := list (option address).

Definition callback_data_of (st : nat) (l : states) : option address :=
  match st with
  | O => None
  | S i => nth i l None
  end.

(** A pull-mode read that copies frames through: it asks the source, with
    the callback data [cb_data], until it has [wanted] frames or the
    source has none left. *)
Fixpoint pull_until (fuel : nat) (wanted got : Z) (cb_data : address)
    (l : states) : pull states :=
  match fuel with
  | O => Return got l
  | S fuel' =>
      if wanted <=? 0 then Return got l
      else
        Pull cb_data (fun n _ =>
          if n <=? 0 then Return got l
          else pull_until fuel' (wanted - n) (got + Z.min n wanted) cb_data l)
  end.

(** The bytes the stand-in's allocator has to give. *)
Definition memory : Z := 2 ^ 32.

Definition set_counts (used gen : Z) (d : SRC_DATA) : SRC_DATA :=
  {| input_frames := input_frames d;
     output_frames := output_frames d;
     input_frames_used := used;
     output_frames_gen := gen;
     end_of_input := end_of_input d;
     src_ratio := src_ratio d |}.

Definition good_converter (converter_type channels : Z) : bool :=
  (0 <=? converter_type) && (converter_type <=? 4) && (1 <=? channels).

(** An engine whose push-mode calls answer by [reply]. A pull-mode state
    keeps the callback data it was created with, and calls it back; a
    clone is a copy of the whole state, callback data included, as
    [src_clone] of libsamplerate makes it. *)
Definition engine (reply : SRC_DATA -> Z * SRC_DATA) : Engine :=
  {| lib := states;
     SRC_STATE := nat;
     src_strerror := messages;
     src_new := fun ct ch l =>
       if good_converter ct ch
       then (Some (S (List.length l)), 0, l ++ [None]) else (None, 10, l);
     src_callback_new := fun ct ch cb_data l =>
       if good_converter ct ch
       then (Some (S (List.length l)), 0, l ++ [Some cb_data])
       else (None, 10, l);
     src_clone := fun st l =>
       match st with
       | Some n =>
           (Some (S (List.length l)), 0, l ++ [callback_data_of n l])
       | None => (None, 2, l)
       end;
     src_delete := fun _ l => l;
     src_simple := fun d _ _ l => (fst (reply d), snd (reply d), l);
     src_process := fun _ d l => (fst (reply d), snd (reply d), l);
     src_set_ratio := fun _ r l =>
       match r with
       | S754_finite false _ _ => (0, l)
       | _ => (6, l)
       end;
     src_reset := fun st l => (match st with Some _ => 0 | None => 2 end, l);
     src_error := fun st _ => match st with Some _ => 0 | None => 2 end;
     src_callback_read := fun st _ frames l =>
       match st with
       | Some n =>
           match callback_data_of n l with
           | Some cb_data => pull_until (Z.to_nat frames) frames 0 cb_data l
           | None => Return 0 l
           end
       | None => Return 0 l
       end;
     operator_new := fun bytes l => (negb (memory <? bytes), l) |}.

(** The well-behaved engine: one output frame per input frame, as far as
    the output buffer goes. *)
Definition copy_through (d : SRC_DATA) : Z * SRC_DATA :=
  let n := Z.min (input_frames d) (output_frames d) in
  (0, set_counts n n d).

Definition sim : Engine := engine copy_through.

(** An engine that breaks its contract: it reports [error] and one frame
    more than the output buffer holds. *)
Definition overrun (error : Z) (d : SRC_DATA) : Z * SRC_DATA :=
  (error, set_counts (input_frames d) (output_frames d + 1) d).

Definition broken (error : Z) : Engine := engine (overrun error).

(** Where the session at work lives, when nothing else is said. *)
Definition here : address := 1%nat.

Definition start (e : Engine) (l : @lib e) (p : script) : @world e script :=
  {| w_lib := l; w_py := p; w_trace := [];
     w_this := here; w_sessions := [] |}.

(** 1.0 and 0.5 *)
Definition one : double := S754_finite false 4503599627370496 (-52).
Definition half : double := S754_finite false 4503599627370496 (-53).

(** The double nearest to 0.1, a little above it. *)
Definition tenth : double := S754_finite false 7205759403792794 (-56).

(** [2^64 - 2048], the largest double below [2^64]. *)
Definition below_2_64 : double := S754_finite false 9007199254740991 11.

(** A mono session on [e], closed (no converter state yet). *)
Definition closed_session (e : Engine) (channels : Z)
  : @CallbackResampler.CallbackResampler e script :=
  {| CallbackResampler._state := None;
     CallbackResampler._callback := next_chunk;
     CallbackResampler._current_buffer := empty_array;
     CallbackResampler._buffer_ndim := 0;
     CallbackResampler._callback_error_msg := EmptyString;
     CallbackResampler._ratio := one;
     CallbackResampler._converter_type := 0;
     CallbackResampler._channels := channels |}.

(** Python builds a mono session on [e] at address 1, with the producer
    that answers by the script, and clones it: the clone lives at
    address 2. *)
Definition original : address := 1%nat.
Definition copy : address := 2%nat.

Definition cloned (e : Engine) (l : @lib e) (p : script) : @world e script :=
  snd (Python.clone original copy
         (snd (Python.init original next_chunk one (PyStr "sinc_best") 1
                 (start e l p)))).

(** An incremental session on [e] that holds the converter state [st]. *)
Definition resampler (e : Engine) (st : option (@SRC_STATE e)) (channels : Z)
  : @Resampler.Resampler e :=
  {| Resampler._state := st;
     Resampler._converter_type := 0;
     Resampler._channels := channels |}.

End Sim.

(* ===================================================================== *)
(** ** Vocabulary of the properties *)
(* ===================================================================== *)

Section Vocabulary.

Context {E : Engine} {py : Type}.

Import CallbackResampler.

(** What a non-zero engine status becomes. *)
Definition status_error {A : Type} (status : Z) : outcome A :=
  if (1 <=? status) && (status <=? 23) then
    match src_strerror status with
    | Some message => Throws (ConversionFailed message)
    | None => Undefined
    end
  else Throws (FatalEngineContract unknown_error_code).

(** The capacity rule of [resample] and [process], for a planned capacity
    [cap], the engine's status [err] and its frame count [gen], which the
    bindings read as [(size_t)output_frames_gen]. *)
Definition capacity_contract (cap err gen : Z) (r : outcome nb_array_f32)
  : Prop :=
  (err = 0 -> cap < C.to_size_t gen ->
   r = Throws (FatalEngineContract more_than_expected))
  /\ (err <> 0 -> r = status_error err)
  /\ (cap < C.to_size_t gen -> forall a, r <> Returns a)
  /\ (forall a, r = Returns a ->
      err = 0 /\ shape a 0 = C.to_size_t gen /\ C.to_size_t gen <= cap).

(** [num_channels] as the bridge reads it off a chunk of rank 1 or 2. *)
Definition num_channels (a : nb_array_f32) : Z :=
  if ndim a =? 2 then shape a 1 else 1.

(** The bridge's channel test on a chunk of rank 1 or 2:
    [(int)num_channels != cb_channels || num_channels == 0]. *)
Definition channel_mismatch (channels : Z) (a : nb_array_f32) : bool :=
  (1 <=? ndim a) && (ndim a <=? 2)
  && (negb (C.to_int (num_channels a) =? C.to_int channels)
      || (num_channels a =? 0)).

(** The message the bridge records for a producer answer, if any. *)
Definition bridge_records (channels : Z) (x : option nb_array_f32)
  : option string :=
  match x with
  | None => None
  | Some a =>
      if 2 <? ndim a then Some at_most_2_dimensions
      else if channel_mismatch channels a then Some invalid_channels
      else None
  end.

(** The frame count the bridge reports to the engine for a producer
    answer. *)
Definition bridge_returns (channels : Z) (x : option nb_array_f32) : Z :=
  match x with
  | None => 0
  | Some a =>
      if ndim a =? 0 then 0
      else match bridge_records channels x with
           | Some _ => 0
           | None => C.to_long (shape a 0)
           end
  end.

(** The session after the bridge has handled a producer answer. *)
Definition absorb (cb : CallbackResampler py) (x : option nb_array_f32)
  : CallbackResampler py :=
  match x with
  | None => cb
  | Some a =>
      let cb1 :=
        set_buffer a
          (if (0 <? ndim a) && (_buffer_ndim cb =? 0)
           then set_buffer_ndim (ndim a) cb else cb) in
      match bridge_records (_channels cb) x with
      | Some message => set_callback_error message cb1
      | None => cb1
      end
  end.

(** The events of the engine calling back the session at [a], of
    [channels] channels, whose bridge handles the producer answers [xs]. *)
Definition bridge_events (a : address) (channels : Z)
    (xs : list (option nb_array_f32)) : list (@event E) :=
  flat_map
    (fun x =>
       [Ev_callback a; Ev_producer x; Ev_bridge (bridge_returns channels x)])
    xs.

(** An event of the engine calling back, whatever session it calls. *)
Definition bridging (ev : @event E) : Prop :=
  match ev with
  | Ev_callback _ | Ev_producer _ | Ev_bridge _ => True
  | _ => False
  end.

(** Whenever the engine called back, among the events [evs], it called
    the session that lives at [a]. *)
Definition called_back_only (a : address) (evs : list (@event E)) : Prop :=
  forall cb_data, In (Ev_callback cb_data) evs -> cb_data = a.

(** The producer answers the bridge got while it ran on the session that
    lives at [a], among the events [evs]: those that follow a call back
    of [a]; [calling] says whether the events begin within such a call. *)
Fixpoint answers_to (a : address) (calling : bool) (evs : list (@event E))
  : list (option nb_array_f32) :=
  match evs with
  | [] => []
  | ev :: rest =>
      match ev with
      | Ev_callback cb_data => answers_to a (Nat.eqb cb_data a) rest
      | Ev_producer x =>
          (if calling then [x] else []) ++ answers_to a calling rest
      | _ => answers_to a calling rest
      end
  end.

Definition own_answers (a : address) (evs : list (@event E))
  : list (option nb_array_f32) :=
  answers_to a false evs.

(** Whether the events [evs] end within a call back of [a]. *)
Definition calling_after (a : address) (calling : bool)
    (evs : list (@event E)) : bool :=
  fold_left
    (fun c ev =>
       match ev with
       | Ev_callback cb_data => Nat.eqb cb_data a
       | _ => c
       end) evs calling.

(** Among the events [evs], the engine called back the session at [a],
    the producer answered [x], and the bridge returned [n] frames. *)
Definition handed (a : address) (x : option nb_array_f32) (n : Z)
    (evs : list (@event E)) : Prop :=
  exists before after,
    evs = before ++ Ev_callback a :: Ev_producer x :: Ev_bridge n :: after.

(** The producer answers among some events. *)
Definition producer_answers (evs : list (@event E))
  : list (option nb_array_f32) :=
  flat_map (fun e => match e with Ev_producer x => [x] | _ => [] end) evs.

(** The rank [_buffer_ndim] holds after the answers [xs], from [n0]: the
    rank of the first array of rank above 0, once and for all. *)
Definition sticky_ndim (n0 : Z) (xs : list (option nb_array_f32)) : Z :=
  fold_left
    (fun n x =>
       match x with
       | Some a => if (0 <? ndim a) && (n =? 0) then ndim a else n
       | None => n
       end) xs n0.

(** The rank of the first producer answer that is an array of rank above
    0; 0 when there is none. *)
Definition first_rank (xs : list (option nb_array_f32)) : Z := sticky_ndim 0 xs.

(** The message in the deferred-error slot after the answers [xs], from
    [m0]: the last one the bridge recorded. *)
Definition deferred_error (channels : Z) (m0 : string)
    (xs : list (option nb_array_f32)) : string :=
  fold_left
    (fun m x =>
       match bridge_records channels x with
       | Some message => message
       | None => m
       end) xs m0.

(** The array [read] returns for [gen] frames. *)
Definition read_result (cb : CallbackResampler py) (gen : Z) : nb_array_f32 :=
  if (_channels cb =? 1) && (_buffer_ndim cb =? 1)
  then {| shape_of := [gen] |}
  else {| shape_of := [gen; _channels cb] |}.

(** What [read] answers once [src_callback_read] has returned [n], the
    session being [cb'] by then and the engine's status [status]. *)
Definition read_outcome (cb' : CallbackResampler py) (n status : Z)
  : outcome nb_array_f32 :=
  if negb (empty (_callback_error_msg cb')) then
    Throws (CallbackError (_callback_error_msg cb'))
  else if C.to_size_t n =? 0 then
    if status =? 0 then Returns (read_result cb' 0) else status_error status
  else Returns (read_result cb' (C.to_size_t n)).

(** What [read] does once the output is allocated and the session holds
    a converter state: the pull-mode read, and the report of its result
    (the source from [clear_callback_error] on). *)
Definition read_open (frames : Z)
  : @M E py (CallbackResampler py) nb_array_f32 :=
  update clear_callback_error ;;
  n <- engine_callback_read (C.to_long frames) ;;
  let output_frames_gen := C.to_size_t n in
  self <- this ;;
  err_code <-
    (if output_frames_gen =? 0 then engine_error (_state self) else ret 0) ;;
  let callback_error := get_callback_error self in
  (if negb (empty callback_error)
   then throw (domain_error callback_error) else ret tt) ;;
  (if output_frames_gen =? 0 then error_handler err_code else ret tt) ;;
  if (_channels self =? 1) && (_buffer_ndim self =? 1) then
    ret {| shape_of := [output_frames_gen] |}
  else
    ret {| shape_of := [output_frames_gen; _channels self] |}.

(** An event that is no call back and no producer answer. *)
Definition aside (ev : @event E) : Prop :=
  match ev with
  | Ev_callback _ | Ev_producer _ => False
  | _ => True
  end.

(** The bytes asked of the allocator for an output of [cap] frames of
    [channels] channels. *)
Definition output_bytes (cap channels : Z) : Z :=
  C.to_size_t (cap * C.to_size_t channels) * sizeof_float.

(** The bytes [read] allocates for [frames] frames. *)
Definition read_bytes (cb : CallbackResampler py) (frames : Z) : Z :=
  C.to_size_t (frames * _channels cb) * sizeof_float.

(** The five methods of a session that work on its converter state, and
    a session's life as a list of calls of them; an exception ends a
    call, not the session. *)
Inductive method_call :=
| call_read (frames : Z)
| call_set_starting_ratio (new_ratio : double)
| call_reset
| call_enter
| call_exit.

Definition invoke (c : method_call) (s : CallbackResampler py * world py)
  : CallbackResampler py * world py :=
  match c with
  | call_read frames => snd (read frames s)
  | call_set_starting_ratio new_ratio => snd (set_starting_ratio new_ratio s)
  | call_reset => snd (reset s)
  | call_enter => snd (__enter__ s)
  | call_exit => snd (__exit__ PyNone PyNone PyNone s)
  end.

Definition invoke_all (calls : list method_call)
    (s : CallbackResampler py * world py) : CallbackResampler py * world py :=
  fold_left (fun s c => invoke c s) calls s.

(** Everything Python can do to a callback session: the five methods
    above; [clone], whose copy Python keeps at an address [b] (building
    a session from this one, [CallbackResampler(session)], comes to the
    same copy and move); and an assignment to the attribute [ratio], the
    one attribute bound writable. (Reading an attribute changes
    nothing.) *)
Inductive session_use :=
| use_method (c : method_call)
| use_clone (b : address)
| use_assign_ratio (ratio : double).

Definition apply_use (u : session_use) (s : CallbackResampler py * world py)
  : CallbackResampler py * world py :=
  match u with
  | use_method c => invoke c s
  | use_clone b =>
      match clone s with
      | (Returns copy, (cb, w)) => (cb, put_session b (move_constructor copy) w)
      | (_, s') => s'
      end
  | use_assign_ratio ratio => snd (setattr_ratio ratio s)
  end.

Definition apply_uses (uses : list session_use)
    (s : CallbackResampler py * world py) : CallbackResampler py * world py :=
  fold_left (fun s u => apply_use u s) uses s.

End Vocabulary.

(* ===================================================================== *)
(** ** Vocabulary of the planner *)
(* ===================================================================== *)

(** The second half of [binary_round_aux]: the rounded mantissa is shifted
    once more, should rounding have carried into a 54th digit. *)
Definition finish (s : bool) (m : Z) (e : Z) : double :=
  let '(mrs, e') := shr_fexp Double.prec Double.emax m e loc_Exact in
  match shr_m mrs with
  | Z0 => S754_zero s
  | Zpos m' =>
      if e' <=? Double.emax - Double.prec then S754_finite s m' e'
      else S754_infinity s
  | Zneg _ => S754_nan
  end.

(** A double that is neither negative nor NaN, its mantissa of at most 53
    digits. *)
Definition nonneg_double (x : double) : Prop :=
  match x with
  | S754_zero s | S754_infinity s => s = false
  | S754_finite s m _ => s = false /\ Zpos (digits2_pos m) <= 53
  | S754_nan => False
  end.

(** The least integer not below [num_frames * sr_ratio], the product taken
    exactly, with no rounding. *)
Definition exact_ceiling (num_frames : Z) (sr_ratio : double) : option Z :=
  match sr_ratio with
  | S754_zero _ => Some 0
  | S754_finite s m e =>
      let v := num_frames * cond_Zopp s (Zpos m) in
      Some (if 0 <=? e then v * 2 ^ e else Double.cdiv_pow2 v (- e))
  | S754_infinity _ | S754_nan => None
  end.

(* ===================================================================== *)
(** ** Vocabulary of the sessions' lives *)
(* ===================================================================== *)

Section Lives.

Context {E : Engine} {py : Type}.

(** What [resample] asks of the engine, having planned [cap] frames. *)
Definition resample_request (input : nb_array_f32) (sr_ratio : double)
    (cap : Z) : SRC_DATA :=
  {| input_frames := C.to_long (shape input 0);
     output_frames := C.to_long cap;
     input_frames_used := 0;
     output_frames_gen := 0;
     end_of_input := 0;
     src_ratio := sr_ratio |}.

(** What [process] asks of the engine, having planned [cap] frames. *)
Definition process_request (input : nb_array_f32) (sr_ratio : double)
    (end_of_input : bool) (cap : Z) : SRC_DATA :=
  {| input_frames := C.to_long (shape input 0);
     output_frames := C.to_long cap;
     input_frames_used := 0;
     output_frames_gen := 0;
     end_of_input := if end_of_input then 1 else 0;
     src_ratio := sr_ratio |}.

(** The calls Python makes on an incremental session. *)
Inductive resampler_call :=
| r_process (input : nb_array_f32) (sr_ratio : double) (end_of_input : bool)
| r_set_ratio (new_ratio : double)
| r_reset
| r_clone.

Definition invoke_resampler (c : resampler_call)
    (s : Resampler.Resampler * world py) : Resampler.Resampler * world py :=
  match c with
  | r_process input sr_ratio end_of_input =>
      snd (Resampler.process input sr_ratio end_of_input s)
  | r_set_ratio new_ratio => snd (Resampler.set_ratio new_ratio s)
  | r_reset => snd (Resampler.reset s)
  | r_clone => snd (Resampler.clone s)
  end.

(** A call whose input, if it has one, has a first dimension to read the
    frame count from. *)
Definition ranked (c : resampler_call) : Prop :=
  match c with
  | r_process input _ _ => 1 <= ndim input
  | _ => True
  end.

Definition invoke_all_resampler (calls : list resampler_call)
    (s : Resampler.Resampler * world py) : Resampler.Resampler * world py :=
  fold_left (fun s c => invoke_resampler c s) calls s.

(** An event an incremental session holding the converter state [h] may
    leave: an engine call on [h], or a look into the message table. *)
Definition on_state (h : option SRC_STATE) (ev : @event E) : Prop :=
  match ev with
  | Ev_process st _ _ _ | Ev_set_ratio st _ _ | Ev_reset st _ => st = h
  | Ev_clone orig _ _ => orig = h
  | Ev_strerror _ => True
  | _ => False
  end.

(** The converter state a callback session holds after the events [evs],
    having held [h] before: what the last [src_callback_new] returned, and
    none after a [src_delete]. *)
Definition held_after (h : option SRC_STATE) (evs : list (@event E))
  : option SRC_STATE :=
  fold_left
    (fun h ev =>
       match ev with
       | Ev_callback_new _ _ st _ => st
       | Ev_delete _ => None
       | _ => h
       end) evs h.

(** The discipline of a callback session on its converter state, along
    the events it leaves, holding [h] at first: a state is created only
    while none is held; the state deleted is the one held, and there is
    one; every other engine call is on the state held; and the session
    makes no call of the incremental or the bulk interface. *)
Fixpoint disciplined (h : option SRC_STATE) (evs : list (@event E)) : Prop :=
  match evs with
  | [] => True
  | ev :: rest =>
      match ev with
      | Ev_callback_new _ _ st _ => h = None /\ disciplined st rest
      | Ev_delete st => st = h /\ h <> None /\ disciplined None rest
      | Ev_callback_read st _ _ | Ev_set_ratio st _ _ | Ev_reset st _
      | Ev_error st _ => st = h /\ disciplined h rest
      | Ev_strerror _ | Ev_producer _ | Ev_bridge _ | Ev_callback _
      | Ev_callback_read_returned _ | Ev_ratio_assigned _ =>
          disciplined h rest
      | Ev_new _ _ _ _ | Ev_clone _ _ _ | Ev_simple _ _ _ _ _
      | Ev_process _ _ _ _ => False
      end
  end.

(** The ratio a callback session records after the events [evs], having
    recorded [r] before: the one last assigned to the attribute, or given
    to a [src_set_ratio] that the engine accepted, whichever came last. *)
Definition ratio_after (r : double) (evs : list (@event E)) : double :=
  fold_left
    (fun r ev =>
       match ev with
       | Ev_set_ratio _ new_ratio err => if err =? 0 then new_ratio else r
       | Ev_ratio_assigned ratio => ratio
       | _ => r
       end) evs r.

(** The pull-mode reads among some events, each with the ratio it asked
    for and the ratio recorded by then. *)
Fixpoint reads_with_ratio (r : double) (evs : list (@event E))
  : list (double * double) :=
  match evs with
  | [] => []
  | ev :: rest =>
      match ev with
      | Ev_callback_read _ asked _ => (asked, r) :: reads_with_ratio r rest
      | _ => reads_with_ratio (ratio_after r [ev]) rest
      end
  end.

(** What uses of a callback session made of its ratio and of what it was
    built with, from [cb] to [cb'], by the events [evs] they left: it
    records the ratio the events leave, and every pull-mode read asked
    for the ratio recorded by then; the producer, the converter type and
    the channel count are the same. *)
Definition kept (cb cb' : CallbackResampler.CallbackResampler py)
    (evs : list (@event E)) : Prop :=
  CallbackResampler._ratio cb'
  = ratio_after (CallbackResampler._ratio cb) evs
  /\ (forall asked recorded,
        In (asked, recorded)
          (reads_with_ratio (CallbackResampler._ratio cb) evs) ->
        asked = recorded)
  /\ CallbackResampler._callback cb' = CallbackResampler._callback cb
  /\ CallbackResampler._converter_type cb'
     = CallbackResampler._converter_type cb
  /\ CallbackResampler._channels cb' = CallbackResampler._channels cb.

(** What calls on a callback session made of it, from [cb] to [cb'], by
    the events [evs] they left: the discipline on the converter state was
    kept and the session holds the state the events leave; and the ratio
    and what the session was built with are as [kept] says. *)
Definition lived (cb cb' : CallbackResampler.CallbackResampler py)
    (evs : list (@event E)) : Prop :=
  disciplined (CallbackResampler._state cb) evs
  /\ CallbackResampler._state cb' = held_after (CallbackResampler._state cb) evs
  /\ kept cb cb' evs.

(** An event that neither creates nor deletes a converter state, changes
    no ratio and is no pull-mode read, and that is on the state [h] when
    it is an engine call. *)
Definition quiet (h : option SRC_STATE) (ev : @event E) : Prop :=
  match ev with
  | Ev_strerror _ | Ev_producer _ | Ev_bridge _ | Ev_callback _
  | Ev_callback_read_returned _ => True
  | Ev_error st _ => st = h
  | _ => False
  end.

End Lives.

(* ===================================================================== *)
(** * Properties *)
(* ===================================================================== *)

(** The events a call added, from an equation between traces. *)
Ltac new_events H :=
  cbn [w_trace log with_lib with_py fst snd] in H;
  repeat rewrite <- app_assoc in H;
  first [ apply app_inv_head in H
        | rewrite <- app_nil_r in H at 1; apply app_inv_head in H ].

(** Unfolding the monad. *)
Ltac run :=
  cbv beta delta
    [bind ret throw undefined this update on_world call trace strerror
     new_float engine_new engine_callback_new engine_clone engine_delete
     engine_simple engine_process engine_set_ratio engine_reset engine_error
     new_ResamplingException] in *.

(** ** Error translation *)

Section ErrorTranslator.

Context {E : Engine} {py : Type}.

(** [error_handler], case by case. *)
Lemma error_handler_run (O : Type) (errnum : Z) (s : O * world py) :
  error_handler errnum s =
    if errnum =? 0 then (Returns tt, s)
    else if (1 <=? errnum) && (errnum <=? 23) then
      (match src_strerror errnum with
       | Some message => Throws (ConversionFailed message)
       | None => Undefined
       end,
       (fst s, log (Ev_strerror errnum) (snd s)))
    else (Throws (FatalEngineContract unknown_error_code), s).
Proof.
  unfold error_handler.
  destruct (Z.eqb_spec errnum 0) as [->|Hnz]; [reflexivity|].
  destruct (Z.ltb_spec 0 errnum), (Z.ltb_spec errnum 24),
    (Z.leb_spec 1 errnum), (Z.leb_spec errnum 23); try lia; simpl;
    try reflexivity.
  run. destruct s as [o w]; simpl.
  destruct (src_strerror errnum); reflexivity.
Qed.

(** C1, as the code has it. [error_handler] returns for 0 and builds no
    error. Every code from 1 to 23 (23 included) becomes
    [ConversionFailed] with the text of the engine's table, which is asked
    once, for that code. Every other code, 24 and above or negative,
    becomes [FatalEngineContract] with the unknown-error-code message, and
    the table is not asked: the trace stays as it was. *)
Theorem error_handler_translates (O : Type) (errnum : Z) (s : O * world py) :
  error_handler errnum s =
    if errnum =? 0 then (Returns tt, s)
    else if (1 <=? errnum) && (errnum <=? 23) then
      (match src_strerror errnum with
       | Some message => Throws (ConversionFailed message)
       | None => Undefined
       end,
       (fst s, log (Ev_strerror errnum) (snd s)))
    else (Throws (FatalEngineContract unknown_error_code), s).
Proof.
  unfold error_handler.
  destruct (Z.eqb_spec errnum 0) as [->|Hnz]; [reflexivity|].
  destruct (Z.ltb_spec 0 errnum), (Z.ltb_spec errnum 24),
    (Z.leb_spec 1 errnum), (Z.leb_spec errnum 23); try lia; simpl;
    try reflexivity.
  run. destruct s as [o w]; simpl.
  destruct (src_strerror errnum); reflexivity.
Qed.

(** Success leaves the state alone. *)
Lemma error_handler_0 (O : Type) (s : O * world py) :
  error_handler 0 s = (Returns tt, s).
Proof. reflexivity. Qed.

(** [error_handler] returns only for 0, and never touches [this]. *)
Lemma error_handler_returns (O : Type) (errnum : Z) (s s' : O * world py) u :
  error_handler errnum s = (Returns u, s') -> errnum = 0 /\ s' = s.
Proof.
  rewrite error_handler_run.
  destruct (Z.eqb_spec errnum 0) as [->|Hnz].
  - intros [= _ <-]. auto.
  - destruct ((1 <=? errnum) && (errnum <=? 23)).
    + destruct (src_strerror errnum); discriminate.
    + discriminate.
Qed.

(** A non-zero status makes [error_handler] fail with [status_error]. *)
Lemma error_handler_fails (O A : Type) (errnum : Z) (s : O * world py) :
  errnum <> 0 ->
  forall k : unit -> M O A,
    fst ((error_handler errnum ;; k tt) s) = status_error errnum.
Proof.
  intros Hnz k. unfold bind. rewrite error_handler_run.
  apply Z.eqb_neq in Hnz. rewrite Hnz. unfold status_error.
  destruct ((1 <=? errnum) && (errnum <=? 23)); [|reflexivity].
  destruct (src_strerror errnum); reflexivity.
Qed.

(** [error_handler] records at most a look at the message table. *)
Lemma error_handler_trace (O : Type) (errnum : Z) (s : O * world py) :
  fst (snd (error_handler errnum s)) = fst s
  /\ exists tail,
       w_trace (snd (snd (error_handler errnum s))) = w_trace (snd s) ++ tail
       /\ forall e, In e tail -> e = Ev_strerror errnum.
Proof.
  rewrite error_handler_run.
  destruct (errnum =? 0).
  - split; [reflexivity|]. exists []. rewrite app_nil_r.
    split; [reflexivity|intros ? []].
  - destruct ((1 <=? errnum) && (errnum <=? 23)).
    + split; [reflexivity|]. exists [Ev_strerror errnum].
      split; [reflexivity|intros ? [<-|[]]; reflexivity].
    + split; [reflexivity|]. exists []. rewrite app_nil_r.
      split; [reflexivity|intros ? []].
Qed.

Lemma get_converter_type_pure (O : Type) (obj : py_object) (s : O * world py) :
  snd (get_converter_type obj s) = s
  /\ fst (get_converter_type obj s) <> Undefined.
Proof.
  unfold get_converter_type.
  destruct obj; run;
    repeat match goal with
           | |- context [if ?c then _ else _] => destruct c
           end;
    cbn; (split; [reflexivity | discriminate]).
Qed.

Lemma if_ret (O A : Type) (c : bool) (a b : A) (s : O * world py) :
  (if c then ret a else ret b) s = (Returns (if c then a else b), s).
Proof. destruct c; reflexivity. Qed.

Lemma error_handler_keeps_this (O : Type) (errnum : Z) (s : O * world py) :
  fst (snd (error_handler errnum s)) = fst s.
Proof.
  rewrite error_handler_run.
  destruct (errnum =? 0); [reflexivity|].
  destruct ((1 <=? errnum) && (errnum <=? 23)); reflexivity.
Qed.

(** [new float[n]], case by case: it leaves no event, and [this] alone. *)
Lemma new_float_run (O : Type) (n : Z) (s : O * world py) :
  new_float n s =
    if C.SIZE_MAX <? n * sizeof_float then (Throws bad_alloc, s)
    else
      let answer := operator_new (n * sizeof_float) (w_lib (snd s)) in
      (if fst answer then Returns tt else Throws bad_alloc,
       (fst s, with_lib (snd answer) (snd s))).
Proof.
  unfold new_float. destruct (C.SIZE_MAX <? n * sizeof_float); [reflexivity|].
  cbv zeta. destruct (operator_new _ _) as [ok l]. reflexivity.
Qed.

(** What an allocation leaves of the world: everything but the native
    side. *)
Lemma new_float_keeps (O : Type) (n : Z) (s : O * world py) :
  fst (snd (new_float n s)) = fst s
  /\ w_trace (snd (snd (new_float n s))) = w_trace (snd s)
  /\ w_py (snd (snd (new_float n s))) = w_py (snd s)
  /\ w_this (snd (snd (new_float n s))) = w_this (snd s)
  /\ w_sessions (snd (snd (new_float n s))) = w_sessions (snd s)
  /\ (fst (new_float n s) = Returns tt \/ fst (new_float n s) = Throws bad_alloc).
Proof.
  rewrite new_float_run.
  destruct (C.SIZE_MAX <? n * sizeof_float); [cbn; auto 10|].
  cbv zeta. destruct (fst (operator_new _ _)); cbn; auto 10.
Qed.

End ErrorTranslator.

(** C1 as stated fails at 23: the code builds [ConversionFailed] from the
    table's text for 23, and asks the table for it. *)
Lemma error_handler_23_is_ConversionFailed :
  error_handler (E := Sim.sim) 23 (tt, Sim.start Sim.sim [] []) =
    (Throws (ConversionFailed "libsamplerate message"),
     (tt, log (Ev_strerror 23) (Sim.start Sim.sim [] [])))
  /\ fst (error_handler (E := Sim.sim) 23 (tt, Sim.start Sim.sim [] []))
     <> Throws (FatalEngineContract unknown_error_code).
Proof. split; [reflexivity | discriminate]. Qed.

(** ** Narrowing conversions *)

Lemma to_int_small (x : Z) : - 2 ^ 31 <= x <= C.INT_MAX -> C.to_int x = x.
Proof.
  unfold C.to_int, C.wrap_signed, C.INT_MAX. intros H.
  change (2 ^ (32 - 1)) with 2147483648 in *.
  change (2 ^ 31) with 2147483648 in *.
  change (2 ^ 32) with 4294967296.
  rewrite Z.mod_small by lia. lia.
Qed.

Lemma to_size_t_small (x : Z) : 0 <= x <= C.SIZE_MAX -> C.to_size_t x = x.
Proof.
  unfold C.to_size_t, C.wrap_unsigned, C.SIZE_MAX. intros H.
  apply Z.mod_small. lia.
Qed.

Lemma to_size_t_range (x : Z) : 0 <= C.to_size_t x <= C.SIZE_MAX.
Proof.
  unfold C.to_size_t, C.wrap_unsigned, C.SIZE_MAX.
  pose proof (Z.mod_pos_bound x (2 ^ 64) ltac:(lia)). lia.
Qed.

(** ** The incremental session *)

Section IncrementalSession.

Context {E : Engine} {py : Type}.

Import Resampler.

(** The channel count [process] derives is the second dimension of a
    rank-2 input whenever that fits an [int]. *)
Lemma input_channels_rank2 (input : nb_array_f32) :
  ndim input = 2 -> 0 <= shape input 1 <= C.INT_MAX ->
  input_channels input = shape input 1.
Proof.
  intros Hn Hr. unfold input_channels. rewrite Hn. simpl.
  apply to_int_small. unfold C.INT_MAX in *. lia.
Qed.

(** C5, as the code has it. A request of rank above 2, or whose channel
    count as [process] reads it (1 for rank 0 and 1, the second dimension
    narrowed to an [int] for rank 2) is 0 or differs from the session's,
    fails with [InvalidShape], and the session and the world are as they
    were before the call: nothing was planned or allocated, no event was
    recorded, the engine was not called. *)
Theorem process_rejects_invalid_shape
    (self : Resampler) (input : nb_array_f32) (sr_ratio : double)
    (end_of_input : bool) (w : world py) :
  2 < ndim input \/ input_channels input = 0
    \/ input_channels input <> _channels self ->
  exists what,
    process input sr_ratio end_of_input (self, w)
    = (Throws (InvalidShape what), (self, w)).
Proof.
  unfold input_channels, process. run. cbn [fst snd].
  intros H.
  destruct (Z.eqb_spec (ndim input) 2) as [H2|H2].
  - destruct H as [H|[H|H]]; [lia| |].
    + rewrite H. rewrite orb_true_r. eexists; reflexivity.
    + apply Z.eqb_neq in H. rewrite H. eexists; reflexivity.
  - destruct (Z.ltb_spec 2 (ndim input)) as [Hgt|Hle].
    + eexists; reflexivity.
    + destruct H as [H|[H|H]]; [lia|discriminate|].
      apply Z.eqb_neq in H. rewrite H. eexists; reflexivity.
Qed.

End IncrementalSession.

(** A two-channel session given three channels. *)
Lemma process_rejects_invalid_shape_witness :
  exists what,
    Resampler.process (E := Sim.sim) {| shape_of := [4; 3] |} Sim.one false
      (Sim.resampler Sim.sim (Some 1%nat) 2, Sim.start Sim.sim [None] [])
    = (Throws (InvalidShape what),
       (Sim.resampler Sim.sim (Some 1%nat) 2, Sim.start Sim.sim [None] [])).
Proof.
  apply (process_rejects_invalid_shape (E := Sim.sim)).
  right; right. vm_compute. discriminate.
Defined.

(** C5 as stated fails for a channel count that differs from the
    session's by a multiple of 2^32: an input of no frames and 4294967298
    channels, given to a session of 2 channels, is read as one of 2
    channels; [process] calls the engine and returns. *)
Lemma process_accepts_channels_modulo_2_32 :
  shape {| shape_of := [0; 4294967298] |} 1
  <> Resampler._channels (Sim.resampler Sim.sim (Some 1%nat) 2)
  /\ fst (Resampler.process (E := Sim.sim) {| shape_of := [0; 4294967298] |}
            Sim.one false
            (Sim.resampler Sim.sim (Some 1%nat) 2, Sim.start Sim.sim [None] []))
     = Returns {| shape_of := [0; 2] |}
  /\ w_trace
       (snd (snd (Resampler.process (E := Sim.sim)
                    {| shape_of := [0; 4294967298] |} Sim.one false
                    (Sim.resampler Sim.sim (Some 1%nat) 2,
                     Sim.start Sim.sim [None] []))))
     = [Ev_process (E := Sim.sim) (Some 1%nat)
          {| input_frames := 0; output_frames := 10000;
             input_frames_used := 0; output_frames_gen := 0;
             end_of_input := 0; src_ratio := Sim.one |}
          0
          {| input_frames := 0; output_frames := 10000;
             input_frames_used := 0; output_frames_gen := 0;
             end_of_input := 0; src_ratio := Sim.one |}].
Proof.
  split; [vm_compute; discriminate|].
  split; vm_compute; reflexivity.
Qed.

(** ** Planned capacity and what the engine generates *)

Section Capacity.

Context {E : Engine} {py : Type}.

Import Resampler.

Lemma shape_output_array (nd gen ch : Z) :
  shape (output_array nd gen ch) 0 = C.to_size_t gen.
Proof. unfold output_array. destruct (nd =? 2); reflexivity. Qed.

(** The common end of [resample] and [process]: the status is translated
    first, then the frame count is checked against the capacity. *)
Lemma capacity_check (O : Type) (cap nd ch err gen : Z)
    (s s' : O * world py) (r : outcome nb_array_f32) :
  (error_handler err ;;
   (if cap <? C.to_size_t gen
    then throw (runtime_error more_than_expected) else ret tt) ;;
   ret (output_array nd gen ch)) s = (r, s') ->
  capacity_contract cap err gen r
  /\ exists tail, w_trace (snd s') = w_trace (snd s) ++ tail
       /\ forall e, In e tail -> e = Ev_strerror err.
Proof.
  intros Hrun.
  destruct (Z.eq_dec err 0) as [->|Hnz].
  - unfold bind at 1 in Hrun. rewrite error_handler_0 in Hrun.
    unfold bind, throw, ret in Hrun. unfold capacity_contract.
    destruct (Z.ltb_spec cap (C.to_size_t gen)) as [Hlt|Hge];
      injection Hrun as <- <-.
    + split.
      * split; [reflexivity|]. split; [intros []; reflexivity|].
        split; intros; discriminate.
      * exists []. rewrite app_nil_r. split; [reflexivity|intros ? []].
    + split.
      * split; [intros; lia|]. split; [intros []; reflexivity|].
        split; [intros; lia|]. intros a [= <-].
        split; [reflexivity|]. split; [apply shape_output_array|exact Hge].
      * exists []. rewrite app_nil_r. split; [reflexivity|intros ? []].
  - unfold bind at 1 in Hrun. rewrite error_handler_run in Hrun.
    rewrite (proj2 (Z.eqb_neq err 0) Hnz) in Hrun.
    unfold capacity_contract, status_error.
    destruct ((1 <=? err) && (err <=? 23)).
    + destruct (src_strerror err); injection Hrun as <- <-;
        (split;
         [ split; [intros; congruence|];
           split; [reflexivity|]; split; intros; discriminate
         | exists [Ev_strerror err];
           split; [reflexivity|intros ? [<-|[]]; reflexivity] ]).
    + injection Hrun as <- <-.
      split.
      * split; [intros; congruence|].
        split; [reflexivity|]. split; intros; discriminate.
      * exists []. rewrite app_nil_r. split; [reflexivity|intros ? []].
Qed.

(** The channel count both entry points read off their input. *)
Lemma channels_of_input (O : Type) (input : nb_array_f32) (s : O * world py) :
  (if ndim input =? 2 then ret (C.to_int (shape input 1))
   else if 2 <? ndim input then throw (domain_error at_most_2_dimensions)
   else ret 1) s =
  if negb (ndim input =? 2) && (2 <? ndim input)
  then (Throws (domain_error at_most_2_dimensions), s)
  else (Returns (input_channels input), s).
Proof.
  unfold input_channels.
  destruct (ndim input =? 2), (2 <? ndim input); reflexivity.
Qed.

Lemma resample_capacity (O : Type) (input : nb_array_f32) (sr_ratio : double)
    (converter_type : py_object) (verbose : bool) (s s' : O * world py)
    (r : outcome nb_array_f32) (cap : Z) (evs : list event)
    (data : SRC_DATA) (ct ch err : Z) (data' : SRC_DATA) :
  resample input sr_ratio converter_type verbose s = (r, s') ->
  resample_new_size (shape input 0) sr_ratio = Some cap ->
  w_trace (snd s') = w_trace (snd s) ++ evs ->
  In (Ev_simple data ct ch err data') evs ->
  capacity_contract cap err (output_frames_gen data') r.
Proof.
  intros Hrun Hcap Htr Hin.
  unfold resample in Hrun.
  unfold bind at 1 in Hrun.
  destruct (get_converter_type_pure O converter_type s) as [Hs Hu].
  destruct (get_converter_type converter_type s) as [[cti| |] s0] eqn:Hct;
    cbn in Hs, Hu; subst s0.
  2: { injection Hrun as <- <-. new_events Htr. subst evs. destruct Hin. }
  2: { congruence. }
  rewrite Hcap in Hrun.
  destruct s as [o w].
  unfold bind at 1 in Hrun. rewrite channels_of_input in Hrun.
  destruct (negb (ndim input =? 2) && (2 <? ndim input)).
  { injection Hrun as <- <-. new_events Htr. subst evs. destruct Hin. }
  set (channels := input_channels input) in *.
  unfold bind at 1 in Hrun.
  destruct (channels =? 0).
  { cbn in Hrun. injection Hrun as <- <-. new_events Htr. subst evs.
    destruct Hin. }
  unfold ret at 1 in Hrun.
  unfold bind at 1, ret at 1 in Hrun.
  unfold bind at 1 in Hrun. rewrite new_float_run in Hrun.
  destruct (C.SIZE_MAX <? _).
  { injection Hrun as <- <-. new_events Htr. subst evs. destruct Hin. }
  cbv zeta in Hrun. destruct (operator_new _ _) as [ok l]. cbn [fst snd] in Hrun.
  destruct ok.
  2: { injection Hrun as <- <-. new_events Htr. subst evs. destruct Hin. }
  unfold bind at 1, engine_simple, on_world in Hrun. cbn [fst snd] in Hrun.
  destruct (src_simple _ cti channels _) as [[err0 d0] l0] eqn:Hsim.
  cbn [fst snd] in Hrun.
  apply capacity_check in Hrun. destruct Hrun as [Hc [tail [Htail Hstr]]].
  rewrite Htail in Htr. new_events Htr. subst evs.
  destruct Hin as [Hhd|Htl].
  - injection Hhd as _ _ _ -> ->. exact Hc.
  - apply Hstr in Htl. discriminate.
Qed.

Lemma process_capacity (self : Resampler) (input : nb_array_f32)
    (sr_ratio : double) (end_of_input : bool) (w : world py)
    (s' : Resampler * world py)
    (r : outcome nb_array_f32) (cap : Z) (evs : list event)
    (st : option SRC_STATE) (data : SRC_DATA) (err : Z) (data' : SRC_DATA) :
  process input sr_ratio end_of_input (self, w) = (r, s') ->
  process_new_size (shape input 0) sr_ratio = Some cap ->
  w_trace (snd s') = w_trace w ++ evs ->
  In (Ev_process st data err data') evs ->
  capacity_contract cap err (output_frames_gen data') r.
Proof.
  intros Hrun Hcap Htr Hin.
  unfold process in Hrun.
  unfold bind at 1, this in Hrun. cbn [fst snd] in Hrun.
  rewrite Hcap in Hrun.
  unfold bind at 1 in Hrun. rewrite channels_of_input in Hrun.
  destruct (negb (ndim input =? 2) && (2 <? ndim input)).
  { injection Hrun as <- <-. new_events Htr. subst evs. destruct Hin. }
  set (channels := input_channels input) in *.
  unfold bind at 1 in Hrun.
  destruct (negb (channels =? _channels self) || (channels =? 0)).
  { cbn in Hrun. injection Hrun as <- <-. new_events Htr. subst evs.
    destruct Hin. }
  unfold ret at 1 in Hrun.
  unfold bind at 1, ret at 1 in Hrun.
  unfold bind at 1 in Hrun. rewrite new_float_run in Hrun.
  destruct (C.SIZE_MAX <? _).
  { injection Hrun as <- <-. new_events Htr. subst evs. destruct Hin. }
  cbv zeta in Hrun. destruct (operator_new _ _) as [ok l]. cbn [fst snd] in Hrun.
  destruct ok.
  2: { injection Hrun as <- <-. new_events Htr. subst evs. destruct Hin. }
  unfold bind at 1, engine_process, on_world in Hrun. cbn [fst snd] in Hrun.
  destruct (src_process (_state self) _ _) as [[err0 d0] l0] eqn:Hsim.
  cbn [fst snd] in Hrun.
  apply capacity_check in Hrun. destruct Hrun as [Hc [tail [Htail Hstr]]].
  rewrite Htail in Htr. new_events Htr. subst evs.
  destruct Hin as [Hhd|Htl].
  - injection Hhd as _ _ -> ->. exact Hc.
  - apply Hstr in Htl. discriminate.
Qed.

(** C6, as the code has it. Whenever [resample] or [process] has called
    the engine, with planned capacity [cap], and the engine answered
    status [err] and [gen] generated frames: with status 0 and more
    frames than [cap] the call throws [FatalEngineContract] with the
    message of the capacity check; with a non-zero status the status is
    translated first and its error is what the call throws; whenever the
    frame count is above [cap] no array is returned; and an array that is
    returned has [gen] frames, with [gen] at most [cap]. *)
Theorem capacity_is_enforced :
  (forall (O : Type) (input : nb_array_f32) (sr_ratio : double)
      (converter_type : py_object) (verbose : bool) (s s' : O * world py)
      (r : outcome nb_array_f32) (cap : Z) (evs : list event)
      (data : SRC_DATA) (ct ch err : Z) (data' : SRC_DATA),
    resample input sr_ratio converter_type verbose s = (r, s') ->
    resample_new_size (shape input 0) sr_ratio = Some cap ->
    w_trace (snd s') = w_trace (snd s) ++ evs ->
    In (Ev_simple data ct ch err data') evs ->
    capacity_contract cap err (output_frames_gen data') r)
  /\
  (forall (self : Resampler) (input : nb_array_f32)
      (sr_ratio : double) (end_of_input : bool) (w : world py)
      (s' : Resampler * world py)
      (r : outcome nb_array_f32) (cap : Z) (evs : list event)
      (st : option SRC_STATE) (data : SRC_DATA) (err : Z)
      (data' : SRC_DATA),
    process input sr_ratio end_of_input (self, w) = (r, s') ->
    process_new_size (shape input 0) sr_ratio = Some cap ->
    w_trace (snd s') = w_trace w ++ evs ->
    In (Ev_process st data err data') evs ->
    capacity_contract cap err (output_frames_gen data') r).
Proof.
  split.
  - exact resample_capacity.
  - exact process_capacity.
Qed.

End Capacity.

(** The capacity rule at work: the engine answers status 0 and 10006
    frames for a capacity of 10005, and [resample] throws the fatal
    error. *)
Lemma capacity_is_enforced_witness :
  capacity_contract (E := Sim.broken 0) 10005 0 10006
    (Throws (FatalEngineContract more_than_expected)).
Proof.
  refine (proj1 (capacity_is_enforced (E := Sim.broken 0) (py := Sim.script))
            unit {| shape_of := [10] |} Sim.half (PyStr "linear") false
            (tt, Sim.start (Sim.broken 0) [] []) _ _ 10005 _
            _ 4 1 0
            {| input_frames := 10; output_frames := 10005;
               input_frames_used := 10; output_frames_gen := 10006;
               end_of_input := 0; src_ratio := Sim.half |}
            _ _ _ _).
  - vm_compute. reflexivity.
  - vm_compute. reflexivity.
  - cbn. reflexivity.
  - left. reflexivity.
Defined.

(** C6 as stated fails when the engine reports a non-zero status together
    with too many frames: here status 1 and 10006 frames for a capacity
    of 10005, and [resample] throws [ConversionFailed], not
    [FatalEngineContract]. *)
Lemma resample_overrun_with_status_is_ConversionFailed :
  resample_new_size 10 Sim.half = Some 10005
  /\ resample (E := Sim.broken 1) {| shape_of := [10] |} Sim.half
       (PyStr "linear") false (tt, Sim.start (Sim.broken 1) [] [])
     = (Throws (ConversionFailed "libsamplerate message"),
        (tt,
         log (E := Sim.broken 1) (Ev_strerror 1)
           (log (E := Sim.broken 1)
              (Ev_simple
                 {| input_frames := 10; output_frames := 10005;
                    input_frames_used := 0; output_frames_gen := 0;
                    end_of_input := 0; src_ratio := Sim.half |}
                 4 1 1
                 {| input_frames := 10; output_frames := 10005;
                    input_frames_used := 10; output_frames_gen := 10006;
                    end_of_input := 0; src_ratio := Sim.half |})
              (Sim.start (Sim.broken 1) [] [])))).
Proof. split; vm_compute; reflexivity. Qed.

(** ** The bridge *)

Section Bridge.

Context {E : Engine} {py : Type}.

Import CallbackResampler.

Lemma ndim_nonneg (a : nb_array_f32) : 0 <= ndim a.
Proof. unfold ndim. lia. Qed.

Lemma the_callback_func_spec (cb : CallbackResampler py) (w : world py) :
  exists data,
  the_callback_func (cb, w) =
    let x := fst (_callback cb (w_py w)) in
    let p := snd (_callback cb (w_py w)) in
    ((bridge_returns (_channels cb) x, data),
     (absorb cb x,
      log (Ev_bridge (bridge_returns (_channels cb) x))
        (log (Ev_producer x) (with_py p w)))).
Proof.
  unfold the_callback_func, callback, get_channels. cbn [fst snd].
  destruct (_callback cb (w_py w)) as [[a|] p]; cbn [fst snd].
  2: { eexists; reflexivity. }
  unfold bridge_returns, absorb, bridge_records, channel_mismatch, num_channels.
  pose proof (ndim_nonneg a) as Hnn.
  destruct (Z.eqb_spec (ndim a) 0) as [H0|H0].
  - rewrite H0. cbn. eexists; reflexivity.
  - destruct (Z.ltb_spec 2 (ndim a)) as [H2|H2].
    + destruct ((0 <? ndim a) && (_buffer_ndim cb =? 0)); eexists; reflexivity.
    + assert (H1 : (1 <=? ndim a) = true) by (apply Z.leb_le; lia).
      assert (H3 : (ndim a <=? 2) = true) by (apply Z.leb_le; lia).
      rewrite H1, H3. cbn [andb].
      destruct ((0 <? ndim a) && (_buffer_ndim cb =? 0));
        cbn [set_buffer set_buffer_ndim _channels];
        destruct (negb _ || _); eexists; reflexivity.
Qed.

Lemma absorb_channels (cb : CallbackResampler py) x :
  _channels (absorb cb x) = _channels cb.
Proof.
  unfold absorb. destruct x as [a|]; [|reflexivity].
  destruct (bridge_records _ _), ((0 <? ndim a) && (_buffer_ndim cb =? 0));
    reflexivity.
Qed.

Lemma fold_absorb_channels xs (cb : CallbackResampler py) :
  _channels (fold_left absorb xs cb) = _channels cb.
Proof.
  revert cb; induction xs as [|x xs IH]; intros cb; [reflexivity|].
  cbn. rewrite IH. apply absorb_channels.
Qed.

(** The world's other parts when an event is recorded. *)
Lemma put_session_trace (a : address) (c : CallbackResampler py) (w : world py) :
  w_trace (put_session a c w) = w_trace w
  /\ w_this (put_session a c w) = w_this w
  /\ w_lib (put_session a c w) = w_lib w
  /\ w_py (put_session a c w) = w_py w.
Proof. repeat split. Qed.

Lemma called_back_only_app (a : address) (xs ys : list (@event E)) :
  called_back_only a (xs ++ ys)
  <-> called_back_only a xs /\ called_back_only a ys.
Proof.
  unfold called_back_only. split.
  - intros H. split; intros d Hd; apply H; apply in_or_app; auto.
  - intros [H1 H2] d Hd. apply in_app_or in Hd. destruct Hd; auto.
Qed.

Lemma called_back_only_cons (a : address) (ev : @event E) evs :
  called_back_only a (ev :: evs)
  <-> (forall d, ev = Ev_callback d -> d = a) /\ called_back_only a evs.
Proof.
  unfold called_back_only. split.
  - intros H. split.
    + intros d ->. apply H. left. reflexivity.
    + intros d Hd. apply H. right. exact Hd.
  - intros [H1 H2] d [Hd|Hd]; [apply H1; exact Hd|apply H2; exact Hd].
Qed.

Lemma bridge_events_called_back (a : address) (channels : Z) xs :
  called_back_only a (bridge_events (E := E) a channels xs).
Proof.
  intros d Hd. unfold bridge_events in Hd. apply in_flat_map in Hd.
  destruct Hd as (x & _ & [Hx|[Hx|[Hx|[]]]]); try discriminate.
  injection Hx as <-. reflexivity.
Qed.

Lemma bridge_events_bridging (a : address) (channels : Z) xs :
  Forall bridging (bridge_events (E := E) a channels xs).
Proof.
  induction xs as [|x xs IH]; [constructor|].
  cbn. repeat (constructor; [exact I|]). exact IH.
Qed.

Lemma answers_to_app (a : address) (c : bool) (xs ys : list (@event E)) :
  answers_to a c (xs ++ ys)
  = answers_to a c xs ++ answers_to a (calling_after a c xs) ys.
Proof.
  revert c. induction xs as [|ev xs IH]; intros c; [reflexivity|].
  destruct ev; cbn [app answers_to calling_after fold_left];
    rewrite IH, ?app_assoc; reflexivity.
Qed.

Lemma answers_to_aside (a : address) (c : bool) (evs : list (@event E)) :
  Forall aside evs ->
  answers_to a c evs = [] /\ calling_after a c evs = c.
Proof.
  induction 1 as [|ev evs Hev _ IH]; [auto|].
  destruct ev; cbn in Hev; try contradiction;
    cbn [answers_to calling_after fold_left]; exact IH.
Qed.

(** One call of [src_callback_read]: the engine called back some
    sessions; the bridge of the session at work handled the producer
    answers [xs], one after the other, which are the answers given while
    that session was called back, each followed by what its bridge
    returned. The call ends undefined only when the engine called back an
    address where no session lives. *)
Lemma drive_spec (p : pull lib) (cb : CallbackResampler py) (w : world py) :
  exists xs evs,
    fst (snd (drive p (cb, w))) = fold_left absorb xs cb
    /\ w_trace (snd (snd (drive p (cb, w)))) = w_trace w ++ evs
    /\ w_this (snd (snd (drive p (cb, w)))) = w_this w
    /\ Forall bridging evs
    /\ (forall c, answers_to (w_this w) c evs = xs)
    /\ (forall x, In x xs ->
          handed (w_this w) x (bridge_returns (_channels cb) x) evs)
    /\ ((exists n, fst (drive p (cb, w)) = Returns n)
        \/ (fst (drive p (cb, w)) = Undefined
            /\ ~ called_back_only (w_this w) evs)).
Proof.
  revert cb w. induction p as [d resume IH|frames after]; intros cb w.
  - cbn [drive fst snd].
    change (w_this (log (Ev_callback d) w)) with (w_this w).
    set (w1 := log (Ev_callback d) w).
    destruct (Nat.eqb_spec d (w_this w)) as [Hd|Hd].
    + destruct (the_callback_func_spec cb w1) as [data Hb]. rewrite Hb.
      cbn zeta.
      set (x := fst (_callback cb (w_py w1))).
      set (p := snd (_callback cb (w_py w1))).
      destruct (IH (bridge_returns (_channels cb) x) data (absorb cb x)
                  (log (Ev_bridge (bridge_returns (_channels cb) x))
                     (log (Ev_producer x) (with_py p w1))))
        as (xs & evs & Hcb & Htr & Hthis & Hall & Hans & Hin & Hres).
      change (w_this (log (Ev_bridge (bridge_returns (_channels cb) x))
                        (log (Ev_producer x) (with_py p w1))))
        with (w_this w) in Hthis, Hans, Hin, Hres.
      exists (x :: xs),
        (Ev_callback d :: Ev_producer x
           :: Ev_bridge (bridge_returns (_channels cb) x) :: evs).
      split; [exact Hcb|].
      split.
      { rewrite Htr. subst w1. cbn [w_trace log with_py].
        repeat rewrite <- app_assoc. reflexivity. }
      split; [exact Hthis|].
      split; [repeat (constructor; [exact I|]); exact Hall|].
      split.
      { intros c. cbn [answers_to]. rewrite Hd, Nat.eqb_refl.
        cbn [app]. rewrite Hans. reflexivity. }
      split.
      { intros y [<-|Hy].
        - exists [], evs. rewrite Hd. reflexivity.
        - destruct (Hin y Hy) as (before & after & Hsplit).
          rewrite absorb_channels in Hsplit.
          exists (Ev_callback d :: Ev_producer x
                    :: Ev_bridge (bridge_returns (_channels cb) x) :: before),
            after.
          rewrite Hsplit. reflexivity. }
      destruct Hres as [Hn|[Hu Hnot]]; [left; exact Hn|].
      right. split; [exact Hu|]. intros Hco. apply Hnot.
      intros c Hc. apply Hco. right; right; right. exact Hc.
    + destruct (session_at d w1) as [other|] eqn:Hat.
      * destruct (the_callback_func_spec other w1) as [data Hb]. rewrite Hb.
        cbn zeta.
        set (x := fst (_callback other (w_py w1))).
        set (p := snd (_callback other (w_py w1))).
        set (w2 := log (Ev_bridge (bridge_returns (_channels other) x))
                     (log (Ev_producer x) (with_py p w1))).
        destruct (IH (bridge_returns (_channels other) x) data cb
                    (put_session d (absorb other x) w2))
          as (xs & evs & Hcb & Htr & Hthis & Hall & Hans & Hin & Hres).
        change (w_this (put_session d (absorb other x) w2))
          with (w_this w) in Hthis, Hans, Hin, Hres.
        exists xs,
          (Ev_callback d :: Ev_producer x
             :: Ev_bridge (bridge_returns (_channels other) x) :: evs).
        split; [exact Hcb|].
        split.
        { rewrite Htr. subst w2 w1. cbn [w_trace log with_py put_session
                                          with_sessions].
          repeat rewrite <- app_assoc. reflexivity. }
        split; [exact Hthis|].
        split; [repeat (constructor; [exact I|]); exact Hall|].
        split.
        { intros c. cbn [answers_to].
          rewrite (proj2 (Nat.eqb_neq d (w_this w)) Hd). cbn [app].
          apply Hans. }
        split.
        { intros y Hy. destruct (Hin y Hy) as (before & after & Hsplit).
          exists (Ev_callback d :: Ev_producer x
                    :: Ev_bridge (bridge_returns (_channels other) x)
                    :: before), after.
          rewrite Hsplit. reflexivity. }
        destruct Hres as [Hn|[Hu _]]; [left; exact Hn|].
        right. split; [exact Hu|]. intros Hco. apply Hd. apply Hco.
        left. reflexivity.
      * exists [], [Ev_callback d].
        split; [reflexivity|]. split; [reflexivity|].
        split; [reflexivity|].
        split; [constructor; [exact I|constructor]|].
        split; [intros c; reflexivity|].
        split; [intros ? []|].
        right. split; [reflexivity|]. intros Hco. apply Hd. apply Hco.
        left. reflexivity.
  - exists [], []. cbn. rewrite app_nil_r.
    split; [reflexivity|]. split; [reflexivity|]. split; [reflexivity|].
    split; [constructor|]. split; [intros c; reflexivity|].
    split; [intros ? []|].
    left; eexists; reflexivity.
Qed.

Lemma set_state_same (cb : CallbackResampler py) :
  set_state (_state cb) cb = cb.
Proof. destruct cb; reflexivity. Qed.

Lemma fold_absorb_state xs (cb : CallbackResampler py) :
  _state (fold_left absorb xs cb) = _state cb.
Proof.
  revert cb; induction xs as [|x xs IH]; intros cb; [reflexivity|].
  cbn. rewrite IH. unfold absorb. destruct x as [a|]; [|reflexivity].
  destruct (bridge_records _ _), ((0 <? ndim a) && (_buffer_ndim cb =? 0));
    reflexivity.
Qed.

(** The end of [read], once [src_callback_read] has returned [n]: the
    session stays as it is, and what is recorded is at most a look at the
    engine's status and one at the message table. *)
Lemma report_run (n : Z) (cb : CallbackResampler py) (w : world py) :
  exists post,
    (let output_frames_gen := C.to_size_t n in
     self <- this ;;
     err_code <-
       (if output_frames_gen =? 0 then engine_error (_state self) else ret 0) ;;
     let callback_error := get_callback_error self in
     (if negb (empty callback_error)
      then throw (domain_error callback_error) else ret tt) ;;
     (if output_frames_gen =? 0 then error_handler err_code else ret tt) ;;
     if (_channels self =? 1) && (_buffer_ndim self =? 1) then
       ret {| shape_of := [output_frames_gen] |}
     else
       ret {| shape_of := [output_frames_gen; _channels self] |}) (cb, w)
    = (read_outcome cb n (src_error (_state cb) (w_lib w)),
       (cb, {| w_lib := w_lib w; w_py := w_py w;
               w_trace := w_trace w ++ post;
               w_this := w_this w; w_sessions := w_sessions w |}))
    /\ (forall e, In e post ->
          e = Ev_error (_state cb) (src_error (_state cb) (w_lib w))
          \/ e = Ev_strerror (src_error (_state cb) (w_lib w))).
Proof.
  cbv zeta. unfold bind at 1, this. cbn [fst snd].
  unfold read_outcome, status_error, get_callback_error, read_result.
  destruct (Z.eqb_spec (C.to_size_t n) 0) as [Hz|Hz].
  - unfold bind at 1, engine_error, on_world. cbn [fst snd].
    unfold bind at 1.
    destruct (empty (_callback_error_msg cb)) eqn:Hempty; cbn [negb].
    + unfold ret at 1. unfold bind at 1.
      rewrite error_handler_run. cbn [fst snd w_lib log].
      destruct (src_error (_state cb) (w_lib w) =? 0) eqn:He.
      * rewrite if_ret.
        exists [Ev_error (_state cb) (src_error (_state cb) (w_lib w))].
        split; [|intros ? [<-|[]]; auto].
        rewrite Hz. destruct w; reflexivity.
      * destruct ((1 <=? src_error (_state cb) (w_lib w))
                  && (src_error (_state cb) (w_lib w) <=? 23)) eqn:Hr.
        -- exists [Ev_error (_state cb) (src_error (_state cb) (w_lib w));
                   Ev_strerror (src_error (_state cb) (w_lib w))].
           split; [|intros ? [<-|[<-|[]]]; auto].
           destruct (src_strerror (src_error (_state cb) (w_lib w)));
             destruct w; unfold log;
             cbn [w_trace w_lib w_py w_this w_sessions];
             rewrite <- ?app_assoc; reflexivity.
        -- exists [Ev_error (_state cb) (src_error (_state cb) (w_lib w))].
           split; [|intros ? [<-|[]]; auto].
           destruct w; reflexivity.
    + unfold throw.
      exists [Ev_error (_state cb) (src_error (_state cb) (w_lib w))].
      split; [|intros ? [<-|[]]; auto].
      destruct w; reflexivity.
  - unfold bind at 1, ret at 1.
    unfold bind at 1.
    destruct (empty (_callback_error_msg cb)) eqn:Hempty; cbn [negb].
    + unfold ret at 1. unfold bind at 1, ret at 1.
      rewrite if_ret. exists []. split; [|intros ? []].
      rewrite app_nil_r. destruct w; reflexivity.
    + unfold throw. exists []. split; [|intros ? []].
      rewrite app_nil_r. destruct w; reflexivity.
Qed.

(** What [read] does once the output is allocated and the session holds
    a converter state. *)
Lemma read_running (frames : Z) (cb : CallbackResampler py) (w : world py)
    r cb' w' :
  read_open frames (cb, w) = (r, (cb', w')) ->
  exists xs devs ending,
    cb' = fold_left absorb xs (clear_callback_error cb)
    /\ w_trace w'
       = w_trace w
         ++ Ev_callback_read (_state cb) (_ratio cb) (C.to_long frames)
              :: devs ++ ending
    /\ w_this w' = w_this w
    /\ Forall bridging devs
    /\ (forall c, answers_to (w_this w) c devs = xs)
    /\ (forall x, In x xs ->
          handed (w_this w) x (bridge_returns (_channels cb) x) devs)
    /\ ((r = Undefined /\ ending = []
         /\ ~ called_back_only (w_this w) devs)
        \/ exists n post,
             ending = Ev_callback_read_returned n :: post
             /\ (forall e, In e post ->
                   e = Ev_error (_state cb) (src_error (_state cb) (w_lib w'))
                   \/ e = Ev_strerror (src_error (_state cb) (w_lib w')))
             /\ r = read_outcome cb' n (src_error (_state cb) (w_lib w'))).
Proof.
  unfold read_open.
  unfold bind at 1, update. cbn [fst snd].
  unfold bind at 1, engine_callback_read.
  set (cb1 := clear_callback_error cb).
  change (_state cb1) with (_state cb). change (_ratio cb1) with (_ratio cb).
  set (w1 := log _ w).
  destruct (drive_spec
              (src_callback_read (_state cb) (_ratio cb) (C.to_long frames)
                 (w_lib w1)) cb1 w1)
    as (xs & devs & Hcb & Htr & Hthis & Hall & Hans & Hin & Hres).
  destruct (drive _ (cb1, w1)) as [rd [cb2 w2]]. cbn [fst snd] in *.
  change (w_this w1) with (w_this w) in *.
  change (_channels cb1) with (_channels cb) in Hin.
  destruct Hres as [[n ->]|[-> Hnot]].
  2: { intros [= <- <- <-]. exists xs, devs, [].
       split; [exact Hcb|]. split.
       { rewrite Htr, app_nil_r. subst w1. cbn [w_trace log].
         rewrite <- app_assoc. reflexivity. }
       split; [exact Hthis|]. split; [exact Hall|]. split; [exact Hans|].
       split; [exact Hin|]. left. auto. }
  destruct (report_run n cb2 (log (Ev_callback_read_returned n) w2))
    as (post & Hrep & Hpost).
  cbv zeta in Hrep. cbv beta iota zeta. rewrite Hrep. intros [= <- <- <-].
  assert (Hst : _state cb2 = _state cb).
  { rewrite Hcb, fold_absorb_state. reflexivity. }
  exists xs, devs, (Ev_callback_read_returned n :: post).
  split; [exact Hcb|]. split.
  { cbn [w_trace log]. rewrite Htr. subst w1. cbn [w_trace log].
    repeat rewrite <- app_assoc. reflexivity. }
  split; [exact Hthis|]. split; [exact Hall|]. split; [exact Hans|].
  split; [exact Hin|]. right. exists n, post.
  split; [reflexivity|]. cbn [w_lib log]. rewrite <- Hst.
  split; [exact Hpost|reflexivity].
Qed.

(** [read], step by step: the allocation, the converter state, and then
    [read_open]. *)
Lemma read_run (frames : Z) (cb : CallbackResampler py) (w : world py) :
  read frames (cb, w) =
  if C.SIZE_MAX <? read_bytes cb frames then (Throws bad_alloc, (cb, w))
  else
    let room := operator_new (read_bytes cb frames) (w_lib w) in
    let w0 := with_lib (snd room) w in
    if fst room then
      match _state cb with
      | Some _ => read_open frames (cb, w0)
      | None =>
          let answer :=
            src_callback_new (_converter_type cb) (C.to_int (_channels cb))
              (w_this w) (w_lib w0) in
          let st := fst (fst answer) in
          let err := snd (fst answer) in
          let w1 :=
            with_lib (snd answer)
              (log (Ev_callback_new (_converter_type cb)
                      (C.to_int (_channels cb)) st err) w0) in
          match st with
          | Some _ => read_open frames (set_state st cb, w1)
          | None =>
              if err =? 0 then read_open frames (set_state None cb, w1)
              else if (1 <=? err) && (err <=? 23)
              then (status_error err,
                    (set_state None cb, log (Ev_strerror err) w1))
              else (status_error err, (set_state None cb, w1))
          end
      end
    else (Throws bad_alloc, (cb, w0)).
Proof.
  unfold read, read_bytes, read_open.
  unfold bind at 1, this. cbn [fst snd].
  unfold bind at 1. rewrite new_float_run. cbn [fst snd].
  destruct (C.SIZE_MAX <? C.to_size_t (frames * _channels cb) * sizeof_float);
    [reflexivity|].
  cbv zeta. destruct (operator_new _ (w_lib w)) as [ok l]. cbn [fst snd].
  destruct ok; [|reflexivity].
  unfold bind at 1.
  destruct (_state cb) as [h|] eqn:Hstate; [reflexivity|].
  unfold _create.
  unfold bind at 1, this. cbn [fst snd].
  unfold bind at 1, this_address. cbn [fst snd].
  unfold bind at 1, engine_callback_new, on_world. cbn [fst snd].
  change (w_this (with_lib l w)) with (w_this w).
  destruct (src_callback_new (_converter_type cb) (C.to_int (_channels cb))
              (w_this w) (w_lib (with_lib l w))) as [[st err] l1].
  cbn [fst snd].
  unfold bind at 1, update. cbn [fst snd].
  destruct st as [h|]; [reflexivity|].
  rewrite error_handler_run. cbn [fst snd]. unfold status_error.
  destruct (err =? 0); [reflexivity|].
  destruct ((1 <=? err) && (err <=? 23)); [|reflexivity].
  destruct (src_strerror err); reflexivity.
Qed.

(** Every [read], taken apart: the allocation failed; or the converter
    state could not be created; or the engine was asked to read, on the
    state [st], and the bridge of this session handled the producer
    answers [xs]. *)
Lemma read_inversion (frames : Z) (cb : CallbackResampler py) (w : world py)
    r cb' w' :
  read frames (cb, w) = (r, (cb', w')) ->
  (r = Throws bad_alloc /\ cb' = cb /\ w_trace w' = w_trace w
   /\ w_this w' = w_this w)
  \/
  (exists err tail,
      _state cb = None /\ err <> 0
      /\ w_trace w'
         = w_trace w
           ++ Ev_callback_new (_converter_type cb) (C.to_int (_channels cb))
                None err :: tail
      /\ (forall e, In e tail -> e = Ev_strerror err)
      /\ r = status_error err
      /\ cb' = cb /\ w_this w' = w_this w)
  \/
  (exists st pre xs devs ending,
      ((_state cb = st /\ st <> None /\ pre = [])
       \/ (_state cb = None
           /\ exists err,
               pre = [Ev_callback_new (_converter_type cb)
                        (C.to_int (_channels cb)) st err]
               /\ (st = None -> err = 0)))
      /\ cb' = fold_left absorb xs (clear_callback_error (set_state st cb))
      /\ w_trace w'
         = w_trace w ++ pre
           ++ Ev_callback_read st (_ratio cb) (C.to_long frames)
                :: devs ++ ending
      /\ w_this w' = w_this w
      /\ Forall bridging devs
      /\ (forall c, answers_to (w_this w) c devs = xs)
      /\ (forall x, In x xs ->
            handed (w_this w) x (bridge_returns (_channels cb) x) devs)
      /\ ((r = Undefined /\ ending = []
           /\ ~ called_back_only (w_this w) devs)
          \/ exists n post,
               ending = Ev_callback_read_returned n :: post
               /\ (forall e, In e post ->
                     e = Ev_error st (src_error st (w_lib w'))
                     \/ e = Ev_strerror (src_error st (w_lib w')))
               /\ r = read_outcome cb' n (src_error st (w_lib w')))).
Proof.
  rewrite read_run.
  destruct (C.SIZE_MAX <? read_bytes cb frames).
  { intros [= <- <- <-]. left. auto. }
  cbv zeta.
  set (w0 := with_lib (snd (operator_new (read_bytes cb frames) (w_lib w))) w).
  destruct (fst (operator_new (read_bytes cb frames) (w_lib w))).
  2: { intros [= <- <- <-]. left. auto. }
  assert (Hopen : forall (st : option SRC_STATE) (w1 : world py) pre,
    w_trace w1 = w_trace w ++ pre -> w_this w1 = w_this w ->
    ((_state cb = st /\ st <> None /\ pre = [])
     \/ (_state cb = None
         /\ exists err,
             pre = [Ev_callback_new (_converter_type cb)
                      (C.to_int (_channels cb)) st err]
             /\ (st = None -> err = 0))) ->
    read_open frames (set_state st cb, w1) = (r, (cb', w')) ->
    exists st0 pre0 xs devs ending,
      ((_state cb = st0 /\ st0 <> None /\ pre0 = [])
       \/ (_state cb = None
           /\ exists err,
               pre0 = [Ev_callback_new (_converter_type cb)
                         (C.to_int (_channels cb)) st0 err]
               /\ (st0 = None -> err = 0)))
      /\ cb' = fold_left absorb xs (clear_callback_error (set_state st0 cb))
      /\ w_trace w'
         = w_trace w ++ pre0
           ++ Ev_callback_read st0 (_ratio cb) (C.to_long frames)
                :: devs ++ ending
      /\ w_this w' = w_this w
      /\ Forall bridging devs
      /\ (forall c, answers_to (w_this w) c devs = xs)
      /\ (forall x, In x xs ->
            handed (w_this w) x (bridge_returns (_channels cb) x) devs)
      /\ ((r = Undefined /\ ending = []
           /\ ~ called_back_only (w_this w) devs)
          \/ exists n post,
               ending = Ev_callback_read_returned n :: post
               /\ (forall e, In e post ->
                     e = Ev_error st0 (src_error st0 (w_lib w'))
                     \/ e = Ev_strerror (src_error st0 (w_lib w')))
               /\ r = read_outcome cb' n (src_error st0 (w_lib w')))).
  { intros st w1 pre Htr1 Hthis1 Hpre Hrun. apply read_running in Hrun.
    destruct Hrun as (xs & devs & ending & Hcb & Htr & Hthis & Hall & Hans
                      & Hin & Hend).
    cbn [set_state _state _ratio _channels] in Htr, Hin, Hend.
    rewrite Hthis1 in Hthis, Hans, Hin, Hend.
    exists st, pre, xs, devs, ending.
    split; [exact Hpre|]. split; [exact Hcb|].
    split; [rewrite Htr, Htr1, <- app_assoc; reflexivity|].
    split; [exact Hthis|]. split; [exact Hall|]. split; [exact Hans|].
    split; [exact Hin|exact Hend]. }
  destruct (_state cb) as [h|] eqn:Hstate.
  - intros Hrun. right. right.
    apply (Hopen (Some h) w0 []).
    + symmetry. apply app_nil_r.
    + reflexivity.
    + left. split; [reflexivity|]. split; [discriminate|reflexivity].
    + rewrite <- Hstate, set_state_same. exact Hrun.
  - set (answer := src_callback_new (_converter_type cb)
                     (C.to_int (_channels cb)) (w_this w) (w_lib w0)).
    set (w1 := with_lib (snd answer) _).
    assert (Hw1 : w_trace w1
                  = w_trace w
                    ++ [Ev_callback_new (_converter_type cb)
                          (C.to_int (_channels cb)) (fst (fst answer))
                          (snd (fst answer))]) by reflexivity.
    destruct (fst (fst answer)) as [h|].
    + intros Hrun. right. right.
      apply (Hopen (Some h) w1 _ Hw1 eq_refl); [|exact Hrun].
      right. split; [reflexivity|]. eexists. split; [reflexivity|].
      discriminate.
    + destruct (Z.eqb_spec (snd (fst answer)) 0) as [H0|Hnz].
      * intros Hrun. right. right.
        apply (Hopen None w1 _ Hw1 eq_refl); [|exact Hrun].
        right. split; [reflexivity|]. eexists. split; [reflexivity|].
        intros _. exact H0.
      * assert (Hcb1 : set_state None cb = cb).
        { rewrite <- Hstate. apply set_state_same. }
        rewrite Hcb1.
        destruct ((1 <=? snd (fst answer)) && (snd (fst answer) <=? 23)).
        -- intros [= <- <- <-]. right. left.
           exists (snd (fst answer)), [Ev_strerror (snd (fst answer))].
           split; [reflexivity|]. split; [exact Hnz|].
           split.
           { cbn [w_trace log]. rewrite Hw1, <- app_assoc. reflexivity. }
           split; [intros ? [<-|[]]; reflexivity|]. auto.
        -- intros [= <- <- <-]. right. left.
           exists (snd (fst answer)), [].
           split; [reflexivity|]. split; [exact Hnz|].
           split; [exact Hw1|]. split; [intros ? []|]. auto.
Qed.

Lemma producer_answers_app (xs ys : list (@event E)) :
  producer_answers (xs ++ ys) = producer_answers xs ++ producer_answers ys.
Proof. unfold producer_answers. apply flat_map_app. Qed.

Lemma producer_answers_bridge (a : address) (channels : Z) xs :
  producer_answers (bridge_events (E := E) a channels xs) = xs.
Proof.
  unfold producer_answers, bridge_events.
  induction xs as [|x xs IH]; [reflexivity|].
  cbn. f_equal. exact IH.
Qed.

Lemma producer_answers_none (evs : list (@event E)) :
  (forall e, In e evs -> forall x, e <> Ev_producer x) ->
  producer_answers evs = [].
Proof.
  unfold producer_answers.
  induction evs as [|e evs IH]; intros H; [reflexivity|].
  cbn [flat_map]. rewrite IH by (intros; apply H; right; assumption).
  destruct e; try reflexivity.
  destruct (H (Ev_producer returned) (or_introl eq_refl) returned eq_refl).
Qed.

Lemma sticky_ndim_app n xs ys :
  sticky_ndim n (xs ++ ys) = sticky_ndim (sticky_ndim n xs) ys.
Proof. unfold sticky_ndim. apply fold_left_app. Qed.

Lemma sticky_ndim_fixed n xs : n <> 0 -> sticky_ndim n xs = n.
Proof.
  intros Hn. induction xs as [|x xs IH]; [reflexivity|].
  cbn. destruct x as [a|]; [|exact IH].
  apply Z.eqb_neq in Hn. rewrite Hn, andb_false_r. exact IH.
Qed.

Lemma absorb_ndim (cb : CallbackResampler py) x :
  _buffer_ndim (absorb cb x) = sticky_ndim (_buffer_ndim cb) [x].
Proof.
  unfold absorb, sticky_ndim. destruct x as [a|]; [|reflexivity].
  cbn [fold_left].
  destruct (bridge_records (_channels cb) (Some a)),
    ((0 <? ndim a) && (_buffer_ndim cb =? 0)); reflexivity.
Qed.

Lemma fold_absorb_ndim xs (cb : CallbackResampler py) :
  _buffer_ndim (fold_left absorb xs cb) = sticky_ndim (_buffer_ndim cb) xs.
Proof.
  revert cb; induction xs as [|x xs IH]; intros cb; [reflexivity|].
  cbn [fold_left]. rewrite IH, absorb_ndim. reflexivity.
Qed.

Lemma in_producer_answers (evs : list (@event E)) x :
  In (Ev_producer x) evs <-> In x (producer_answers evs).
Proof.
  unfold producer_answers. rewrite in_flat_map. split.
  - intros H. exists (Ev_producer x). split; [exact H|left; reflexivity].
  - intros (e & Hin & Hx). destruct e; cbn in Hx; try contradiction.
    destruct Hx as [->|[]]. exact Hin.
Qed.

Lemma bridge_events_split (a : address) (channels : Z) xs x :
  In x xs ->
  exists before after,
    bridge_events (E := E) a channels xs
    = before ++ Ev_callback a :: Ev_producer x
        :: Ev_bridge (bridge_returns channels x) :: after.
Proof.
  intros Hin. apply in_split in Hin. destruct Hin as (l1 & l2 & ->).
  unfold bridge_events. rewrite flat_map_app. cbn [flat_map app].
  eexists; eexists; reflexivity.
Qed.

Lemma absorb_error (cb : CallbackResampler py) x :
  _callback_error_msg (absorb cb x)
  = deferred_error (_channels cb) (_callback_error_msg cb) [x].
Proof.
  unfold absorb, deferred_error. cbn [fold_left].
  destruct x as [a|]; [|reflexivity].
  destruct (bridge_records (_channels cb) (Some a)),
    ((0 <? ndim a) && (_buffer_ndim cb =? 0)); reflexivity.
Qed.

Lemma fold_absorb_error xs (cb : CallbackResampler py) :
  _callback_error_msg (fold_left absorb xs cb)
  = deferred_error (_channels cb) (_callback_error_msg cb) xs.
Proof.
  revert cb; induction xs as [|x xs IH]; intros cb; [reflexivity|].
  cbn [fold_left]. rewrite IH, absorb_error, absorb_channels. reflexivity.
Qed.

(** The slot holds what it held, or a message the bridge recorded for one
    of the answers; and it holds such a message as soon as there is one. *)
Lemma deferred_error_cases (channels : Z) m0 xs :
  (deferred_error channels m0 xs = m0
   /\ forall x, In x xs -> bridge_records channels x = None)
  \/ exists x, In x xs
       /\ bridge_records channels x = Some (deferred_error channels m0 xs).
Proof.
  revert m0. induction xs as [|x xs IH]; intros m0.
  - left. split; [reflexivity|intros ? []].
  - unfold deferred_error in *. cbn [fold_left].
    destruct (bridge_records channels x) as [m|] eqn:Hx.
    + right. destruct (IH m) as [[Heq Hnone]|(y & Hin & Hy)].
      * exists x. split; [left; reflexivity|]. rewrite Heq. exact Hx.
      * exists y. split; [right; exact Hin|exact Hy].
    + destruct (IH m0) as [[Heq Hnone]|(y & Hin & Hy)].
      * left. split; [exact Heq|]. intros y [<-|Hin]; [exact Hx|auto].
      * right. exists y. split; [right; exact Hin|exact Hy].
Qed.

Lemma bridge_records_message (channels : Z) x m :
  bridge_records channels x = Some m ->
  (m = invalid_channels \/ m = at_most_2_dimensions) /\ empty m = false
  /\ bridge_returns channels x = 0.
Proof.
  unfold bridge_returns, bridge_records. destruct x as [a|]; [|discriminate].
  intros H. rewrite H.
  destruct (2 <? ndim a).
  - injection H as <-. split; [right; reflexivity|].
    split; [reflexivity|]. destruct (ndim a =? 0); reflexivity.
  - destruct (channel_mismatch channels a); [|discriminate].
    injection H as <-. split; [left; reflexivity|].
    split; [reflexivity|]. destruct (ndim a =? 0); reflexivity.
Qed.

Lemma channel_mismatch_records (channels : Z) a :
  channel_mismatch channels a = true ->
  bridge_records channels (Some a) = Some invalid_channels.
Proof.
  intros H. unfold bridge_records. rewrite H.
  unfold channel_mismatch in H.
  apply andb_prop in H. destruct H as [H _].
  apply andb_prop in H. destruct H as [_ H].
  apply Z.leb_le in H.
  destruct (Z.ltb_spec 2 (ndim a)); [lia|reflexivity].
Qed.

(** The events of the engine calling back hold no answer of
    [src_callback_read], and no look at the engine's status. *)
Lemma bridging_no_return (devs : list (@event E)) :
  Forall bridging devs ->
  forall e, In e devs ->
    (forall m, e <> Ev_callback_read_returned m)
    /\ (forall st ratio n, e <> Ev_callback_read st ratio n).
Proof.
  intros Hall e He. rewrite Forall_forall in Hall.
  specialize (Hall e He). destruct e; cbn in Hall; try contradiction;
    repeat split; intros; discriminate.
Qed.

Lemma handed_in (a : address) x n (pre post : list (@event E)) devs :
  handed a x n devs -> handed a x n (pre ++ devs ++ post).
Proof.
  intros (before & after & ->). exists (pre ++ before), (after ++ post).
  repeat rewrite <- app_assoc. reflexivity.
Qed.

(** Every [read], seen from outside, with [evs] the events it left. It
    failed before the engine was asked to read, with the session as it
    was and the producer not asked; or the engine was asked once, on the
    state [st], and the bridge of this session handled the producer
    answers [xs], the own answers among the events; and then either the
    behaviour is undefined, the engine having called back an address
    where no session lives, or the engine returned [n]. *)
Lemma read_cases (frames : Z) (cb : CallbackResampler py) (w : world py)
    r cb' w' evs :
  read frames (cb, w) = (r, (cb', w')) ->
  w_trace w' = w_trace w ++ evs ->
  ((r = Throws bad_alloc \/ exists err, err <> 0 /\ r = status_error err)
   /\ cb' = cb
   /\ Forall aside evs
   /\ (forall n, ~ In (Ev_callback_read_returned n) evs)
   /\ (forall st ratio n, ~ In (Ev_callback_read st ratio n) evs))
  \/
  (exists st xs,
      cb' = fold_left absorb xs (clear_callback_error (set_state st cb))
      /\ (forall c, answers_to (w_this w) c evs = xs)
      /\ (forall x, In x xs ->
            handed (w_this w) x (bridge_returns (_channels cb) x) evs)
      /\ _state cb' = st
      /\ (_state cb <> None -> st = _state cb)
      /\ ((r = Undefined /\ ~ called_back_only (w_this w) evs
           /\ forall n, ~ In (Ev_callback_read_returned n) evs)
          \/ exists n,
               In (Ev_callback_read_returned n) evs
               /\ (forall m, In (Ev_callback_read_returned m) evs -> m = n)
               /\ r = read_outcome cb' n (src_error st (w_lib w')))).
Proof.
  intros Hrun Htr. apply read_inversion in Hrun.
  destruct Hrun as [(Hr & Hcb & Htr' & _)
                   |[(err & tail & Hst & Herr & Htr' & Htail & Hr & Hcb & _)
                    |(st & pre & xs & devs & ending & Hpre & Hcb & Htr' & _
                      & Hall & Hans & Hin & Hend)]].
  - left. rewrite Htr' in Htr. rewrite <- app_nil_r in Htr at 1.
    apply app_inv_head in Htr. subst evs.
    split; [left; exact Hr|]. split; [exact Hcb|].
    split; [constructor|]. split; intros; intros [].
  - left. rewrite Htr' in Htr. apply app_inv_head in Htr. subst evs.
    split; [right; exists err; auto|]. split; [exact Hcb|].
    split.
    { constructor; [exact I|]. apply Forall_forall. intros e He.
      rewrite (Htail e He). exact I. }
    split.
    + intros n [Hhd|Hi]; [discriminate|]. apply Htail in Hi. discriminate.
    + intros s0 r0 n [Hhd|Hi]; [discriminate|].
      apply Htail in Hi. discriminate.
  - right. rewrite Htr' in Htr. apply app_inv_head in Htr. subst evs.
    assert (Hpre' : Forall aside pre
                    /\ forall e, In e pre ->
                         forall m, e <> Ev_callback_read_returned m).
    { destruct Hpre as [(_ & _ & ->)|(_ & err & -> & _)].
      - split; [constructor|intros ? []].
      - split; [constructor; [exact I|constructor]|].
        intros e [<-|[]] m. discriminate. }
    destruct Hpre' as [Hpre1 Hpre2].
    assert (Hending : Forall aside ending).
    { destruct Hend as [(_ & -> & _)|(n & post & -> & Hpost & _)];
        [constructor|].
      constructor; [exact I|]. apply Forall_forall. intros e He.
      destruct (Hpost e He) as [->| ->]; exact I. }
    exists st, xs.
    split; [exact Hcb|].
    split.
    { intros c. rewrite answers_to_app.
      destruct (answers_to_aside (w_this w) c pre Hpre1) as [-> ->].
      cbn [app answers_to].
      rewrite answers_to_app, Hans.
      destruct (answers_to_aside (w_this w)
                  (calling_after (w_this w) c devs) ending Hending) as [-> _].
      apply app_nil_r. }
    split.
    { intros x Hx.
      change (Ev_callback_read st (_ratio cb) (C.to_long frames)
                :: devs ++ ending)
        with ([Ev_callback_read st (_ratio cb) (C.to_long frames)]
                ++ devs ++ ending).
      rewrite app_assoc. apply handed_in. apply Hin. exact Hx. }
    split.
    { subst cb'. rewrite fold_absorb_state. reflexivity. }
    split.
    { destruct Hpre as [(Hs & _ & _)|(Hs & _)].
      - intros _. symmetry. exact Hs.
      - intros Hn. contradiction. }
    assert (Hdevs : called_back_only (w_this w)
                      (pre ++ Ev_callback_read st (_ratio cb) (C.to_long frames)
                         :: devs ++ ending) ->
                    called_back_only (w_this w) devs).
    { intros Hco d Hd. apply Hco. apply in_or_app. right. right.
      apply in_or_app. left. exact Hd. }
    destruct Hend as [(Hr & -> & Hnot)|(n & post & -> & Hpost & Hr)].
    + left. split; [exact Hr|]. split.
      { intros Hco. apply Hnot. apply Hdevs. exact Hco. }
      intros n Hi. apply in_app_or in Hi. destruct Hi as [Hi|Hi].
      * exact (Hpre2 _ Hi n eq_refl).
      * destruct Hi as [Hhd|Hi]; [discriminate|].
        rewrite app_nil_r in Hi.
        destruct (bridging_no_return devs Hall _ Hi) as (Hn & _).
        destruct (Hn n eq_refl).
    + right.
      assert (Hpost' : forall e, In e post ->
                forall m, e <> Ev_callback_read_returned m).
      { intros e Hi m. destruct (Hpost e Hi) as [->| ->]; discriminate. }
      exists n.
      split.
      { apply in_or_app. right. right. apply in_or_app. right. left.
        reflexivity. }
      split; [|exact Hr].
      intros m Hi. apply in_app_or in Hi. destruct Hi as [Hi|Hi].
      * destruct (Hpre2 _ Hi m eq_refl).
      * destruct Hi as [Hhd|Hi]; [discriminate|].
        apply in_app_or in Hi. destruct Hi as [Hi|Hi].
        -- destruct (bridging_no_return devs Hall _ Hi) as (Hn & _).
           destruct (Hn m eq_refl).
        -- destruct Hi as [Hhd|Hi]; [injection Hhd as ->; reflexivity|].
           destruct (Hpost' _ Hi m eq_refl).
Qed.

Lemma read_trace_grows (frames : Z) (s s' : CallbackResampler py * world py)
    r :
  read frames s = (r, s') ->
  w_this (snd s') = w_this (snd s)
  /\ exists evs, w_trace (snd s') = w_trace (snd s) ++ evs.
Proof.
  destruct s as [cb w], s' as [cb' w']. intros Hrun. cbn [snd].
  apply read_inversion in Hrun.
  destruct Hrun as [(_ & _ & Htr & Hthis)
                   |[(err & tail & _ & _ & Htr & _ & _ & _ & Hthis)
                    |(st & pre & xs & devs & ending & _ & _ & Htr & Hthis & _)]].
  - split; [exact Hthis|]. exists []. rewrite app_nil_r. exact Htr.
  - split; [exact Hthis|]. eexists. exact Htr.
  - split; [exact Hthis|]. eexists. exact Htr.
Qed.

Lemma status_error_returns_none (A : Type) (err : Z) (a : A) :
  err <> 0 -> status_error (E := E) err <> Returns a.
Proof.
  intros _. unfold status_error.
  destruct ((1 <=? err) && (err <=? 23)); [|discriminate].
  destruct (src_strerror err); discriminate.
Qed.

(** What one [read] does to the rank and the channel count. *)
Lemma read_sticky (frames : Z) (cb : CallbackResampler py) (w : world py)
    r cb' w' :
  read frames (cb, w) = (r, (cb', w')) ->
  exists evs,
    w_trace w' = w_trace w ++ evs
    /\ w_this w' = w_this w
    /\ (forall c,
          _buffer_ndim cb'
          = sticky_ndim (_buffer_ndim cb) (answers_to (w_this w) c evs))
    /\ _channels cb' = _channels cb
    /\ forall a, r = Returns a ->
         ndim a = if (_channels cb' =? 1) && (_buffer_ndim cb' =? 1)
                  then 1 else 2.
Proof.
  intros Hrun.
  destruct (read_trace_grows _ _ _ _ Hrun) as (Hthis & evs & Htr).
  cbn [snd] in Hthis, Htr.
  exists evs. split; [exact Htr|]. split; [exact Hthis|].
  destruct (read_cases _ _ _ _ _ _ _ Hrun Htr)
    as [(Hr & -> & Haside & _)
       |(st & xs & Hcb & Hans & _ & _ & _ & Hend)].
  - split.
    { intros c. destruct (answers_to_aside (w_this w) c evs Haside) as [-> _].
      reflexivity. }
    split; [reflexivity|].
    intros a Ha. exfalso. rewrite Ha in Hr.
    destruct Hr as [Hr|(err & Hnz & Hr)]; [discriminate|].
    symmetry in Hr. exact (status_error_returns_none _ _ _ Hnz Hr).
  - assert (Hc : _channels cb' = _channels cb).
    { subst cb'. rewrite fold_absorb_channels. reflexivity. }
    split.
    { intros c. rewrite Hans. subst cb'. rewrite fold_absorb_ndim.
      reflexivity. }
    split; [exact Hc|].
    intros a Ha. rewrite Ha in Hend.
    destruct Hend as [(Hu & _)|(n & _ & _ & Hr)]; [discriminate|].
    unfold read_outcome, status_error, read_result in Hr.
    destruct (negb (empty (_callback_error_msg cb'))); [discriminate|].
    destruct (C.to_size_t n =? 0).
    + destruct (src_error st (w_lib w') =? 0).
      * injection Hr as ->.
        destruct ((_channels cb' =? 1) && (_buffer_ndim cb' =? 1)); reflexivity.
      * destruct ((1 <=? src_error st (w_lib w'))
                  && (src_error st (w_lib w') <=? 23));
          [destruct (src_strerror (src_error st (w_lib w')))|]; discriminate.
    + injection Hr as ->.
      destruct ((_channels cb' =? 1) && (_buffer_ndim cb' =? 1)); reflexivity.
Qed.

(** [error_handler] leaves the address of the session at work alone. *)
Lemma error_handler_this (O : Type) (errnum : Z) (s : O * world py) :
  w_this (snd (snd (error_handler errnum s))) = w_this (snd s).
Proof.
  rewrite error_handler_run.
  destruct (errnum =? 0); [reflexivity|].
  destruct ((1 <=? errnum) && (errnum <=? 23)); reflexivity.
Qed.

Lemma constructor_fresh (O : Type) (callback_func : @callback_t py)
    (ratio : double) (converter_type : py_object) (channels : Z)
    (s s' : O * world py) (cb : CallbackResampler py) :
  constructor callback_func ratio converter_type channels s = (Returns cb, s') ->
  _buffer_ndim cb = 0 /\ _channels cb = channels /\ _ratio cb = ratio
  /\ _callback_error_msg cb = EmptyString
  /\ w_this (snd s') = w_this (snd s).
Proof.
  unfold constructor. unfold bind at 1.
  destruct (get_converter_type_pure O converter_type s) as [Hs Hu].
  destruct (get_converter_type converter_type s) as [[cti| |] s0];
    cbn in Hs; subst s0; try discriminate.
  match goal with |- context [_create (?x, _)] => set (self := x) end.
  unfold _create. unfold bind at 1, this. cbn [fst snd].
  unfold bind at 1, this_address. cbn [fst snd].
  unfold bind at 1, engine_callback_new, on_world. cbn [fst snd].
  destruct (src_callback_new _ _ _ _) as [[st err] l]. cbn [fst snd].
  unfold bind at 1, update. cbn [fst snd].
  set (w1 := with_lib l _).
  destruct st as [h|].
  - unfold ret. intros [= <- <-]. cbn. auto.
  - pose proof (error_handler_keeps_this _ err (set_state None self, w1)) as Hk.
    pose proof (error_handler_this _ err (set_state None self, w1)) as Ht.
    destruct (error_handler err (set_state None self, w1)) as [[u| |] [self' w2]];
      try discriminate.
    cbn in Hk, Ht. subst self'. intros [= <- <-]. cbn [snd]. rewrite Ht.
    cbn. auto.
Qed.

Lemma set_starting_ratio_unfold (new_ratio : double)
    (cb : CallbackResampler py) (w : world py) :
  set_starting_ratio new_ratio (cb, w) =
    let err := fst (src_set_ratio (_state cb) new_ratio (w_lib w)) in
    let l := snd (src_set_ratio (_state cb) new_ratio (w_lib w)) in
    let w1 := with_lib l (log (Ev_set_ratio (_state cb) new_ratio err) w) in
    match error_handler err (cb, w1) with
    | (Returns _, (cb2, w2)) =>
        (Returns tt, (set_ratio_field new_ratio cb2, w2))
    | (Throws e, s) => (Throws e, s)
    | (Undefined, s) => (Undefined, s)
    end.
Proof.
  unfold set_starting_ratio. run. cbn [fst snd].
  destruct (src_set_ratio (_state cb) new_ratio (w_lib w)) as [err l].
  cbn [fst snd].
  destruct (error_handler err _) as [[u| |] [cb2 w2]]; reflexivity.
Qed.

Lemma reset_unfold (cb : CallbackResampler py) (w : world py) :
  reset (cb, w) =
    let err := fst (src_reset (_state cb) (w_lib w)) in
    let l := snd (src_reset (_state cb) (w_lib w)) in
    error_handler err (cb, with_lib l (log (Ev_reset (_state cb) err) w)).
Proof.
  unfold reset. run. cbn [fst snd].
  destruct (src_reset (_state cb) (w_lib w)) as [err l]. reflexivity.
Qed.

Lemma exit_unfold (exc_type exc exc_tb : py_object)
    (cb : CallbackResampler py) (w : world py) :
  __exit__ exc_type exc exc_tb (cb, w) =
    match _state cb with
    | Some h =>
        (Returns tt,
         (set_state None cb,
          with_lib (src_delete (Some h) (w_lib w)) (log (Ev_delete (Some h)) w)))
    | None => (Returns tt, (cb, w))
    end.
Proof.
  unfold __exit__, _destroy. run. cbn [fst snd].
  destruct (_state cb); reflexivity.
Qed.

End Bridge.

(** ** The callback session *)

Section CallbackSession.

Context {E : Engine} {py : Type}.

Import CallbackResampler.

Lemma slot_after_read (xs : list (option nb_array_f32)) st
    (cb : CallbackResampler py) :
  _callback_error_msg
    (fold_left absorb xs (clear_callback_error (set_state st cb)))
  = deferred_error (_channels cb) EmptyString xs.
Proof. rewrite fold_absorb_error. reflexivity. Qed.

(** A [read] in which the bridge of the session recorded an error, and
    from which the engine returned. *)
Lemma read_with_deferred_error
    (frames : Z) (cb : CallbackResampler py) (w : world py)
    (r : outcome nb_array_f32) (cb' : CallbackResampler py) (w' : world py)
    (evs : list event) (x : option nb_array_f32) (message : string) (n : Z) :
  read frames (cb, w) = (r, (cb', w')) ->
  w_trace w' = w_trace w ++ evs ->
  In x (own_answers (w_this w) evs) ->
  bridge_records (_channels cb) x = Some message ->
  In (Ev_callback_read_returned n) evs ->
  handed (w_this w) x 0 evs
  /\ r = Throws (CallbackError (_callback_error_msg cb'))
  /\ empty (_callback_error_msg cb') = false
  /\ exists y, In y (own_answers (w_this w) evs)
       /\ bridge_records (_channels cb) y = Some (_callback_error_msg cb').
Proof.
  intros Hrun Htr Hin Hrec Hret.
  destruct (read_cases _ _ _ _ _ _ _ Hrun Htr)
    as [(_ & _ & _ & Hno & _)
       |(st & xs & Hcb & Hans & Hhand & _ & _ & Hend)].
  { destruct (Hno n Hret). }
  destruct Hend as [(_ & _ & Hno)|(m & _ & _ & Hr)]; [destruct (Hno n Hret)|].
  unfold own_answers in *. rewrite (Hans false) in *.
  assert (Hmsg : _callback_error_msg cb'
                 = deferred_error (_channels cb) EmptyString xs).
  { rewrite Hcb. apply slot_after_read. }
  destruct (deferred_error_cases (_channels cb) EmptyString xs)
    as [[_ Hno]|(y & Hy & Hyrec)].
  { rewrite (Hno _ Hin) in Hrec. discriminate. }
  rewrite <- Hmsg in Hyrec.
  destruct (bridge_records_message _ _ _ Hyrec) as (_ & Hne & _).
  split.
  { destruct (bridge_records_message _ _ _ Hrec) as (_ & _ & H0).
    rewrite <- H0. apply Hhand. exact Hin. }
  split.
  { rewrite Hr. unfold read_outcome. rewrite Hne. reflexivity. }
  split; [exact Hne|].
  exists y. split; [exact Hy|exact Hyrec].
Qed.

(** C2, as the code has it. During a [read] the engine called back the
    session, and the producer supplied its bridge a chunk of rank 1 or 2
    whose channel count, as the bridge compares it (both counts narrowed
    to [int]), differs from the session's or is 0; and the engine
    returned from the pull-mode read. Then the bridge answered that
    chunk with 0 frames (the [Ev_bridge 0] right after it), and the
    [read] throws [CallbackError] carrying the message left in the
    deferred-error slot, one of the bridge's two messages: the channel
    message, unless a later chunk of rank above 2 replaced it by the rank
    message. *)
Theorem read_fails_on_channel_mismatch
    (frames : Z) (cb : CallbackResampler py) (w : world py)
    (r : outcome nb_array_f32) (cb' : CallbackResampler py) (w' : world py)
    (evs : list event) (a : nb_array_f32) (n : Z) :
  read frames (cb, w) = (r, (cb', w')) ->
  w_trace w' = w_trace w ++ evs ->
  In (Some a) (own_answers (w_this w) evs) ->
  channel_mismatch (_channels cb) a = true ->
  In (Ev_callback_read_returned n) evs ->
  handed (w_this w) (Some a) 0 evs
  /\ r = Throws (CallbackError (_callback_error_msg cb'))
  /\ (_callback_error_msg cb' = invalid_channels
      \/ _callback_error_msg cb' = at_most_2_dimensions)
  /\ ((forall b, In (Some b) (own_answers (w_this w) evs) -> ndim b <= 2) ->
      _callback_error_msg cb' = invalid_channels).
Proof.
  intros Hrun Htr Hin Hbad Hret.
  pose proof (channel_mismatch_records _ _ Hbad) as Hrec.
  destruct (read_with_deferred_error _ _ _ _ _ _ _ _ _ _
              Hrun Htr Hin Hrec Hret)
    as (Hhand & Hr & _ & y & Hy & Hyrec).
  destruct (bridge_records_message _ _ _ Hyrec) as (Hwhich & _ & _).
  split; [exact Hhand|]. split; [exact Hr|]. split; [exact Hwhich|].
  intros Hrank. destruct y as [b|]; [|discriminate].
  specialize (Hrank b Hy).
  unfold bridge_records in Hyrec.
  destruct (Z.ltb_spec 2 (ndim b)); [lia|].
  destruct (channel_mismatch (_channels cb) b); [|discriminate].
  injection Hyrec as <-. reflexivity.
Qed.



(** X20. In a [read] the bridge, running on the reading session,
    recorded a deferred error for some producer answer, and the engine
    returned [n] frames, whatever [n] is: 0 or, as in the witness, above
    0. The [read] throws [CallbackError] with the message in the
    session's slot, and returns no array: the check of the slot does not
    look at the frame count, so frames generated before the faulty chunk
    are dropped. *)
Theorem deferred_error_is_raised_for_any_frame_count
    (frames : Z) (cb : CallbackResampler py) (w : world py)
    (r : outcome nb_array_f32) (cb' : CallbackResampler py) (w' : world py)
    (evs : list event) (x : option nb_array_f32) (message : string) (n : Z) :
  read frames (cb, w) = (r, (cb', w')) ->
  w_trace w' = w_trace w ++ evs ->
  In x (own_answers (w_this w) evs) ->
  bridge_records (_channels cb) x = Some message ->
  In (Ev_callback_read_returned n) evs ->
  r = Throws (CallbackError (_callback_error_msg cb'))
  /\ empty (_callback_error_msg cb') = false
  /\ (forall a, r <> Returns a)
  /\ exists y, In y (own_answers (w_this w) evs)
       /\ bridge_records (_channels cb) y = Some (_callback_error_msg cb').
Proof.
  intros Hrun Htr Hin Hrec Hret.
  destruct (read_with_deferred_error _ _ _ _ _ _ _ _ _ _
              Hrun Htr Hin Hrec Hret) as (_ & Hr & Hne & Hy).
  split; [exact Hr|]. split; [exact Hne|].
  split; [rewrite Hr; discriminate|exact Hy].
Qed.

(** C10. [set_starting_ratio] asks the engine to change the ratio. When
    the engine answers a non-zero status the call fails with the error of
    that status and the session is as it was, its recorded ratio
    included; when the engine answers 0 the call returns and the recorded
    ratio is the new one, nothing else of the session having changed. *)
Theorem set_starting_ratio_records_on_success_only
    (new_ratio : double) (cb : CallbackResampler py) (w : world py) :
  let err := fst (src_set_ratio (_state cb) new_ratio (w_lib w)) in
  let '(r, (cb', w')) := set_starting_ratio new_ratio (cb, w) in
  In (Ev_set_ratio (_state cb) new_ratio err) (w_trace w')
  /\ if err =? 0
     then r = Returns tt /\ cb' = set_ratio_field new_ratio cb
          /\ _ratio cb' = new_ratio
     else r = status_error err /\ cb' = cb /\ _ratio cb' = _ratio cb.
Proof.
  cbn zeta. rewrite set_starting_ratio_unfold. cbn zeta.
  set (err := fst (src_set_ratio (_state cb) new_ratio (w_lib w))).
  set (l := snd (src_set_ratio (_state cb) new_ratio (w_lib w))).
  rewrite error_handler_run. cbn [fst snd].
  unfold status_error.
  destruct (err =? 0).
  - split; [|auto]. cbn. apply in_or_app. right. left. reflexivity.
  - destruct ((1 <=? err) && (err <=? 23)).
    + destruct (src_strerror err); (split; [|auto]); cbn;
        rewrite <- app_assoc; apply in_or_app; right; left; reflexivity.
    + split; [|auto]. cbn. apply in_or_app. right. left. reflexivity.
Qed.

End CallbackSession.

(** Evaluating the model on a concrete input. *)
Ltac evaluate H t :=
  let v := eval vm_compute in t in
  assert (H : t = v) by (vm_compute; reflexivity).

(** Membership in a list that is known. *)
Ltac among := cbn; auto 20.

(** A mono session whose producer supplies a chunk of two channels. *)
Lemma read_fails_on_channel_mismatch_witness :
  exists cb' w' evs,
    CallbackResampler.read (E := Sim.sim) 4
      (Sim.closed_session Sim.sim 1, Sim.start Sim.sim [] [Sim.chunk 4 2])
    = (Throws (CallbackError invalid_channels), (cb', w'))
    /\ w_trace w' = [] ++ evs
    /\ handed Sim.here (Sim.chunk 4 2) 0 evs
    /\ CallbackResampler._callback_error_msg cb' = invalid_channels.
Proof.
  evaluate H1
    (CallbackResampler.read (E := Sim.sim) 4
       (Sim.closed_session Sim.sim 1,
        Sim.start Sim.sim [] [Sim.chunk 4 2])).
  match type of H1 with
  | _ = (_, (?cb', ?w')) =>
      evaluate H2 (w_trace w');
      match type of H2 with
      | _ = ?evs =>
          change (w_trace w'
                  = w_trace (Sim.start Sim.sim [] [Sim.chunk 4 2]) ++ evs)
            in H2;
          exists cb', w', evs
      end
  end.
  pose proof (read_fails_on_channel_mismatch (E := Sim.sim) _ _ _ _ _ _ _
                {| shape_of := [4; 2] |} 0 H1 H2
                ltac:(among) eq_refl ltac:(among))
    as (Hhand & _ & _ & Hmsg).
  split; [exact H1|]. split; [exact H2|]. split; [exact Hhand|].
  apply Hmsg. intros b Hb. vm_compute in Hb.
  destruct Hb as [Hb|[]]. injection Hb as <-. discriminate.
Defined.

(** C2 as stated fails for a channel count that differs from the
    session's by a multiple of 2^32: a chunk of 4294967297 channels,
    supplied to a session of one channel, is taken for one of one
    channel. The bridge hands its 4 frames to the engine and records
    nothing, and the [read] returns. *)
Lemma read_accepts_channels_modulo_2_32 :
  num_channels {| shape_of := [4; 4294967297] |}
  <> CallbackResampler._channels (Sim.closed_session Sim.sim 1)
  /\ fst (CallbackResampler.read (E := Sim.sim) 4
            (Sim.closed_session Sim.sim 1,
             Sim.start Sim.sim [] [Sim.chunk 4 4294967297]))
     = Returns {| shape_of := [4; 1] |}
  /\ w_trace
       (snd (snd (CallbackResampler.read (E := Sim.sim) 4
                    (Sim.closed_session Sim.sim 1,
                     Sim.start Sim.sim [] [Sim.chunk 4 4294967297]))))
     = [Ev_callback_new (E := Sim.sim) 0 1 (Some 1%nat) 0;
        Ev_callback_read (E := Sim.sim) (Some 1%nat) Sim.one 4;
        Ev_callback Sim.here; Ev_producer (Sim.chunk 4 4294967297);
        Ev_bridge 4; Ev_callback_read_returned 4]
  /\ CallbackResampler._callback_error_msg
       (fst (snd (CallbackResampler.read (E := Sim.sim) 4
                    (Sim.closed_session Sim.sim 1,
                     Sim.start Sim.sim [] [Sim.chunk 4 4294967297]))))
     = EmptyString.
Proof.
  split; [vm_compute; discriminate|].
  repeat split; vm_compute; reflexivity.
Qed.

(** A mono session asked for 8 frames: the producer supplies 4 good
    frames, then a chunk of two channels. The engine returns the 4 frames
    it generated, and the [read] throws. *)
Lemma deferred_error_is_raised_for_any_frame_count_witness :
  exists cb' w' evs,
    CallbackResampler.read (E := Sim.sim) 8
      (Sim.closed_session Sim.sim 1,
       Sim.start Sim.sim [] [Sim.mono 4; Sim.chunk 4 2])
    = (Throws (CallbackError invalid_channels), (cb', w'))
    /\ w_trace w' = [] ++ evs
    /\ In (Ev_callback_read_returned 4) evs
    /\ forall a,
         fst (CallbackResampler.read (E := Sim.sim) 8
                (Sim.closed_session Sim.sim 1,
                 Sim.start Sim.sim [] [Sim.mono 4; Sim.chunk 4 2]))
         <> Returns a.
Proof.
  evaluate H1
    (CallbackResampler.read (E := Sim.sim) 8
       (Sim.closed_session Sim.sim 1,
        Sim.start Sim.sim [] [Sim.mono 4; Sim.chunk 4 2])).
  match type of H1 with
  | _ = (_, (?cb', ?w')) =>
      evaluate H2 (w_trace w');
      match type of H2 with
      | _ = ?evs =>
          change (w_trace w'
                  = w_trace (Sim.start Sim.sim []
                               [Sim.mono 4; Sim.chunk 4 2]) ++ evs) in H2;
          exists cb', w', evs
      end
  end.
  match type of H2 with
  | _ = _ ++ ?evs =>
      assert (H3 : In (Ev_callback_read_returned 4) evs) by among
  end.
  pose proof (deferred_error_is_raised_for_any_frame_count (E := Sim.sim)
                _ _ _ _ _ _ _ (Sim.chunk 4 2) invalid_channels 4 H1 H2
                ltac:(among) eq_refl H3) as (_ & _ & Hnone & _).
  split; [exact H1|]. split; [exact H2|]. split; [exact H3|].
  rewrite H1. exact Hnone.
Defined.

(** C9 fails on a session made by [clone]. The clone's converter state
    is a copy of the original's, and the engine calls back the original
    for it: the copy constructor registers nothing with the state it
    gets from [src_clone]. Asked for 8 frames, the clone reads: the
    producer supplies 4 good frames, then a chunk of two channels, and
    both go to the bridge of the original, which records the error in
    the original's slot. The clone's own slot stays empty, and its
    [read] returns the 4 frames and throws nothing. *)
Lemma clone_read_drops_the_deferred_error :
  fst (Python.call_method Sim.copy (CallbackResampler.read 8)
         (Sim.cloned Sim.sim [] [Sim.mono 4; Sim.chunk 4 2]))
  = Returns {| shape_of := [4; 1] |}
  /\ w_trace
       (snd (Python.call_method Sim.copy (CallbackResampler.read 8)
               (Sim.cloned Sim.sim [] [Sim.mono 4; Sim.chunk 4 2])))
     = [Ev_callback_new (E := Sim.sim) 0 1 (Some 1%nat) 0;
        Ev_clone (E := Sim.sim) (Some 1%nat) (Some 2%nat) 0;
        Ev_callback_read (E := Sim.sim) (Some 2%nat) Sim.one 8;
        Ev_callback Sim.original; Ev_producer (Sim.mono 4); Ev_bridge 4;
        Ev_callback Sim.original; Ev_producer (Sim.chunk 4 2); Ev_bridge 0;
        Ev_callback_read_returned 4]
  /\ bridge_records 1 (Sim.chunk 4 2) = Some invalid_channels
  /\ option_map CallbackResampler._callback_error_msg
       (session_at Sim.original
          (snd (Python.call_method Sim.copy (CallbackResampler.read 8)
                  (Sim.cloned Sim.sim [] [Sim.mono 4; Sim.chunk 4 2]))))
     = Some invalid_channels
  /\ option_map CallbackResampler._callback_error_msg
       (session_at Sim.copy
          (snd (Python.call_method Sim.copy (CallbackResampler.read 8)
                  (Sim.cloned Sim.sim [] [Sim.mono 4; Sim.chunk 4 2]))))
     = Some EmptyString.
Proof. repeat split; vm_compute; reflexivity. Qed.

(** C7 fails on a session made by [clone]. The original and the clone
    have one channel, and the producer supplies chunks of rank 1. The
    clone reads first: the engine calls back the original for it, so the
    chunk goes to the bridge of the original, which records rank 1
    there; the clone records nothing and returns an array of rank 2,
    although it has one channel and the first producer input was of rank
    1. The original, reading next, returns rank 1. *)
Lemma clone_read_returns_rank_2 :
  fst (Python.call_method Sim.copy (CallbackResampler.read 4)
         (Sim.cloned Sim.sim [] [Sim.mono 4; Sim.mono 4]))
  = Returns {| shape_of := [4; 1] |}
  /\ producer_answers
       (w_trace
          (snd (Python.call_method Sim.copy (CallbackResampler.read 4)
                  (Sim.cloned Sim.sim [] [Sim.mono 4; Sim.mono 4]))))
     = [Sim.mono 4]
  /\ option_map CallbackResampler._channels
       (session_at Sim.copy
          (snd (Python.call_method Sim.copy (CallbackResampler.read 4)
                  (Sim.cloned Sim.sim [] [Sim.mono 4; Sim.mono 4]))))
     = Some 1
  /\ option_map CallbackResampler._buffer_ndim
       (session_at Sim.copy
          (snd (Python.call_method Sim.copy (CallbackResampler.read 4)
                  (Sim.cloned Sim.sim [] [Sim.mono 4; Sim.mono 4]))))
     = Some 0
  /\ option_map CallbackResampler._buffer_ndim
       (session_at Sim.original
          (snd (Python.call_method Sim.copy (CallbackResampler.read 4)
                  (Sim.cloned Sim.sim [] [Sim.mono 4; Sim.mono 4]))))
     = Some 1
  /\ fst (Python.call_method Sim.original (CallbackResampler.read 4)
            (snd (Python.call_method Sim.copy (CallbackResampler.read 4)
                    (Sim.cloned Sim.sim [] [Sim.mono 4; Sim.mono 4]))))
     = Returns {| shape_of := [4] |}.
Proof. repeat split; vm_compute; reflexivity. Qed.




(** ** The buffer planner *)

(** *** Rounding to [double] *)

Section Rounding.

Lemma digits2_pos_size (p : positive) : digits2_pos p = Pos.size p.
Proof. induction p; cbn; congruence. Qed.

(** [2^(d-1) <= p < 2^d] for [d] the number of digits of [p]. *)
Lemma digits2_bounds (p : positive) :
  2 ^ (Zpos (digits2_pos p) - 1) <= Zpos p < 2 ^ Zpos (digits2_pos p).
Proof.
  rewrite digits2_pos_size.
  pose proof (Pos.size_gt p) as Hgt.
  pose proof (Pos.size_le p) as Hle.
  split.
  - apply Pos2Z.pos_le_pos in Hle.
    rewrite Pos2Z.inj_pow in Hle.
    change (Z.pos p~0) with (2 * Z.pos p) in Hle.
    replace (Z.pos (Pos.size p)) with (Z.succ (Z.pos (Pos.size p) - 1)) in Hle by lia.
    rewrite Z.pow_succ_r in Hle by lia. lia.
  - apply Pos2Z.pos_lt_pos in Hgt. rewrite Pos2Z.inj_pow in Hgt. exact Hgt.
Qed.

(** The number of digits is fixed by the bounds. *)
Lemma digits2_unique (p : positive) (d : Z) :
  2 ^ (d - 1) <= Zpos p < 2 ^ d -> 0 < d -> Zpos (digits2_pos p) = d.
Proof.
  intros [Hlo Hhi] Hd.
  destruct (digits2_bounds p) as [Hl Hh].
  set (d' := Zpos (digits2_pos p)) in *.
  assert (0 < d') by (subst d'; lia).
  destruct (Z.lt_trichotomy d' d) as [Hlt|[Heq|Hgt]]; [|exact Heq|].
  - assert (2 ^ d' <= 2 ^ (d - 1)) by (apply Z.pow_le_mono_r; lia). lia.
  - assert (2 ^ d <= 2 ^ (d' - 1)) by (apply Z.pow_le_mono_r; lia). lia.
Qed.

Lemma shr_1_m (mrs : shr_record) :
  0 <= shr_m mrs -> shr_m (shr_1 mrs) = shr_m mrs / 2.
Proof.
  destruct mrs as [m r s]. cbn [shr_m]. intros Hm.
  destruct m as [|p|p]; [reflexivity| |lia].
  destruct p as [p|p|]; cbn [shr_1 shr_m].
  - rewrite Pos2Z.inj_xI. apply Z.div_unique with (r := 1); lia.
  - rewrite Pos2Z.inj_xO. apply Z.div_unique with (r := 0); lia.
  - reflexivity.
Qed.

Lemma shr_iter_m (k : positive) (mrs : shr_record) :
  0 <= shr_m mrs ->
  shr_m (iter_pos shr_1 k mrs) = shr_m mrs / 2 ^ Zpos k
  /\ 0 <= shr_m (iter_pos shr_1 k mrs).
Proof.
  revert mrs. induction k as [k IH|k IH|]; intros mrs Hm; cbn [iter_pos];
    try assert (Hk : 0 < 2 ^ Z.pos k) by (apply Z.pow_pos_nonneg; lia).
  - assert (H1 : 0 <= shr_m (shr_1 mrs)).
    { rewrite shr_1_m by exact Hm. apply Z.div_pos; lia. }
    destruct (IH (shr_1 mrs) H1) as [E1 P1].
    destruct (IH _ P1) as [E2 P2].
    split; [|exact P2].
    rewrite E2, E1, shr_1_m by exact Hm.
    rewrite !Z.div_div by lia.
    f_equal.
    replace (Z.pos k~1) with (1 + Z.pos k + Z.pos k) by lia.
    rewrite !Z.pow_add_r by lia. rewrite Z.pow_1_r. ring.
  - destruct (IH mrs Hm) as [E1 P1].
    destruct (IH _ P1) as [E2 P2].
    split; [|exact P2].
    rewrite E2, E1.
    rewrite Z.div_div by lia.
    f_equal.
    replace (Z.pos k~0) with (Z.pos k + Z.pos k) by lia.
    rewrite Z.pow_add_r by lia. reflexivity.
  - rewrite shr_1_m by exact Hm. split; [reflexivity|].
    apply Z.div_pos; lia.
Qed.


Lemma fexp_eq (x : Z) : fexp Double.prec Double.emax x = Z.max (x - 53) (-1074).
Proof. reflexivity. Qed.

Lemma pow2_pos (k : Z) : 0 <= k -> 0 < 2 ^ k.
Proof. intros. apply Z.pow_pos_nonneg; lia. Qed.

Lemma pow2_split (a b : Z) : 0 <= a -> 0 <= b -> 2 ^ (a + b) = 2 ^ a * 2 ^ b.
Proof. intros. apply Z.pow_add_r; assumption. Qed.

Lemma pow2_le (a b : Z) : 0 <= a <= b -> 2 ^ a <= 2 ^ b.
Proof. intros. apply Z.pow_le_mono_r; lia. Qed.

Lemma div_pow2_bounds (a k : Z) :
  0 <= k -> 2 ^ k * (a / 2 ^ k) <= a < 2 ^ k * (a / 2 ^ k + 1).
Proof.
  intros Hk. pose proof (pow2_pos k Hk) as Hp.
  split.
  - apply Z.mul_div_le; exact Hp.
  - pose proof (Z.mul_succ_div_gt a (2 ^ k) Hp). lia.
Qed.

(** Dropping [j] low digits of a number of [d] digits leaves [d - j]. *)
Lemma div_pow2_digits (q : positive) (j : Z) :
  0 <= j < Zpos (digits2_pos q) ->
  2 ^ (Zpos (digits2_pos q) - j - 1) <= Zpos q / 2 ^ j
                                      < 2 ^ (Zpos (digits2_pos q) - j).
Proof.
  intros Hj. destruct (digits2_bounds q) as [Hlo Hhi].
  set (d := Zpos (digits2_pos q)) in *.
  pose proof (pow2_pos j ltac:(lia)) as Hp.
  split.
  - apply Z.div_le_lower_bound; [exact Hp|].
    rewrite <- pow2_split by lia.
    replace (j + (d - j - 1)) with (d - 1) by lia. exact Hlo.
  - apply Z.div_lt_upper_bound; [exact Hp|].
    rewrite <- pow2_split by lia.
    replace (j + (d - j)) with d by lia. exact Hhi.
Qed.

Lemma shr_record_of_loc_m (m : Z) (l : location) :
  shr_m (shr_record_of_loc m l) = m.
Proof. destruct l as [|[]]; reflexivity. Qed.

Lemma shr_fexp_spec (m : positive) (e : Z) (l : location) :
  let k := fexp Double.prec Double.emax (Zpos (digits2_pos m) + e) - e in
  (k <= 0 -> shr_fexp Double.prec Double.emax (Zpos m) e l = (shr_record_of_loc (Zpos m) l, e))
  /\ (0 < k -> exists mrs,
        shr_fexp Double.prec Double.emax (Zpos m) e l = (mrs, e + k)
        /\ shr_m mrs = Zpos m / 2 ^ k).
Proof.
  intros k. unfold shr_fexp, shr. cbn [Zdigits2]. fold k.
  destruct k as [|p|p] eqn:Ek; split; intros Hk; try lia; try reflexivity.
  exists (iter_pos shr_1 p (shr_record_of_loc (Zpos m) l)).
  split; [reflexivity|].
  destruct (shr_iter_m p (shr_record_of_loc (Zpos m) l)) as [Hm _].
  - rewrite shr_record_of_loc_m. lia.
  - rewrite Hm, shr_record_of_loc_m. reflexivity.
Qed.

Lemma round_nearest_even_bounds (m : Z) (l : location) :
  m <= round_nearest_even m l <= m + 1.
Proof.
  destruct l as [|[]]; cbn [round_nearest_even]; try lia.
  destruct (Z.even m); lia.
Qed.


Lemma binary_round_aux_finish (s : bool) (m e : Z) (l : location) :
  binary_round_aux Double.prec Double.emax s m e l =
  let '(mrs, e') := shr_fexp Double.prec Double.emax m e l in
  finish s (round_nearest_even (shr_m mrs) (loc_of_shr_record mrs)) e'.
Proof. reflexivity. Qed.

Lemma finish_zero (s : bool) (e : Z) :
  -1074 <= e -> finish s 0 e = S754_zero s.
Proof.
  intros He. unfold finish, shr_fexp, shr. cbn [Zdigits2].
  rewrite fexp_eq.
  destruct (Z.max (0 + e - 53) (-1074) - e) eqn:Ek; try reflexivity. lia.
Qed.

Lemma finish_pos (s : bool) (q : positive) (e : Z) :
  -1074 <= e ->
  let j := Z.max 0 (Zpos (digits2_pos q) - 53) in
  exists m : positive,
    Zpos m = Zpos q / 2 ^ j
    /\ Zpos (digits2_pos m) = Zpos (digits2_pos q) - j
    /\ finish s (Zpos q) e =
       if e + j <=? 971 then S754_finite s m (e + j) else S754_infinity s.
Proof.
  intros He j.
  destruct (shr_fexp_spec q e loc_Exact) as [Hstay Hshift].
  rewrite fexp_eq in Hstay, Hshift.
  set (d := Zpos (digits2_pos q)) in *.
  assert (Hd : 0 < d) by (subst d; lia).
  destruct (Z_le_gt_dec d 53) as [Hle|Hgt].
  - (* no carry *)
    assert (Ej : j = 0) by (subst j; lia).
    exists q. rewrite Ej, Z.pow_0_r, Z.div_1_r, Z.add_0_r, Z.sub_0_r.
    split; [reflexivity|]. split; [reflexivity|].
    unfold finish. rewrite Hstay by lia. reflexivity.
  - assert (Ej : j = d - 53) by (subst j; lia).
    destruct Hshift as [mrs [Hs Hm]]; [lia|].
    replace (Z.max (d + e - 53) (-1074) - e) with j in Hs, Hm by lia.
    destruct (div_pow2_digits q j) as [Hlo Hhi]; [fold d; lia|].
    fold d in Hlo, Hhi.
    pose proof (pow2_pos (d - j - 1) ltac:(lia)) as Hp.
    destruct (Zpos q / 2 ^ j) as [|m|m] eqn:Eq; try lia.
    exists m. split; [reflexivity|]. split.
    + apply digits2_unique; [|lia].
      replace (d - j - 1) with (d - j - 1) in Hlo by lia. exact (conj Hlo Hhi).
    + unfold finish. rewrite Hs, Hm. reflexivity.
Qed.


(** What [binary_round_aux] returns for an exact product [M * 2^E]: never
    NaN, the sign it was given, a mantissa of at most 53 digits, and either
    the product as it is or, in canonical form, a value less than one unit
    in the last place below it. *)
Lemma round_aux_spec (s : bool) (M : positive) (E : Z) :
  match binary_round_aux Double.prec Double.emax s (Zpos M) E loc_Exact with
  | S754_nan => False
  | S754_infinity s' => s' = s
  | S754_zero s' => s' = s /\ E < -1074 /\ Zpos M < 2 ^ (-1074 - E)
  | S754_finite s' m e =>
      s' = s /\ Zpos (digits2_pos m) <= 53 /\ E <= e /\ -1074 <= e <= 971
      /\ ((e = E /\ m = M)
          \/ ((Zpos (digits2_pos m) = 53 \/ e = -1074)
              /\ Zpos M < (Zpos m + 1) * 2 ^ (e - E)))
  end.
Proof.
  rewrite binary_round_aux_finish.
  destruct (shr_fexp_spec M E loc_Exact) as [Hstay Hshift].
  rewrite fexp_eq in Hstay, Hshift.
  destruct (digits2_bounds M) as [Mlo Mhi].
  set (d := Zpos (digits2_pos M)) in *.
  assert (Hd : 0 < d) by (subst d; lia).
  set (k := Z.max (d + E - 53) (-1074) - E) in *.
  destruct (Z_le_gt_dec k 0) as [Hk|Hk].
  - (* the product fits: nothing is shifted out *)
    rewrite Hstay by exact Hk.
    cbn [shr_record_of_loc shr_m loc_of_shr_record round_nearest_even].
    destruct (finish_pos s M E) as [m [Hm [Hdm Hf]]]; [lia|].
    fold d in Hm, Hdm, Hf.
    replace (Z.max 0 (d - 53)) with 0 in Hm, Hdm, Hf by lia.
    rewrite Z.pow_0_r, Z.div_1_r in Hm. rewrite Z.add_0_r in Hf.
    rewrite Hf. destruct (E <=? 971) eqn:HE; [|reflexivity].
    apply Z.leb_le in HE.
    repeat split; lia.
  - destruct Hshift as [mrs [Hs Hm1]]; [lia|].
    rewrite Hs.
    pose proof (round_nearest_even_bounds (shr_m mrs) (loc_of_shr_record mrs))
      as Hr.
    rewrite Hm1 in Hr |- *.
    destruct (div_pow2_bounds (Zpos M) k ltac:(lia)) as [Dlo Dhi].
    pose proof (pow2_pos k ltac:(lia)) as Hp.
    assert (H1 : 0 <= Zpos M / 2 ^ k) by (apply Z.div_pos; lia).
    set (m1 := Zpos M / 2 ^ k) in *.
    destruct (round_nearest_even m1 (loc_of_shr_record mrs))
      as [|q|q] eqn:Eq; [| |lia].
    + (* rounded to zero *)
      rewrite finish_zero by lia.
      assert (m1 = 0) by lia.
      assert (HM : Zpos M < 2 ^ k) by nia.
      assert (Hkd : d - 1 < k).
      { destruct (Z_lt_le_dec (d - 1) k) as [|Hge]; [assumption|].
        pose proof (pow2_le k (d - 1) ltac:(lia)). lia. }
      assert (Ek : k = -1074 - E) by lia.
      rewrite <- Ek. repeat split; try lia.
    + destruct (finish_pos s q (E + k)) as [m [Hm [Hdm Hf]]]; [lia|].
      destruct (digits2_bounds q) as [Qlo Qhi].
      set (dq := Zpos (digits2_pos q)) in *.
      set (j := Z.max 0 (dq - 53)) in *.
      assert (Hj : 0 <= j) by (subst j; lia).
      rewrite Hf. destruct (E + k + j <=? 971) eqn:HE; [|reflexivity].
      apply Z.leb_le in HE.
      destruct (div_pow2_bounds (Zpos q) j Hj) as [Jlo Jhi].
      rewrite <- Hm in Jlo, Jhi.
      pose proof (pow2_pos j Hj) as Hpj.
      repeat split; try lia.
      right. split.
      * destruct (Z_le_gt_dec dq 53) as [Hle|Hgt]; [|left; lia].
        destruct (Z.eq_dec k (-1074 - E)) as [Ek|Nk]; [right; lia|].
        left.
        assert (Ek : k = d - 53) by lia.
        destruct (div_pow2_digits M k) as [Llo _]; [fold d; lia|].
        fold d m1 in Llo.
        replace (d - k - 1) with 52 in Llo by lia.
        destruct (Z_lt_le_dec dq 53) as [Hlt|Hge]; [|lia].
        pose proof (pow2_le dq 52 ltac:(subst dq; lia)). lia.
      * replace (E + k + j - E) with (k + j) by lia.
        rewrite pow2_split by lia. nia.
Qed.


(** A mantissa that fits and needs no shift is kept as it is. *)
Lemma round_aux_exact (s : bool) (M : positive) (E : Z) :
  Zpos (digits2_pos M) <= 53 -> -1074 <= E <= 971 ->
  binary_round_aux Double.prec Double.emax s (Zpos M) E loc_Exact
  = S754_finite s M E.
Proof.
  intros Hd HE.
  rewrite binary_round_aux_finish.
  destruct (shr_fexp_spec M E loc_Exact) as [Hstay _].
  rewrite fexp_eq in Hstay. rewrite Hstay by lia.
  cbn [shr_record_of_loc shr_m loc_of_shr_record round_nearest_even].
  destruct (finish_pos s M E) as [m [Hm [_ Hf]]]; [lia|].
  replace (Z.max 0 (Zpos (digits2_pos M) - 53)) with 0 in Hm, Hf by lia.
  rewrite Z.pow_0_r, Z.div_1_r in Hm. rewrite Z.add_0_r in Hf.
  rewrite Hf. replace (E <=? 971) with true by (symmetry; apply Z.leb_le; lia).
  congruence.
Qed.

Lemma iter_xO (q d : positive) :
  Zpos (Pos.iter xO q d) = Zpos q * 2 ^ Zpos d.
Proof.
  induction d as [|d IH] using Pos.peano_ind.
  - cbn [Pos.iter]. lia.
  - rewrite Pos.iter_succ, Pos2Z.inj_succ, Z.pow_succ_r by lia.
    rewrite Pos2Z.inj_xO, IH. ring.
Qed.

(** Integers of at most 53 digits convert to [double] exactly: the
    mantissa is the integer, shifted up to 53 digits. *)
Lemma of_Z_exact (q : positive) :
  Zpos (digits2_pos q) <= 53 ->
  exists (N : positive) (en : Z),
    Double.of_Z (Zpos q) = S754_finite false N en
    /\ -52 <= en <= 0
    /\ Zpos N = Zpos q * 2 ^ (- en)
    /\ Zpos (digits2_pos N) = 53.
Proof.
  intros Hq.
  destruct (digits2_bounds q) as [Qlo Qhi].
  unfold Double.of_Z, binary_normalize, binary_round.
  rewrite fexp_eq. unfold shl_align.
  set (d := Zpos (digits2_pos q)) in *.
  assert (Hd : 0 < d) by (subst d; lia).
  replace (Z.max (d + 0 - 53) (-1074) - 0) with (d - 53) by lia.
  replace (Z.max (d + 0 - 53) (-1074)) with (d - 53) by lia.
  destruct (d - 53) as [|p|p] eqn:Ed; [|lia|].
  - exists q, 0. rewrite round_aux_exact by (fold d; lia).
    repeat split; lia.
  - assert (HN : 2 ^ (53 - 1) <= Zpos (Pos.iter xO q p) < 2 ^ 53).
    { rewrite iter_xO.
      replace 53 with (d + Zpos p) at 2 by lia.
      replace (53 - 1) with (d - 1 + Zpos p) by lia.
      rewrite !pow2_split by lia.
      pose proof (pow2_pos (Zpos p) ltac:(lia)). nia. }
    pose proof (digits2_unique _ 53 HN ltac:(lia)) as HdN.
    exists (Pos.iter xO q p), (Zneg p).
    rewrite round_aux_exact by lia.
    repeat split; try lia.
    rewrite iter_xO. reflexivity.
Qed.


Lemma cdiv_pow2_spec (v j : Z) :
  0 <= j -> v <= Double.cdiv_pow2 v j * 2 ^ j < v + 2 ^ j.
Proof.
  intros Hj. unfold Double.cdiv_pow2.
  destruct (div_pow2_bounds (- v) j Hj) as [Hlo Hhi].
  set (t := - v / 2 ^ j) in *. lia.
Qed.

(** [cdiv_pow2 v j] is the least integer not below [v / 2^j]. *)
Lemma cdiv_pow2_le (v j c : Z) :
  0 <= j -> (Double.cdiv_pow2 v j <= c <-> v <= c * 2 ^ j).
Proof.
  intros Hj. destruct (cdiv_pow2_spec v j Hj) as [Hlo Hhi].
  pose proof (pow2_pos j Hj) as Hp.
  set (q := Double.cdiv_pow2 v j) in *.
  split; intros H; nia.
Qed.

(** [std::ceil] followed by the cast to [size_t] gives the integer ceiling
    of a positive double, when that is a [size_t]; the cast is undefined
    otherwise. *)
Lemma ceil_cast (m : positive) (e : Z) (k : Z) :
  Zpos (digits2_pos m) <= 53 ->
  Double.ceil_Z (S754_finite false m e) = Some k ->
  0 < k
  /\ Double.to_size_t (Double.ceil (S754_finite false m e))
     = if k <=? C.SIZE_MAX then Some k else None.
Proof.
  intros Hd Hk. cbn [Double.ceil_Z cond_Zopp] in Hk.
  cbn [Double.ceil cond_Zopp].
  destruct (digits2_bounds m) as [Mlo Mhi].
  destruct (0 <=? e) eqn:He.
  - apply Z.leb_le in He. injection Hk as <-.
    pose proof (pow2_pos e He) as Hp.
    cbn [Double.to_size_t cond_Zopp]. rewrite (proj2 (Z.leb_le 0 e) He).
    assert (H0 : 0 < Zpos m * 2 ^ e) by nia.
    split; [exact H0|].
    replace (0 <=? Zpos m * 2 ^ e) with true by (symmetry; apply Z.leb_le; lia).
    reflexivity.
  - apply Z.leb_gt in He. injection Hk as <-.
    destruct (cdiv_pow2_spec (Zpos m) (- e) ltac:(lia)) as [Clo Chi].
    pose proof (pow2_pos (- e) ltac:(lia)) as Hp.
    pose proof (pow2_le 1 (- e) ltac:(lia)) as H2. change (2 ^ 1) with 2 in H2.
    pose proof (pow2_le (Zpos (digits2_pos m)) 53 ltac:(lia)) as H53.
    set (q := Double.cdiv_pow2 (Zpos m) (- e)) in *.
    assert (Hq : 0 < q) by nia.
    assert (Hq52 : q <= 2 ^ 52).
    { change (2 ^ 53) with (2 * 2 ^ 52) in H53. nia. }
    split; [exact Hq|].
    replace (q =? 0) with false by (symmetry; apply Z.eqb_neq; lia).
    destruct q as [|qp|qp] eqn:Eq; try lia.
    assert (Hdq : Zpos (digits2_pos qp) <= 53).
    { destruct (digits2_bounds qp) as [Qlo _].
      destruct (Z_le_gt_dec (Zpos (digits2_pos qp)) 53) as [|Hgt]; [assumption|].
      pose proof (pow2_le 53 (Zpos (digits2_pos qp) - 1) ltac:(lia)).
      change (2 ^ 53) with (2 * 2 ^ 52) in *. lia. }
    destruct (of_Z_exact qp Hdq) as [N [en [HN [Hen [HNq _]]]]].
    rewrite HN. cbn [Double.to_size_t cond_Zopp].
    pose proof (pow2_pos (- en) ltac:(lia)) as Hpn.
    assert (Ht : (if 0 <=? en then Zpos N * 2 ^ en
                  else Z.quot (Zpos N) (2 ^ (- en))) = Zpos qp).
    { destruct (0 <=? en) eqn:H0.
      - apply Z.leb_le in H0. assert (en = 0) by lia. subst en.
        rewrite HNq. cbn. lia.
      - rewrite HNq. apply Z.quot_mul. lia. }
    rewrite Ht. reflexivity.
Qed.


Lemma of_Z_nonneg (n : Z) : 0 <= n -> nonneg_double (Double.of_Z n).
Proof.
  intros Hn. destruct n as [|q|q]; [reflexivity| |lia].
  unfold Double.of_Z, binary_normalize, binary_round.
  destruct (shl_align q 0 _) as [mz ez].
  pose proof (round_aux_spec false mz ez) as H.
  destruct (binary_round_aux _ _ _ _ _ _) as [s|s| |s m e];
    cbn [nonneg_double]; tauto.
Qed.

Lemma mul_nonneg (x : double) (m : positive) (e : Z) :
  nonneg_double x -> nonneg_double (Double.mul x (S754_finite false m e)).
Proof.
  intros Hx. destruct x as [s|s| |s mx ex]; cbn [nonneg_double] in Hx.
  - subst s. reflexivity.
  - subst s. reflexivity.
  - contradiction.
  - destruct Hx as [-> _]. unfold Double.mul, SFmul. cbn [xorb].
    pose proof (round_aux_spec false (mx * m) (ex + e)) as H.
    destruct (binary_round_aux _ _ _ _ _ _) as [s|s| |s m' e'];
      cbn [nonneg_double]; tauto.
Qed.

(** The planner's arithmetic: the cast of [std::ceil] of the product is the
    integer ceiling of the product, when that is a [size_t]. *)
Lemma ceil_of_product (n : Z) (m : positive) (e : Z) (k : Z) :
  0 <= n ->
  Double.ceil_Z (Double.mul (Double.of_Z n) (S754_finite false m e)) = Some k ->
  0 <= k
  /\ Double.to_size_t
       (Double.ceil (Double.mul (Double.of_Z n) (S754_finite false m e)))
     = if k <=? C.SIZE_MAX then Some k else None.
Proof.
  intros Hn Hk.
  pose proof (mul_nonneg _ m e (of_Z_nonneg n Hn)) as Hp.
  destruct (Double.mul _ _) as [s|s| |s m' e'] eqn:Ep;
    cbn [nonneg_double] in Hp; try discriminate Hk.
  - injection Hk as <-. split; [lia|reflexivity].
  - destruct Hp as [-> Hd].
    destruct (ceil_cast m' e' k Hd Hk) as [H0 Hc]. split; [lia|exact Hc].
Qed.


(** The integer ceiling of a positive double, scaled to integers. *)
Lemma ceil_Z_scaled (m : positive) (e L k : Z) :
  0 <= L -> 0 <= e + L ->
  Double.ceil_Z (S754_finite false m e) = Some k ->
  Zpos m * 2 ^ (e + L) <= k * 2 ^ L.
Proof.
  intros HL HeL Hk. cbn [Double.ceil_Z cond_Zopp] in Hk.
  pose proof (pow2_pos L HL) as HpL.
  destruct (0 <=? e) eqn:He; injection Hk as <-.
  - apply Z.leb_le in He. rewrite pow2_split by lia.
    rewrite Z.mul_assoc. apply Z.le_refl.
  - apply Z.leb_gt in He.
    destruct (cdiv_pow2_spec (Zpos m) (- e) ltac:(lia)) as [Clo _].
    replace L with (e + L + - e) at 2 by lia.
    rewrite (pow2_split (e + L) (- e)) by lia.
    pose proof (pow2_pos (e + L) HeL). nia.
Qed.

(** An integer bound on the exact product bounds its ceiling. *)
Lemma exact_ceiling_le (n : Z) (m : positive) (e L K c : Z) :
  0 <= L -> 0 <= e + L ->
  exact_ceiling n (S754_finite false m e) = Some c ->
  n * Zpos m * 2 ^ (e + L) <= K * 2 ^ L -> c <= K.
Proof.
  intros HL HeL Hc HK. cbn [exact_ceiling cond_Zopp] in Hc.
  pose proof (pow2_pos L HL) as HpL.
  destruct (0 <=? e) eqn:He; injection Hc as <-.
  - apply Z.leb_le in He. rewrite pow2_split in HK by lia. nia.
  - apply Z.leb_gt in He.
    apply cdiv_pow2_le; [lia|].
    replace L with (e + L + - e) in HK at 2 by lia.
    rewrite (pow2_split (e + L) (- e)) in HK by lia.
    pose proof (pow2_pos (e + L) HeL). nia.
Qed.

(** A canonical double whose ceiling is a [size_t] has an exponent of at
    most 11: its unit in the last place is at most 2048. *)
Lemma small_exponent (m : positive) (e k : Z) :
  Double.ceil_Z (S754_finite false m e) = Some k -> k <= C.SIZE_MAX ->
  Zpos (digits2_pos m) = 53 \/ e = -1074 -> e <= 11.
Proof.
  intros Hk Hmax Hc.
  destruct (Z_le_gt_dec e 11) as [|He]; [assumption|exfalso].
  destruct Hc as [Hd|]; [|lia].
  destruct (digits2_bounds m) as [Mlo _]. rewrite Hd in Mlo.
  cbn [Double.ceil_Z cond_Zopp] in Hk.
  rewrite (proj2 (Z.leb_le 0 e)) in Hk by lia.
  assert (Ek : Zpos m * 2 ^ e = k) by congruence. clear Hk.
  pose proof (pow2_le 12 e ltac:(lia)) as H12.
  change (2 ^ (53 - 1)) with 4503599627370496 in Mlo.
  change (2 ^ 12) with 4096 in H12.
  change C.SIZE_MAX with 18446744073709551615 in Hmax.
  set (p := 2 ^ e) in *. nia.
Qed.

(** The exact product of two positive doubles is less than 2048 above the
    ceiling of their double product, when that is a [size_t]. *)
Lemma rounded_product_bound (N m : positive) (en e k L : Z) :
  Double.ceil_Z
    (Double.mul (S754_finite false N en) (S754_finite false m e)) = Some k ->
  k <= C.SIZE_MAX ->
  0 <= L -> 0 <= en + e + L ->
  Zpos N * Zpos m * 2 ^ (en + e + L) < (k + 2048) * 2 ^ L.
Proof.
  intros Hk Hmax HL HEL.
  unfold Double.mul, SFmul in Hk. cbn [xorb] in Hk.
  pose proof (round_aux_spec false (N * m) (en + e)) as H.
  pose proof (pow2_pos L HL) as HpL.
  pose proof (pow2_pos (en + e + L) HEL) as HpE.
  rewrite <- Pos2Z.inj_mul.
  destruct (binary_round_aux _ _ _ _ _ _) as [s|s| |s m3 e3] eqn:Ep;
    try discriminate Hk.
  - (* the product underflowed to zero *)
    destruct H as [_ [HE HM]]. injection Hk as <-.
    assert (Hlt : Zpos (N * m) * 2 ^ (en + e + L) < 2 ^ L).
    { replace (2 ^ L)
        with (2 ^ (-1074 - (en + e)) * 2 ^ (en + e + L) * 2 ^ 1074)
        by (rewrite <- !pow2_split by lia; f_equal; lia).
      pose proof (pow2_pos (-1074 - (en + e)) ltac:(lia)).
      change (2 ^ 1074) with (Z.succ (Z.pred (2 ^ 1074))).
      assert (0 <= Z.pred (2 ^ 1074)) by (apply Z.lt_le_pred, pow2_pos; lia).
      nia. }
    lia.
  - destruct H as [-> [Hd [HE [He3 Hv]]]].
    pose proof (ceil_Z_scaled m3 e3 L k HL ltac:(lia) Hk) as Hceil.
    destruct Hv as [[-> ->]|[Hcan Hlt]]; [lia|].
    pose proof (small_exponent m3 e3 k Hk Hmax Hcan) as H11.
    pose proof (pow2_le (e3 + L) (11 + L) ltac:(lia)) as Hulp.
    rewrite (pow2_split 11 L) in Hulp by lia. change (2 ^ 11) with 2048 in Hulp.
    assert (Hs : Zpos (N * m) * 2 ^ (en + e + L)
                 < (Zpos m3 + 1) * 2 ^ (e3 + L)).
    { replace (e3 + L) with (e3 - (en + e) + (en + e + L)) by lia.
      rewrite (pow2_split (e3 - (en + e))) by lia.
      pose proof (pow2_pos (e3 - (en + e)) ltac:(lia)). nia. }
    lia.
Qed.


(** Integers of more than 53 digits are rounded to 53: the double is
    less than one unit in the last place below the integer. *)
Lemma of_Z_large (q : positive) :
  53 < Zpos (digits2_pos q) ->
  match Double.of_Z (Zpos q) with
  | S754_finite s N en =>
      s = false /\ 0 <= en /\ Zpos (digits2_pos N) = 53
      /\ Zpos q < (Zpos N + 1) * 2 ^ en
  | S754_infinity _ => True
  | S754_zero _ | S754_nan => False
  end.
Proof.
  intros Hq.
  unfold Double.of_Z, binary_normalize, binary_round.
  rewrite fexp_eq. unfold shl_align.
  destruct (Z.max (Zpos (digits2_pos q) + 0 - 53) (-1074) - 0) eqn:Ed; try lia.
  pose proof (round_aux_spec false q 0) as H.
  destruct (binary_round_aux _ _ _ _ _ _) as [s|s| |s N en];
    [lia|exact I|exact H|].
  destruct H as [-> [Hd [HE [Hen [[-> ->]|[Hcan Hlt]]]]]]; [lia|].
  rewrite Z.sub_0_r in Hlt. repeat split; try lia.
Qed.

(** The ceiling of the exact product is at most 6145 above the ceiling of
    the double product, when the latter is a [size_t]. *)
Lemma exact_product_bound (n : Z) (m : positive) (e k c : Z) :
  0 <= n ->
  Double.ceil_Z (Double.mul (Double.of_Z n) (S754_finite false m e)) = Some k ->
  k <= C.SIZE_MAX ->
  exact_ceiling n (S754_finite false m e) = Some c ->
  c <= k + 6145.
Proof.
  intros Hn Hk Hmax Hc.
  destruct (ceil_of_product n m e k Hn Hk) as [Hk0 _].
  destruct n as [|q|q]; [| |lia].
  - apply (exact_ceiling_le 0 m e (Z.max 0 (- e)) _ c);
      [lia|lia|exact Hc|].
    pose proof (pow2_pos (Z.max 0 (- e)) ltac:(lia)). nia.
  - destruct (Z_le_gt_dec (Zpos (digits2_pos q)) 53) as [Hd|Hd].
    + (* the frame count converts exactly *)
      destruct (of_Z_exact q Hd) as [N [en [HN [Hen [HNq _]]]]].
      rewrite HN in Hk.
      set (L := Z.max 0 (- (en + e))).
      pose proof (rounded_product_bound N m en e k L Hk Hmax
                    ltac:(subst L; lia) ltac:(subst L; lia)) as Hr.
      apply (exact_ceiling_le (Zpos q) m e L _ c);
        [subst L; lia|subst L; lia|exact Hc|].
      replace (e + L) with (- en + (en + e + L)) by lia.
      rewrite (pow2_split (- en)) by (subst L; lia).
      rewrite HNq in Hr.
      pose proof (pow2_pos L ltac:(subst L; lia)).
      set (P := 2 ^ (en + e + L)) in *. set (Q := 2 ^ (- en)) in *. nia.
    + (* the frame count is rounded first *)
      pose proof (of_Z_large q ltac:(lia)) as HN.
      destruct (Double.of_Z (Zpos q)) as [s|s| |s N en];
        try contradiction; [discriminate Hk|].
      destruct HN as [-> [Hen [HdN Hlt]]].
      destruct (digits2_bounds N) as [Nlo _]. rewrite HdN in Nlo.
      change (2 ^ (53 - 1)) with 4503599627370496 in Nlo.
      set (L := Z.max 0 (- e)).
      pose proof (rounded_product_bound N m en e k L Hk Hmax
                    ltac:(subst L; lia) ltac:(subst L; lia)) as Hr.
      apply (exact_ceiling_le (Zpos q) m e L _ c);
        [subst L; lia|subst L; lia|exact Hc|].
      replace (en + e + L) with (en + (e + L)) in Hr by lia.
      rewrite (pow2_split en) in Hr by (subst L; lia).
      pose proof (pow2_pos L ltac:(subst L; lia)) as HpL.
      pose proof (pow2_pos en Hen) as Hpen.
      pose proof (pow2_pos (e + L) ltac:(subst L; lia)) as HpeL.
      change C.SIZE_MAX with 18446744073709551615 in Hmax.
      set (P := 2 ^ L) in *. set (Q := 2 ^ en) in *.
      set (R := 2 ^ (e + L)) in *.
      set (T := Zpos m * (Q * R)).
      assert (HT : Zpos N * T < (k + 2048) * P) by (subst T; nia).
      assert (HT0 : 0 < T) by (subst T; nia).
      assert (HT2 : 4503599627370496 * T <= Zpos N * T) by nia.
      assert (HT3 : (k + 2048) * P <= 18446744073709553663 * P) by nia.
      assert (HT4 : T < 4097 * P) by lia.
      assert (Zpos q * Zpos m * R < (Zpos N + 1) * T).
      { subst T. 
        assert (0 < Zpos m * R) by nia.
        replace ((Zpos N + 1) * (Zpos m * (Q * R)))
          with ((Zpos N + 1) * Q * (Zpos m * R)) by ring.
        replace (Zpos q * Zpos m * R) with (Zpos q * (Zpos m * R)) by ring.
        apply Z.mul_lt_mono_pos_r; assumption. }
      nia.
Qed.

End Rounding.

(** *** The planned capacity *)

Section Planner.

(** Both entry points plan by the same expression. *)
Lemma process_new_size_eq (n : Z) (r : double) :
  Resampler.process_new_size n r = resample_new_size n r.
Proof. reflexivity. Qed.

(** C4, amended. For a frame count [num_frames >= 0] and a finite ratio
    above zero, let [k] be the ceiling of [num_frames * sr_ratio], the
    product taken in double precision as the code takes it. [resample] and
    [process] plan the same capacity: [k + 10000] in [size_t] arithmetic
    when [k] is a [size_t] (the cast is undefined otherwise), which is
    10000 when there are no frames. When [k + 10000] is a [size_t] too,
    the capacity is [k + 10000], at least [k], and at least the ceiling of
    the exact product. *)
Theorem planned_capacity (num_frames : Z) (sr_ratio : double) (k : Z) :
  0 <= num_frames ->
  Double.positive_finite sr_ratio ->
  Double.ceil_Z (Double.mul (Double.of_Z num_frames) sr_ratio) = Some k ->
  resample_new_size num_frames sr_ratio
  = (if k <=? C.SIZE_MAX
     then Some (C.to_size_t (k + END_OF_INPUT_EXTRA_OUTPUT_FRAMES))
     else None)
  /\ Resampler.process_new_size num_frames sr_ratio
     = resample_new_size num_frames sr_ratio
  /\ (num_frames = 0 ->
      resample_new_size num_frames sr_ratio
      = Some END_OF_INPUT_EXTRA_OUTPUT_FRAMES)
  /\ (k + END_OF_INPUT_EXTRA_OUTPUT_FRAMES <= C.SIZE_MAX ->
      exists capacity,
        resample_new_size num_frames sr_ratio = Some capacity
        /\ capacity = k + END_OF_INPUT_EXTRA_OUTPUT_FRAMES
        /\ k <= capacity
        /\ forall c, exact_ceiling num_frames sr_ratio = Some c ->
                     c <= capacity).
Proof.
  intros Hn [m [e [-> _]]] Hk.
  destruct (ceil_of_product num_frames m e k Hn Hk) as [Hk0 Hcast].
  assert (Hplan :
    resample_new_size num_frames (S754_finite false m e)
    = (if k <=? C.SIZE_MAX
       then Some (C.to_size_t (k + END_OF_INPUT_EXTRA_OUTPUT_FRAMES))
       else None)).
  { unfold resample_new_size. rewrite Hcast.
    destruct (k <=? C.SIZE_MAX); reflexivity. }
  split; [exact Hplan|]. split; [reflexivity|]. split.
  - intros ->. unfold resample_new_size. reflexivity.
  - intros Hfit. unfold END_OF_INPUT_EXTRA_OUTPUT_FRAMES in *.
    exists (k + 10000). rewrite Hplan.
    replace (k <=? C.SIZE_MAX) with true by (symmetry; apply Z.leb_le; lia).
    rewrite to_size_t_small by lia.
    repeat split; try lia.
    intros c Hc.
    pose proof (exact_product_bound num_frames m e k c Hn Hk ltac:(lia) Hc).
    lia.
Qed.

(** Ten frames at ratio one half: five frames and the margin. *)
Lemma planned_capacity_witness :
  resample_new_size 10 Sim.half
  = (if 5 <=? C.SIZE_MAX
     then Some (C.to_size_t (5 + END_OF_INPUT_EXTRA_OUTPUT_FRAMES))
     else None)
  /\ Resampler.process_new_size 10 Sim.half = resample_new_size 10 Sim.half
  /\ (10 = 0 ->
      resample_new_size 10 Sim.half = Some END_OF_INPUT_EXTRA_OUTPUT_FRAMES)
  /\ (5 + END_OF_INPUT_EXTRA_OUTPUT_FRAMES <= C.SIZE_MAX ->
      exists capacity,
        resample_new_size 10 Sim.half = Some capacity
        /\ capacity = 5 + END_OF_INPUT_EXTRA_OUTPUT_FRAMES
        /\ 5 <= capacity
        /\ forall c, exact_ceiling 10 Sim.half = Some c -> c <= capacity).
Proof.
  apply (planned_capacity 10 Sim.half 5).
  - lia.
  - exists 4503599627370496%positive, (-53). split; reflexivity.
  - vm_compute. reflexivity.
Defined.

(** One frame at a ratio just below [2^64]: the ceiling is a [size_t], the
    sum with the margin is not, and the planned capacity wraps around to
    7952 frames, far below the ceiling. *)
Lemma planned_capacity_wraps_around :
  Double.positive_finite Sim.below_2_64
  /\ Double.ceil_Z (Double.mul (Double.of_Z 1) Sim.below_2_64)
     = Some 18446744073709549568
  /\ exact_ceiling 1 Sim.below_2_64 = Some 18446744073709549568
  /\ resample_new_size 1 Sim.below_2_64 = Some 7952
  /\ Resampler.process_new_size 1 Sim.below_2_64 = Some 7952
  /\ 7952 < 18446744073709549568.
Proof.
  split.
  - exists 9007199254740991%positive, 11. split; reflexivity.
  - repeat split; vm_compute; reflexivity.
Qed.

(** Ten frames at the double nearest to one tenth: the exact product is a
    little above one, the double product is one, and the planner follows
    the double product. *)
Lemma product_is_rounded :
  Double.mul (Double.of_Z 10) Sim.tenth = Sim.one
  /\ Double.ceil_Z (Double.mul (Double.of_Z 10) Sim.tenth) = Some 1
  /\ exact_ceiling 10 Sim.tenth = Some 2
  /\ resample_new_size 10 Sim.tenth = Some 10001.
Proof. repeat split; vm_compute; reflexivity. Qed.

(** A product that overflows to infinity has no ceiling to cast. *)
Lemma planned_capacity_overflow (num_frames : Z) (sr_ratio : double) :
  0 <= num_frames ->
  Double.positive_finite sr_ratio ->
  Double.ceil_Z (Double.mul (Double.of_Z num_frames) sr_ratio) = None ->
  Double.mul (Double.of_Z num_frames) sr_ratio = S754_infinity false
  /\ resample_new_size num_frames sr_ratio = None.
Proof.
  intros Hn [m [e [-> _]]] Hk.
  pose proof (mul_nonneg _ m e (of_Z_nonneg num_frames Hn)) as Hp.
  unfold resample_new_size.
  destruct (Double.mul _ _) as [s|s| |s m' e'];
    cbn [nonneg_double] in Hp; try discriminate Hk; try contradiction.
  subst s. split; reflexivity.
Qed.

End Planner.
(* ===================================================================== *)
(** * Further properties *)
(* ===================================================================== *)

(** ** The converter selector *)

Section Converters.

Context {E : Engine} {py : Type}.

Lemma ConverterType_name_inj (c c' : ConverterType) :
  ConverterType_name c = ConverterType_name c' -> c = c'.
Proof. destruct c, c'; cbn; intros H; try reflexivity; discriminate H. Qed.

Lemma get_converter_type_name (O : Type) (c : ConverterType)
    (s : O * world py) :
  get_converter_type (PyStr (ConverterType_name c)) s
  = (Returns (ConverterType_value c), s).
Proof. destruct c; reflexivity. Qed.

(** X1. A member of [ConverterType], its name and its value select the
    same converter: [get_converter_type] answers the member's value for
    each of the three, a value from 0 to 4, and different members have
    different values; the engine and the world are left alone. *)
Theorem converter_type_round_trip (O : Type) (c : ConverterType)
    (s : O * world py) :
  get_converter_type (PyConverterType c) s
  = (Returns (ConverterType_value c), s)
  /\ get_converter_type (PyStr (ConverterType_name c)) s
     = (Returns (ConverterType_value c), s)
  /\ get_converter_type (PyInt (ConverterType_value c)) s
     = (Returns (ConverterType_value c), s)
  /\ 0 <= ConverterType_value c <= 4
  /\ forall c', ConverterType_value c' = ConverterType_value c -> c' = c.
Proof.
  split; [reflexivity|]. split; [apply get_converter_type_name|].
  split; [destruct c; reflexivity|].
  split; [destruct c; cbn; lia|].
  intros c'. destruct c, c'; cbn; intros H; try reflexivity; discriminate H.
Qed.

(** X2. What [get_converter_type] accepts. It returns a number exactly
    for one of the five names (spelled exactly), for a member, and for an
    integer that fits an [int], which it returns as it is, whether or not
    it names a converter. For every other string or object it throws
    [InvalidConverter], for an integer beyond [int] the cast error. It
    never touches the engine or the world. *)
Theorem get_converter_type_accepts (O : Type) (obj : py_object)
    (s : O * world py) :
  match get_converter_type obj s with
  | (Returns n, s') =>
      s' = s
      /\ ((exists c,
             (obj = PyStr (ConverterType_name c) \/ obj = PyConverterType c)
             /\ n = ConverterType_value c)
          \/ (obj = PyInt n /\ - 2 ^ 31 <= n <= C.INT_MAX))
  | (Throws e, s') =>
      s' = s
      /\ (forall c, obj <> PyStr (ConverterType_name c))
      /\ (forall c, obj <> PyConverterType c)
      /\ match obj with
         | PyInt n => e = cast_error /\ ~ (- 2 ^ 31 <= n <= C.INT_MAX)
         | _ => e = InvalidConverter Unsupported_converter_type
         end
  | (Undefined, _) => False
  end.
Proof.
  destruct obj as [|str|n|c|a|]; cbn [get_converter_type].
  - (* None *)
    cbn. repeat split; intros; discriminate.
  - (* a string *)
    destruct (String.eqb_spec str "sinc_best") as [->|N0].
    { cbn. split; [reflexivity|]. left. exists sinc_best. split; [left|]; reflexivity. }
    destruct (String.eqb_spec str "sinc_medium") as [->|N1].
    { cbn. split; [reflexivity|]. left. exists sinc_medium. split; [left|]; reflexivity. }
    destruct (String.eqb_spec str "sinc_fastest") as [->|N2].
    { cbn. split; [reflexivity|]. left. exists sinc_fastest. split; [left|]; reflexivity. }
    destruct (String.eqb_spec str "zero_order_hold") as [->|N3].
    { cbn. split; [reflexivity|]. left. exists zero_order_hold. split; [left|]; reflexivity. }
    destruct (String.eqb_spec str "linear") as [->|N4].
    { cbn. split; [reflexivity|]. left. exists linear. split; [left|]; reflexivity. }
    cbn. split; [reflexivity|]. split.
    + intros c [= Hc]. destruct c; cbn in Hc; congruence.
    + split; [intros; discriminate|reflexivity].
  - (* an integer *)
    destruct (Z.leb_spec (- 2 ^ 31) n) as [Hlo|Hlo];
      destruct (Z.leb_spec n C.INT_MAX) as [Hhi|Hhi]; cbn [andb];
      unfold ret, throw; cbv beta iota.
    + split; [reflexivity|]. right. split; [reflexivity|]. split; assumption.
    + repeat split; try (intros; discriminate). lia.
    + repeat split; try (intros; discriminate). lia.
    + repeat split; try (intros; discriminate). lia.
  - (* a member *)
    cbn. split; [reflexivity|]. left. exists c. split; [right|]; reflexivity.
  - cbn. repeat split; intros; discriminate.
  - cbn. repeat split; intros; discriminate.
Qed.

End Converters.

(** ** The bulk entry point and [process], step by step *)

Section BulkAndIncremental.

Context {E : Engine} {py : Type}.

Import Resampler.

(** The end of [resample] and [process] when the engine reports status 0
    and keeps to the capacity. *)
Lemma capacity_check_passes (O : Type) (cap nd ch gen : Z) (s : O * world py) :
  C.to_size_t gen <= cap ->
  (error_handler 0 ;;
   (if cap <? C.to_size_t gen
    then throw (runtime_error more_than_expected) else ret tt) ;;
   ret (output_array nd gen ch)) s = (Returns (output_array nd gen ch), s).
Proof.
  intros Hle. unfold bind at 1. rewrite error_handler_0.
  unfold bind, throw, ret.
  destruct (Z.ltb_spec cap (C.to_size_t gen)); [lia|reflexivity].
Qed.

(** [resample] from the allocation of the output on. *)
Lemma resample_tail (O : Type) (input : nb_array_f32) (sr_ratio : double)
    (ct cap : Z) (o : O) (w : world py) :
  (new_float (C.to_size_t (cap * C.to_size_t (input_channels input))) ;;
   r <- engine_simple
          {| input_frames := C.to_long (shape input 0);
             output_frames := C.to_long cap;
             input_frames_used := 0;
             output_frames_gen := 0;
             end_of_input := 0;
             src_ratio := sr_ratio |} ct (input_channels input) ;;
   error_handler (fst r) ;;
   (if cap <? C.to_size_t (output_frames_gen (snd r))
    then throw (runtime_error more_than_expected) else ret tt) ;;
   ret (output_array (ndim input) (output_frames_gen (snd r))
          (input_channels input))) (o, w)
  = let bytes := output_bytes cap (input_channels input) in
    if C.SIZE_MAX <? bytes then (Throws bad_alloc, (o, w))
    else
      let room := operator_new bytes (w_lib w) in
      let w0 := with_lib (snd room) w in
      if fst room then
        let request := resample_request input sr_ratio cap in
        let answer :=
          src_simple request ct (input_channels input) (w_lib w0) in
        let err := fst (fst answer) in
        let data' := snd (fst answer) in
        (error_handler err ;;
         (if cap <? C.to_size_t (output_frames_gen data')
          then throw (runtime_error more_than_expected) else ret tt) ;;
         ret (output_array (ndim input) (output_frames_gen data')
                (input_channels input)))
          (o, with_lib (snd answer)
                (log (Ev_simple request ct (input_channels input)
                        err data') w0))
      else (Throws bad_alloc, (o, w0)).
Proof.
  unfold bind at 1. rewrite new_float_run. cbv zeta. unfold output_bytes.
  destruct (C.SIZE_MAX <? _); [reflexivity|]. cbn [fst snd].
  destruct (operator_new _ (w_lib w)) as [ok l]. cbn [fst snd].
  destruct ok; [|reflexivity].
  unfold bind at 1, engine_simple, on_world. cbn [fst snd].
  fold (resample_request input sr_ratio cap).
  destruct (src_simple _ ct (input_channels input) _) as [[err0 d0] l0].
  reflexivity.
Qed.

(** [process] from the allocation of the output on. *)
Lemma process_tail (input : nb_array_f32) (sr_ratio : double)
    (end_of_input : bool) (cap : Z) (self : Resampler.Resampler)
    (w : world py) :
  (new_float (C.to_size_t (cap * C.to_size_t (input_channels input))) ;;
   r <- engine_process (Resampler._state self)
          {| input_frames := C.to_long (shape input 0);
             output_frames := C.to_long cap;
             input_frames_used := 0;
             output_frames_gen := 0;
             end_of_input := if end_of_input then 1 else 0;
             src_ratio := sr_ratio |} ;;
   error_handler (fst r) ;;
   (if cap <? C.to_size_t (output_frames_gen (snd r))
    then throw (runtime_error more_than_expected) else ret tt) ;;
   ret (output_array (ndim input) (output_frames_gen (snd r))
          (input_channels input))) (self, w)
  = let bytes := output_bytes cap (input_channels input) in
    if C.SIZE_MAX <? bytes then (Throws bad_alloc, (self, w))
    else
      let room := operator_new bytes (w_lib w) in
      let w0 := with_lib (snd room) w in
      if fst room then
        let request := process_request input sr_ratio end_of_input cap in
        let answer :=
          src_process (Resampler._state self) request (w_lib w0) in
        let err := fst (fst answer) in
        let data' := snd (fst answer) in
        (error_handler err ;;
         (if cap <? C.to_size_t (output_frames_gen data')
          then throw (runtime_error more_than_expected) else ret tt) ;;
         ret (output_array (ndim input) (output_frames_gen data')
                (input_channels input)))
          (self, with_lib (snd answer)
                   (log (Ev_process (Resampler._state self) request err
                           data') w0))
      else (Throws bad_alloc, (self, w0)).
Proof.
  unfold bind at 1. rewrite new_float_run. cbv zeta. unfold output_bytes.
  destruct (C.SIZE_MAX <? _); [reflexivity|]. cbn [fst snd].
  destruct (operator_new _ (w_lib w)) as [ok l]. cbn [fst snd].
  destruct ok; [|reflexivity].
  unfold bind at 1, engine_process, on_world. cbn [fst snd].
  fold (process_request input sr_ratio end_of_input cap).
  destruct (src_process _ _ _) as [[err0 d0] l0].
  reflexivity.
Qed.

(** [resample], step by step. *)
Lemma resample_run (O : Type) (input : nb_array_f32) (sr_ratio : double)
    (converter_type : py_object) (verbose : bool) (o : O) (w : world py) :
  resample input sr_ratio converter_type verbose (o, w) =
  match fst (get_converter_type converter_type (o, w)) with
  | Returns ct =>
      if 2 <? ndim input then
        (Throws (domain_error at_most_2_dimensions), (o, w))
      else if input_channels input =? 0 then
        (Throws (domain_error invalid_channels_0), (o, w))
      else
        match resample_new_size (shape input 0) sr_ratio with
        | None => (Undefined, (o, w))
        | Some cap =>
            let bytes := output_bytes cap (input_channels input) in
            if C.SIZE_MAX <? bytes then (Throws bad_alloc, (o, w))
            else
              let room := operator_new bytes (w_lib w) in
              let w0 := with_lib (snd room) w in
              if fst room then
                let request := resample_request input sr_ratio cap in
                let answer :=
                  src_simple request ct (input_channels input) (w_lib w0) in
                let err := fst (fst answer) in
                let data' := snd (fst answer) in
                (error_handler err ;;
                 (if cap <? C.to_size_t (output_frames_gen data')
                  then throw (runtime_error more_than_expected) else ret tt) ;;
                 ret (output_array (ndim input) (output_frames_gen data')
                        (input_channels input)))
                  (o, with_lib (snd answer)
                        (log (Ev_simple request ct (input_channels input)
                                err data') w0))
              else (Throws bad_alloc, (o, w0))
        end
  | Throws e => (Throws e, (o, w))
  | Undefined => (Undefined, (o, w))
  end.
Proof.
  unfold resample.
  unfold bind at 1.
  destruct (get_converter_type_pure O converter_type (o, w)) as [Hs Hu].
  destruct (get_converter_type converter_type (o, w)) as [[ct| |] s0] eqn:Hct;
    cbn [fst snd] in Hs, Hu |- *; subst s0; try reflexivity.
  unfold bind at 1. rewrite channels_of_input.
  destruct (Z.eqb_spec (ndim input) 2) as [H2|H2]; cbn [negb andb].
  - replace (2 <? ndim input) with false by (symmetry; apply Z.ltb_ge; lia).
    unfold bind at 1.
    destruct (input_channels input =? 0); [reflexivity|].
    unfold ret at 1. unfold bind at 1.
    destruct (resample_new_size (shape input 0) sr_ratio) as [cap|];
      [|reflexivity].
    unfold ret at 1.
    apply resample_tail.
  - destruct (2 <? ndim input); [reflexivity|].
    unfold bind at 1.
    destruct (input_channels input =? 0); [reflexivity|].
    unfold ret at 1. unfold bind at 1.
    destruct (resample_new_size (shape input 0) sr_ratio) as [cap|];
      [|reflexivity].
    unfold ret at 1.
    apply resample_tail.
Qed.

(** [process], step by step. *)
Lemma process_run (input : nb_array_f32) (sr_ratio : double)
    (end_of_input : bool) (self : Resampler) (w : world py) :
  process input sr_ratio end_of_input (self, w) =
  if 2 <? ndim input then
    (Throws (domain_error at_most_2_dimensions), (self, w))
  else if negb (input_channels input =? _channels self)
          || (input_channels input =? 0) then
    (Throws (domain_error invalid_channels), (self, w))
  else
    match process_new_size (shape input 0) sr_ratio with
    | None => (Undefined, (self, w))
    | Some cap =>
        let bytes := output_bytes cap (input_channels input) in
        if C.SIZE_MAX <? bytes then (Throws bad_alloc, (self, w))
        else
          let room := operator_new bytes (w_lib w) in
          let w0 := with_lib (snd room) w in
          if fst room then
            let request := process_request input sr_ratio end_of_input cap in
            let answer := src_process (_state self) request (w_lib w0) in
            let err := fst (fst answer) in
            let data' := snd (fst answer) in
            (error_handler err ;;
             (if cap <? C.to_size_t (output_frames_gen data')
              then throw (runtime_error more_than_expected) else ret tt) ;;
             ret (output_array (ndim input) (output_frames_gen data')
                    (input_channels input)))
              (self, with_lib (snd answer)
                       (log (Ev_process (_state self) request err data') w0))
          else (Throws bad_alloc, (self, w0))
    end.
Proof.
  unfold process.
  unfold bind at 1, this. cbn [fst snd].
  unfold bind at 1. rewrite channels_of_input.
  destruct (Z.eqb_spec (ndim input) 2) as [H2|H2]; cbn [negb andb].
  - replace (2 <? ndim input) with false by (symmetry; apply Z.ltb_ge; lia).
    unfold bind at 1.
    destruct (negb (input_channels input =? _channels self)
              || (input_channels input =? 0)); [reflexivity|].
    unfold ret at 1. unfold bind at 1.
    destruct (process_new_size (shape input 0) sr_ratio) as [cap|];
      [|reflexivity].
    unfold ret at 1.
    apply process_tail.
  - destruct (2 <? ndim input); [reflexivity|].
    unfold bind at 1.
    destruct (negb (input_channels input =? _channels self)
              || (input_channels input =? 0)); [reflexivity|].
    unfold ret at 1. unfold bind at 1.
    destruct (process_new_size (shape input 0) sr_ratio) as [cap|];
      [|reflexivity].
    unfold ret at 1.
    apply process_tail.
Qed.

(** X3. [resample] checks its arguments before anything else, in this
    order: a converter type [get_converter_type] rejects fails with that
    function's error; then an input of rank above 2 fails with
    [InvalidShape]; then an input of rank 2 with no columns fails with
    [InvalidShape], with the message that names the 0. In all three cases
    the engine is not called and nothing is recorded. *)
Theorem resample_rejects_before_engine (O : Type) (input : nb_array_f32)
    (sr_ratio : double) (converter_type : py_object) (verbose : bool)
    (s : O * world py) :
  (forall e,
      fst (get_converter_type converter_type s) = Throws e ->
      resample input sr_ratio converter_type verbose s = (Throws e, s))
  /\ (forall ct,
        fst (get_converter_type converter_type s) = Returns ct ->
        (2 < ndim input ->
         resample input sr_ratio converter_type verbose s
         = (Throws (InvalidShape at_most_2_dimensions), s))
        /\ (ndim input <= 2 -> input_channels input = 0 ->
            resample input sr_ratio converter_type verbose s
            = (Throws (InvalidShape invalid_channels_0), s))).
Proof.
  destruct s as [o w]. rewrite resample_run.
  split.
  - intros e ->. reflexivity.
  - intros ct ->. split.
    + intros H. rewrite (proj2 (Z.ltb_lt 2 (ndim input)) H). reflexivity.
    + intros H H0. rewrite (proj2 (Z.ltb_ge 2 (ndim input)) H).
      rewrite H0. reflexivity.
Qed.

(** X4. A [resample] of an input of rank 1 or 2 that returns has made
    exactly one call into the engine: [src_simple] with the converter selected, the channel count
    of the input, the input's frame count, the planned capacity as the
    room for output, and the ratio; the engine reported status 0 and no
    more frames than planned. The array returned has the rank of the
    input (rank 2 for rank 2, rank 1 otherwise) and as many frames as the
    engine generated. *)
Theorem resample_success (O : Type) (input : nb_array_f32)
    (sr_ratio : double) (converter_type : py_object) (verbose : bool)
    (s s' : O * world py) (a : nb_array_f32) :
  1 <= ndim input ->
  resample input sr_ratio converter_type verbose s = (Returns a, s') ->
  exists ct cap data',
    fst (get_converter_type converter_type s) = Returns ct
    /\ ndim input <= 2 /\ input_channels input <> 0
    /\ resample_new_size (shape input 0) sr_ratio = Some cap
    /\ fst s' = fst s
    /\ w_trace (snd s')
       = w_trace (snd s)
         ++ [Ev_simple (resample_request input sr_ratio cap) ct
               (input_channels input) 0 data']
    /\ C.to_size_t (output_frames_gen data') <= cap
    /\ a = output_array (ndim input) (output_frames_gen data')
             (input_channels input)
    /\ ndim a = (if ndim input =? 2 then 2 else 1)
    /\ shape a 0 = C.to_size_t (output_frames_gen data').
Proof.
  destruct s as [o w]. rewrite resample_run. intros _ Hrun.
  destruct (fst (get_converter_type converter_type (o, w))) as [ct| |];
    try discriminate Hrun.
  destruct (Z.ltb_spec 2 (ndim input)) as [|Hnd]; [discriminate Hrun|].
  destruct (Z.eqb_spec (input_channels input) 0) as [|Hch];
    [discriminate Hrun|].
  destruct (resample_new_size (shape input 0) sr_ratio) as [cap|];
    [|discriminate Hrun].
  cbv zeta in Hrun.
  destruct (C.SIZE_MAX <? _); [discriminate Hrun|].
  destruct (operator_new _ (w_lib w)) as [ok l]. cbn [fst snd] in Hrun.
  destruct ok; [|discriminate Hrun].
  set (answer := src_simple (resample_request input sr_ratio cap) ct
                   (input_channels input) _) in *.
  pose proof (capacity_check _ _ _ _ _ _ _ _ _ Hrun) as [Hc _].
  destruct Hc as (_ & _ & _ & Hret).
  destruct (Hret a eq_refl) as (Herr & Hshape & Hle).
  rewrite Herr in Hrun.
  rewrite capacity_check_passes in Hrun by exact Hle.
  injection Hrun as Ha <-.
  exists ct, cap, (snd (fst answer)).
  repeat split; try assumption; try reflexivity; try (symmetry; exact Ha).
  rewrite <- Ha. unfold output_array.
  destruct (ndim input =? 2); reflexivity.
Qed.

(** X5. A [process] of an input of rank 1 or 2 that returns has made
    exactly one call into the engine, on the state the session holds: [src_process] with the
    input's frame count, the planned capacity as the room for output, the
    end-of-input flag as given and the ratio; the engine reported status 0
    and no more frames than planned. The session is as it was. The array
    returned has the rank of the input and as many frames as the engine
    generated, and for rank 2 the session's channel count as its second
    dimension. *)
Theorem process_success (input : nb_array_f32) (sr_ratio : double)
    (end_of_input : bool) (self self' : Resampler) (w w' : world py)
    (a : nb_array_f32) :
  1 <= ndim input ->
  process input sr_ratio end_of_input (self, w) = (Returns a, (self', w')) ->
  exists cap data',
    ndim input <= 2
    /\ input_channels input = _channels self /\ _channels self <> 0
    /\ process_new_size (shape input 0) sr_ratio = Some cap
    /\ self' = self
    /\ w_trace w'
       = w_trace w
         ++ [Ev_process (_state self)
               (process_request input sr_ratio end_of_input cap) 0 data']
    /\ C.to_size_t (output_frames_gen data') <= cap
    /\ ndim a = (if ndim input =? 2 then 2 else 1)
    /\ shape a 0 = C.to_size_t (output_frames_gen data')
    /\ (ndim input = 2 -> shape a 1 = C.to_size_t (_channels self)).
Proof.
  rewrite process_run. intros _ Hrun.
  destruct (Z.ltb_spec 2 (ndim input)) as [|Hnd]; [discriminate Hrun|].
  destruct (Z.eqb_spec (input_channels input) (_channels self)) as [Hch|];
    [|discriminate Hrun].
  destruct (Z.eqb_spec (input_channels input) 0) as [|Hch0];
    [discriminate Hrun|].
  cbn [negb orb] in Hrun.
  destruct (process_new_size (shape input 0) sr_ratio) as [cap|];
    [|discriminate Hrun].
  cbv zeta in Hrun.
  destruct (C.SIZE_MAX <? _); [discriminate Hrun|].
  destruct (operator_new _ (w_lib w)) as [ok l]. cbn [fst snd] in Hrun.
  destruct ok; [|discriminate Hrun].
  set (answer := src_process (_state self)
                   (process_request input sr_ratio end_of_input cap)
                   _) in *.
  pose proof (capacity_check _ _ _ _ _ _ _ _ _ Hrun) as [Hc _].
  destruct Hc as (_ & _ & _ & Hret).
  destruct (Hret a eq_refl) as (Herr & Hshape & Hle).
  rewrite Herr in Hrun.
  rewrite capacity_check_passes in Hrun by exact Hle.
  injection Hrun as Ha <- <-.
  exists cap, (snd (fst answer)).
  repeat split; try assumption; try reflexivity; try congruence.
  - rewrite <- Ha. unfold output_array.
    destruct (ndim input =? 2); reflexivity.
  - intros H2. rewrite <- Ha. unfold output_array.
    rewrite (proj2 (Z.eqb_eq _ _) H2). rewrite Hch. reflexivity.
Qed.

End BulkAndIncremental.

(** Ten frames of one channel through the copying engine. *)
Lemma resample_success_witness :
  exists ct cap data',
    resample_new_size 10 Sim.half = Some cap
    /\ w_trace
         (snd (snd (resample (E := Sim.sim) {| shape_of := [10] |} Sim.half
                      (PyStr "linear") false
                      (tt, Sim.start Sim.sim [] []))))
       = [Ev_simple (E := Sim.sim)
            (resample_request {| shape_of := [10] |} Sim.half cap) ct 1 0
            data']
    /\ C.to_size_t (output_frames_gen data') <= cap
    /\ output_frames_gen data' = 10.
Proof.
  evaluate H1
    (resample (E := Sim.sim) {| shape_of := [10] |} Sim.half
       (PyStr "linear") false (tt, Sim.start Sim.sim [] [])).
  assert (Hrank : 1 <= ndim {| shape_of := [10] |})
    by (vm_compute; discriminate).
  destruct (resample_success (E := Sim.sim) _ _ _ _ _ _ _ _ Hrank H1)
    as (ct & cap & data' & _ & _ & _ & Hcap & _ & Htr & Hle & Ha & _).
  exists ct, cap, data'.
  split; [exact Hcap|]. split; [rewrite H1; exact Htr|].
  split; [exact Hle|].
  unfold Sim.start in Htr. cbn [snd w_trace app] in Htr.
  injection Htr; intros; subst. reflexivity.
Defined.

(** Four frames of two channels through a two-channel session. *)
Lemma process_success_witness :
  exists cap data',
    Resampler.process_new_size 4 Sim.one = Some cap
    /\ w_trace
         (snd (snd (Resampler.process (E := Sim.sim) {| shape_of := [4; 2] |}
                      Sim.one true
                      (Sim.resampler Sim.sim (Some 1%nat) 2,
                       Sim.start Sim.sim [None] []))))
       = [Ev_process (E := Sim.sim) (Some 1%nat)
            (process_request {| shape_of := [4; 2] |} Sim.one true cap) 0
            data']
    /\ output_frames_gen data' = 4.
Proof.
  evaluate H1
    (Resampler.process (E := Sim.sim) {| shape_of := [4; 2] |} Sim.one true
       (Sim.resampler Sim.sim (Some 1%nat) 2, Sim.start Sim.sim [None] [])).
  assert (Hrank : 1 <= ndim {| shape_of := [4; 2] |})
    by (vm_compute; discriminate).
  destruct (process_success (E := Sim.sim) _ _ _ _ _ _ _ _ Hrank H1)
    as (cap & data' & _ & _ & _ & Hcap & _ & Htr & _).
  exists cap, data'.
  split; [exact Hcap|]. split; [rewrite H1; exact Htr|].
  unfold Sim.start in Htr. cbn [snd w_trace app] in Htr.
  injection Htr; intros; subst. reflexivity.
Defined.

(** A request of rank 3 with a good converter type. *)
Lemma resample_rejects_before_engine_witness :
  resample (E := Sim.sim) {| shape_of := [4; 2; 2] |} Sim.one
    (PyStr "linear") false (tt, Sim.start Sim.sim [] [])
  = (Throws (InvalidShape at_most_2_dimensions),
     (tt, Sim.start Sim.sim [] [])).
Proof.
  apply (proj2 (resample_rejects_before_engine (E := Sim.sim) unit
                  {| shape_of := [4; 2; 2] |} Sim.one (PyStr "linear") false
                  (tt, Sim.start Sim.sim [] [])) 4).
  - reflexivity.
  - vm_compute. reflexivity.
Defined.

(** ** The incremental session's life *)

Section IncrementalLife.

Context {E : Engine} {py : Type}.

Import Resampler.

(** [error_handler] as the last step that may fail: the object is kept,
    the only events are looks into the message table, and the outcome is
    decided by the status. *)
Lemma error_handler_then (O A : Type) (err : Z) (a : A) (s : O * world py) :
  fst ((error_handler err ;; ret a) s)
  = (if err =? 0 then Returns a else status_error err)
  /\ fst (snd ((error_handler err ;; ret a) s)) = fst s
  /\ exists tail,
       w_trace (snd (snd ((error_handler err ;; ret a) s)))
       = w_trace (snd s) ++ tail
       /\ (forall e, In e tail -> e = Ev_strerror err)
       /\ (err = 0 -> tail = []).
Proof.
  unfold bind. rewrite error_handler_run.
  destruct (Z.eqb_spec err 0) as [->|Hnz].
  - cbn. split; [reflexivity|]. split; [reflexivity|].
    exists []. rewrite app_nil_r. split; [reflexivity|].
    split; [intros ? []|reflexivity].
  - unfold status_error.
    destruct ((1 <=? err) && (err <=? 23)).
    + destruct (src_strerror err); cbn;
        (split; [reflexivity|]; split; [reflexivity|];
         exists [Ev_strerror err]; split; [reflexivity|];
         split; [intros ? [<-|[]]; reflexivity|intros; contradiction]).
    + cbn. split; [reflexivity|]. split; [reflexivity|].
      exists []. rewrite app_nil_r. split; [reflexivity|].
      split; [intros ? []|intros; contradiction].
Qed.

(** The constructor, step by step. *)
Lemma resampler_constructor_run (O : Type) (converter_type : py_object)
    (channels : Z) (o : O) (w : world py) :
  constructor converter_type channels (o, w) =
  match fst (get_converter_type converter_type (o, w)) with
  | Returns ct =>
      let answer := src_new ct channels (w_lib w) in
      let st := fst (fst answer) in
      let err := snd (fst answer) in
      (error_handler err ;;
       ret {| _state := st; _converter_type := ct; _channels := channels |})
        (o, with_lib (snd answer) (log (Ev_new ct channels st err) w))
  | Throws e => (Throws e, (o, w))
  | Undefined => (Undefined, (o, w))
  end.
Proof.
  unfold constructor. unfold bind at 1.
  destruct (get_converter_type_pure O converter_type (o, w)) as [Hs Hu].
  destruct (get_converter_type converter_type (o, w)) as [[ct| |] s0];
    cbn [fst snd] in Hs, Hu |- *; subst s0; try reflexivity.
  unfold bind at 1, engine_new, on_world. cbn [fst snd].
  destruct (src_new ct channels (w_lib w)) as [[st err] l]. reflexivity.
Qed.

Lemma status_error_returns_nothing (A : Type) (err : Z) (a : A) :
  status_error (E := E) err <> Returns a.
Proof.
  unfold status_error.
  destruct ((1 <=? err) && (err <=? 23)); [|discriminate].
  destruct (src_strerror err); discriminate.
Qed.

(** X6. The constructor of [Resampler]. A converter type that
    [get_converter_type] rejects fails with that error and the engine is
    not called. Otherwise the engine is asked once for a new state, with
    the channel count as it was given, unchecked; the session exists
    exactly when the engine reports error 0, and then holds what the
    engine returned, the converter's number and the channel count; any
    other error is translated and no session exists. *)
Theorem resampler_constructor_outcome (O : Type) (converter_type : py_object)
    (channels : Z) (s : O * world py) :
  match fst (get_converter_type converter_type s) with
  | Returns ct =>
      let answer := src_new ct channels (w_lib (snd s)) in
      let st := fst (fst answer) in
      let err := snd (fst answer) in
      fst (constructor converter_type channels s)
      = (if err =? 0
         then Returns {| _state := st; _converter_type := ct;
                         _channels := channels |}
         else status_error err)
      /\ fst (snd (constructor converter_type channels s)) = fst s
      /\ exists tail,
           w_trace (snd (snd (constructor converter_type channels s)))
           = w_trace (snd s) ++ Ev_new ct channels st err :: tail
           /\ forall e, In e tail -> e = Ev_strerror err
  | Throws e => constructor converter_type channels s = (Throws e, s)
  | Undefined => False
  end.
Proof.
  destruct s as [o w]. rewrite resampler_constructor_run.
  destruct (get_converter_type_pure O converter_type (o, w)) as [_ Hu].
  destruct (fst (get_converter_type converter_type (o, w))) as [ct| |];
    [|reflexivity|congruence].
  cbv zeta. cbn [snd fst].
  set (answer := src_new ct channels (w_lib w)).
  destruct (error_handler_then O _ (snd (fst answer))
              {| _state := fst (fst answer); _converter_type := ct;
                 _channels := channels |}
              (o, with_lib (snd answer)
                    (log (Ev_new ct channels (fst (fst answer))
                            (snd (fst answer))) w)))
    as (Hr & Ho & tail & Htr & Htail & _).
  split; [exact Hr|]. split; [exact Ho|].
  exists tail. split; [|exact Htail].
  rewrite Htr. cbn [snd w_trace with_lib log]. rewrite <- app_assoc.
  reflexivity.
Qed.

(** [set_ratio], [reset] and [clone] on a session. *)
Lemma set_ratio_run (new_ratio : double) (self : Resampler) (w : world py) :
  set_ratio new_ratio (self, w) =
  let answer := src_set_ratio (_state self) new_ratio (w_lib w) in
  error_handler (fst answer)
    (self, with_lib (snd answer)
             (log (Ev_set_ratio (_state self) new_ratio (fst answer)) w)).
Proof.
  unfold set_ratio. unfold bind at 1, this. cbn [fst snd].
  unfold bind at 1, engine_set_ratio, on_world. cbn [fst snd].
  destruct (src_set_ratio (_state self) new_ratio (w_lib w)) as [err l].
  reflexivity.
Qed.

Lemma resampler_reset_run (self : Resampler) (w : world py) :
  Resampler.reset (self, w) =
  let answer := src_reset (_state self) (w_lib w) in
  error_handler (fst answer)
    (self, with_lib (snd answer)
             (log (Ev_reset (_state self) (fst answer)) w)).
Proof.
  unfold Resampler.reset. unfold bind at 1, this. cbn [fst snd].
  unfold bind at 1, engine_reset, on_world. cbn [fst snd].
  destruct (src_reset (_state self) (w_lib w)) as [err l].
  reflexivity.
Qed.

Lemma resampler_clone_run (self : Resampler) (w : world py) :
  clone (self, w) =
  let answer := src_clone (_state self) (w_lib w) in
  let st := fst (fst answer) in
  let err := snd (fst answer) in
  (error_handler err ;;
   ret {| _state := st; _converter_type := _converter_type self;
          _channels := _channels self |})
    (self, with_lib (snd answer) (log (Ev_clone (_state self) st err) w)).
Proof.
  unfold clone. unfold bind at 1, this. cbn [fst snd].
  unfold copy_constructor.
  unfold bind at 1, engine_clone, on_world. cbn [fst snd].
  destruct (src_clone (_state self) (w_lib w)) as [[st err] l].
  reflexivity.
Qed.

(** X8. [clone] asks the engine once to duplicate the state the session
    holds and leaves the session as it was. When the engine reports error
    0 the clone is a session of the same converter type and channel count
    that holds the state the engine returned; any other error is
    translated and there is no clone. *)
Theorem resampler_clone_outcome (self : Resampler) (w : world py) :
  let answer := src_clone (_state self) (w_lib w) in
  let st := fst (fst answer) in
  let err := snd (fst answer) in
  fst (clone (self, w))
  = (if err =? 0
     then Returns {| _state := st; _converter_type := _converter_type self;
                     _channels := _channels self |}
     else status_error err)
  /\ fst (snd (clone (self, w))) = self
  /\ exists tail,
       w_trace (snd (snd (clone (self, w))))
       = w_trace w ++ Ev_clone (_state self) st err :: tail
       /\ forall e, In e tail -> e = Ev_strerror err.
Proof.
  rewrite resampler_clone_run. cbv zeta.
  set (answer := src_clone (_state self) (w_lib w)).
  destruct (error_handler_then Resampler _ (snd (fst answer))
              {| _state := fst (fst answer);
                 _converter_type := _converter_type self;
                 _channels := _channels self |}
              (self, with_lib (snd answer)
                       (log (Ev_clone (_state self) (fst (fst answer))
                               (snd (fst answer))) w)))
    as (Hr & Ho & tail & Htr & Htail & _).
  split; [exact Hr|]. split; [exact Ho|].
  exists tail. split; [|exact Htail].
  rewrite Htr. cbn [snd w_trace with_lib log]. rewrite <- app_assoc.
  reflexivity.
Qed.

(** One call on a session: the session is kept and every event is on its
    state. *)
Lemma invoke_resampler_keeps (c : resampler_call) (self : Resampler)
    (w : world py) :
  fst (invoke_resampler c (self, w)) = self
  /\ exists evs,
       w_trace (snd (invoke_resampler c (self, w))) = w_trace w ++ evs
       /\ Forall (on_state (_state self)) evs.
Proof.
  assert (Hstr : forall err tail,
            (forall e, In e tail -> e = Ev_strerror err) ->
            Forall (on_state (_state self)) tail).
  { intros err tail H. apply Forall_forall. intros e He.
    rewrite (H e He). exact I. }
  destruct c as [input sr_ratio end_of_input|new_ratio| |];
    cbn [invoke_resampler].
  - (* process *)
    rewrite process_run.
    destruct (2 <? ndim input).
    { split; [reflexivity|]. exists []. rewrite app_nil_r.
      split; [reflexivity|constructor]. }
    destruct (negb (input_channels input =? _channels self)
              || (input_channels input =? 0)).
    { split; [reflexivity|]. exists []. rewrite app_nil_r.
      split; [reflexivity|constructor]. }
    destruct (process_new_size (shape input 0) sr_ratio) as [cap|].
    2: { split; [reflexivity|]. exists []. rewrite app_nil_r.
         split; [reflexivity|constructor]. }
    cbv zeta.
    destruct (C.SIZE_MAX <? _).
    { split; [reflexivity|]. exists []. rewrite app_nil_r.
      split; [reflexivity|constructor]. }
    destruct (operator_new _ (w_lib w)) as [ok l]. cbn [fst snd].
    destruct ok.
    2: { split; [reflexivity|]. exists []. rewrite app_nil_r.
         split; [reflexivity|constructor]. }
    set (answer := src_process _ _ _).
    set (w1 := with_lib _ _).
    set (run := (_ ;; _) (self, w1)).
    destruct run as [r s'] eqn:Hrun. subst run.
    pose proof (capacity_check _ _ _ _ _ _ _ _ _ Hrun)
      as [_ (tail & Htr & Htail)].
    assert (Hself : fst s' = self).
    { revert Hrun. unfold bind at 1.
      pose proof (error_handler_keeps_this Resampler
                    (fst (fst answer)) (self, w1)) as Hk.
      destruct (error_handler (fst (fst answer)) (self, w1))
        as [[u| |] [o1 w2]]; cbn [fst snd] in Hk; subst o1.
      - unfold bind, throw, ret.
        destruct (cap <? _); intros [= _ <-]; reflexivity.
      - intros [= _ <-]. reflexivity.
      - intros [= _ <-]. reflexivity. }
    cbn [snd fst]. split; [exact Hself|].
    exists (Ev_process (_state self)
              (process_request input sr_ratio end_of_input cap)
              (fst (fst answer)) (snd (fst answer)) :: tail).
    split.
    + rewrite Htr. subst w1. cbn [snd w_trace with_lib log].
      rewrite <- app_assoc. reflexivity.
    + constructor; [reflexivity|]. exact (Hstr _ _ Htail).
  - (* set_ratio *)
    rewrite set_ratio_run. cbv zeta.
    set (answer := src_set_ratio _ _ _).
    destruct (error_handler_trace Resampler (fst answer)
                (self, with_lib (snd answer)
                         (log (Ev_set_ratio (_state self) new_ratio
                                 (fst answer)) w)))
      as (Ho & tail & Htr & Htail).
    split; [exact Ho|].
    exists (Ev_set_ratio (_state self) new_ratio (fst answer) :: tail).
    split.
    + rewrite Htr. cbn [snd w_trace with_lib log].
      rewrite <- app_assoc. reflexivity.
    + constructor; [reflexivity|]. exact (Hstr _ _ Htail).
  - (* reset *)
    rewrite resampler_reset_run. cbv zeta.
    set (answer := src_reset _ _).
    destruct (error_handler_trace Resampler (fst answer)
                (self, with_lib (snd answer)
                         (log (Ev_reset (_state self) (fst answer)) w)))
      as (Ho & tail & Htr & Htail).
    split; [exact Ho|].
    exists (Ev_reset (_state self) (fst answer) :: tail).
    split.
    + rewrite Htr. cbn [snd w_trace with_lib log].
      rewrite <- app_assoc. reflexivity.
    + constructor; [reflexivity|]. exact (Hstr _ _ Htail).
  - (* clone *)
    rewrite resampler_clone_run. cbv zeta.
    set (answer := src_clone (_state self) (w_lib w)).
    destruct (error_handler_then Resampler _ (snd (fst answer))
                {| _state := fst (fst answer);
                   _converter_type := _converter_type self;
                   _channels := _channels self |}
                (self, with_lib (snd answer)
                         (log (Ev_clone (_state self) (fst (fst answer))
                                 (snd (fst answer))) w)))
      as (_ & Ho & tail & Htr & Htail & _).
    split; [exact Ho|].
    exists (Ev_clone (_state self) (fst (fst answer)) (snd (fst answer))
              :: tail).
    split.
    + rewrite Htr. cbn [snd w_trace with_lib log].
      rewrite <- app_assoc. reflexivity.
    + constructor; [reflexivity|]. exact (Hstr _ _ Htail).
Qed.

Lemma invoke_all_resampler_keeps (calls : list resampler_call)
    (self : Resampler) (w : world py) :
  fst (invoke_all_resampler calls (self, w)) = self
  /\ exists evs,
       w_trace (snd (invoke_all_resampler calls (self, w))) = w_trace w ++ evs
       /\ Forall (on_state (_state self)) evs.
Proof.
  revert w. induction calls as [|c calls IH]; intros w.
  - split; [reflexivity|]. exists []. rewrite app_nil_r.
    split; [reflexivity|constructor].
  - unfold invoke_all_resampler. cbn [fold_left].
    fold (invoke_all_resampler calls (invoke_resampler c (self, w))).
    destruct (invoke_resampler_keeps c self w) as (Ho & evs1 & Htr1 & Hon1).
    destruct (invoke_resampler c (self, w)) as [self1 w1].
    cbn [fst snd] in Ho, Htr1. subst self1.
    destruct (IH w1) as (Ho2 & evs2 & Htr2 & Hon2).
    split; [exact Ho2|].
    exists (evs1 ++ evs2). split.
    + rewrite Htr2, Htr1, app_assoc. reflexivity.
    + apply Forall_app. split; assumption.
Qed.

(** X7. An incremental session is immutable: after any calls of
    [process] (on inputs of rank 1 or more), [set_ratio], [reset] and
    [clone], failing ones included, it holds the converter state, the
    converter type and the channel count it had. Every call the engine received from it was on that one
    state; beside those the session only looked into the message table.
    So the whole life of a session the constructor built is: one
    [src_new], which reported error 0; calls on the state it returned;
    and, at destruction, one [src_delete] of that state. *)
Theorem resampler_is_immutable :
  (forall (calls : list resampler_call) (self : Resampler) (w : world py),
      Forall ranked calls ->
      fst (invoke_all_resampler calls (self, w)) = self
      /\ exists evs,
           w_trace (snd (invoke_all_resampler calls (self, w)))
           = w_trace w ++ evs
           /\ Forall (on_state (_state self)) evs)
  /\ (forall (converter_type : py_object) (channels : Z) (w0 w1 : world py)
        (self : Resampler) (calls : list resampler_call),
        Forall ranked calls ->
        constructor converter_type channels (tt, w0)
          = (Returns self, (tt, w1)) ->
        exists ct evs,
          w_trace (snd (snd (destructor
                               (invoke_all_resampler calls (self, w1)))))
          = w_trace w0
            ++ Ev_new ct channels (_state self) 0
                 :: evs ++ [Ev_delete (_state self)]
          /\ Forall (on_state (_state self)) evs
          /\ _converter_type self = ct /\ _channels self = channels).
Proof.
  split; [intros calls self w _; apply invoke_all_resampler_keeps|].
  intros converter_type channels w0 w1 self calls _ Hc.
  rewrite resampler_constructor_run in Hc.
  destruct (fst (get_converter_type converter_type (tt, w0))) as [ct| |];
    try discriminate Hc.
  cbv zeta in Hc.
  set (answer := src_new ct channels (w_lib w0)) in *.
  match type of Hc with
  | (error_handler ?e ;; ret ?c) ?s = _ =>
      destruct (error_handler_then unit _ e c s)
        as (Hr & _ & tail & Htr & _ & Htail)
  end.
  rewrite Hc in Hr, Htr. cbn [fst snd] in Hr, Htr.
  destruct (Z.eqb_spec (snd (fst answer)) 0) as [H0|Hnz].
  2: { destruct (status_error_returns_nothing _ _ _ (eq_sym Hr)). }
  injection Hr as ->. rewrite (Htail H0), app_nil_r in Htr.
  cbn [w_trace with_lib log] in Htr. rewrite H0 in Htr.
  cbn [_state _converter_type _channels].
  destruct (invoke_all_resampler_keeps calls
              {| _state := fst (fst answer); _converter_type := ct;
                 _channels := channels |} w1) as (Ho & evs & Htr2 & Hon).
  destruct (invoke_all_resampler calls _) as [self2 w2].
  cbn [fst snd] in Ho, Htr2. subst self2.
  exists ct, evs.
  split; [|split; [exact Hon|split; reflexivity]].
  unfold destructor. unfold bind at 1, this. cbn [fst snd].
  unfold engine_delete, on_world. cbn [fst snd w_trace with_lib log _state].
  rewrite Htr2, Htr. rewrite <- !app_assoc. reflexivity.
Qed.

(** X18. Moving a session hands its converter state over: the new
    session is what the old one was, and the old one is left without a
    state. Destroying both, in either order, deletes the state once; the
    other [src_delete] is of a null pointer. *)
Theorem moved_from_resampler_holds_nothing (r : Resampler) (w : world py) :
  let new := fst (move_constructor r) in
  let old := snd (move_constructor r) in
  new = r /\ _state old = None
  /\ w_trace (snd (snd (destructor (new, snd (snd (destructor (old, w)))))))
     = w_trace w ++ [Ev_delete None; Ev_delete (_state r)]
  /\ w_trace (snd (snd (destructor (old, snd (snd (destructor (new, w)))))))
     = w_trace w ++ [Ev_delete (_state r); Ev_delete None].
Proof.
  destruct r as [st ct ch]. cbn [move_constructor fst snd].
  split; [reflexivity|]. split; [reflexivity|].
  unfold destructor, bind, this, engine_delete, on_world.
  cbn [fst snd w_trace with_lib log _state].
  rewrite <- !app_assoc. split; reflexivity.
Qed.

End IncrementalLife.

(** ** The callback session: construction, the bridge, and what a read
       reports *)

Section CallbackLife.

Context {E : Engine} {py : Type}.

Import CallbackResampler.

(** [_create], step by step. *)
Lemma create_run (cb : CallbackResampler py) (w : world py) :
  _create (cb, w) =
  let answer :=
    src_callback_new (_converter_type cb) (C.to_int (_channels cb))
      (w_this w) (w_lib w) in
  let st := fst (fst answer) in
  let err := snd (fst answer) in
  let w1 :=
    with_lib (snd answer)
      (log (Ev_callback_new (_converter_type cb) (C.to_int (_channels cb))
              st err) w) in
  match st with
  | Some _ => (Returns tt, (set_state st cb, w1))
  | None => error_handler err (set_state None cb, w1)
  end.
Proof.
  unfold _create.
  unfold bind at 1, this. cbn [fst snd].
  unfold bind at 1, this_address. cbn [fst snd].
  unfold bind at 1, engine_callback_new, on_world. cbn [fst snd].
  destruct (src_callback_new (_converter_type cb) (C.to_int (_channels cb))
              (w_this w) (w_lib w)) as [[st err] l].
  cbn [fst snd]. unfold bind at 1, update. cbn [fst snd].
  destruct st; reflexivity.
Qed.

(** The session the constructor builds around the state [st]. *)
Lemma constructor_run (O : Type) (callback_func : @callback_t py)
    (ratio : double) (converter_type : py_object) (channels : Z)
    (o : O) (w : world py) :
  constructor callback_func ratio converter_type channels (o, w) =
  match fst (get_converter_type converter_type (o, w)) with
  | Returns ct =>
      let answer :=
        src_callback_new ct (C.to_int channels) (w_this w) (w_lib w) in
      let st := fst (fst answer) in
      let err := snd (fst answer) in
      let w1 :=
        with_lib (snd answer)
          (log (Ev_callback_new ct (C.to_int channels) st err) w) in
      let self :=
        {| _state := st;
           _callback := callback_func;
           _current_buffer := empty_array;
           _buffer_ndim := 0;
           _callback_error_msg := EmptyString;
           _ratio := ratio;
           _converter_type := ct;
           _channels := channels |} in
      match st with
      | Some _ => (Returns self, (o, w1))
      | None =>
          if err =? 0 then (Returns self, (o, w1))
          else if (1 <=? err) && (err <=? 23)
          then (status_error err, (o, log (Ev_strerror err) w1))
          else (status_error err, (o, w1))
      end
  | Throws e => (Throws e, (o, w))
  | Undefined => (Undefined, (o, w))
  end.
Proof.
  unfold constructor. unfold bind at 1.
  destruct (get_converter_type_pure O converter_type (o, w)) as [Hs Hu].
  destruct (get_converter_type converter_type (o, w)) as [[ct| |] s0];
    cbn [fst snd] in Hs, Hu |- *; subst s0; try reflexivity.
  rewrite create_run. cbv zeta. cbn [_converter_type _channels fst snd].
  destruct (src_callback_new ct (C.to_int channels) (w_this w) (w_lib w))
    as [[st err] l]. cbn [fst snd].
  destruct st as [h|]; [reflexivity|].
  rewrite error_handler_run. cbn [fst snd].
  unfold status_error.
  destruct (err =? 0); [reflexivity|].
  destruct ((1 <=? err) && (err <=? 23)); [|reflexivity].
  destruct (src_strerror err); reflexivity.
Qed.

(** X9. The constructor of [CallbackResampler]. A converter type that
    [get_converter_type] rejects fails with that error, the engine not
    being called. Otherwise the engine is asked once for a pull-mode
    state, with the channel count narrowed to [int]. The engine's error is
    looked at only when it returned no state: the session exists when
    there is a state, or when there is none and the error is 0; the
    callback data registered with the state is the address of the
    session under construction; the session starts
    with the producer and the ratio given, no rank recorded, no buffer and
    an empty deferred-error slot. *)
Theorem callback_constructor_outcome (O : Type)
    (callback_func : @callback_t py) (ratio : double)
    (converter_type : py_object) (channels : Z) (s : O * world py) :
  match fst (get_converter_type converter_type s) with
  | Returns ct =>
      let answer :=
        src_callback_new ct (C.to_int channels) (w_this (snd s))
          (w_lib (snd s)) in
      let st := fst (fst answer) in
      let err := snd (fst answer) in
      let self :=
        {| _state := st;
           _callback := callback_func;
           _current_buffer := empty_array;
           _buffer_ndim := 0;
           _callback_error_msg := EmptyString;
           _ratio := ratio;
           _converter_type := ct;
           _channels := channels |} in
      fst (constructor callback_func ratio converter_type channels s)
      = (match st with
         | Some _ => Returns self
         | None => if err =? 0 then Returns self else status_error err
         end)
      /\ fst (snd (constructor callback_func ratio converter_type channels s))
         = fst s
      /\ exists tail,
           w_trace (snd (snd (constructor callback_func ratio converter_type
                                channels s)))
           = w_trace (snd s)
             ++ Ev_callback_new ct (C.to_int channels) st err :: tail
           /\ (forall e, In e tail -> e = Ev_strerror err)
           /\ (st <> None -> tail = [])
  | Throws e =>
      constructor callback_func ratio converter_type channels s = (Throws e, s)
  | Undefined => False
  end.
Proof.
  destruct s as [o w]. rewrite constructor_run.
  destruct (get_converter_type_pure O converter_type (o, w)) as [_ Hu].
  destruct (fst (get_converter_type converter_type (o, w))) as [ct| |];
    [|reflexivity|congruence].
  cbv zeta. cbn [snd].
  destruct (src_callback_new ct (C.to_int channels) (w_this w) (w_lib w))
    as [[st err] l]. cbn [fst snd].
  assert (Hnone : forall (A : Type) (a : A) (w1 : world py),
            w_trace w1 = w_trace w ++ [Ev_callback_new ct (C.to_int channels)
                                         st err] ->
            exists tail,
              w_trace w1
              = w_trace w
                ++ Ev_callback_new ct (C.to_int channels) st err :: tail
              /\ (forall e, In e tail -> e = Ev_strerror err)
              /\ (st <> None -> tail = [])).
  { intros A a w1 H. exists []. split; [exact H|].
    split; [intros ? []|reflexivity]. }
  destruct st as [h|].
  - split; [reflexivity|]. split; [reflexivity|].
    apply (Hnone unit tt). reflexivity.
  - destruct (err =? 0).
    + split; [reflexivity|]. split; [reflexivity|].
      apply (Hnone unit tt). reflexivity.
    + destruct ((1 <=? err) && (err <=? 23)).
      * split; [reflexivity|]. split; [reflexivity|].
        exists [Ev_strerror err]. split.
        { cbn [snd w_trace with_lib log]. rewrite <- app_assoc. reflexivity. }
        split; [intros ? [<-|[]]; reflexivity|congruence].
      * split; [reflexivity|]. split; [reflexivity|].
        apply (Hnone unit tt). reflexivity.
Qed.

(** An [int] survives the way through [size_t] and back. *)
Lemma int_size_t_int (c : Z) :
  - 2 ^ 31 <= c <= C.INT_MAX -> C.to_int (C.to_size_t c) = c.
Proof.
  unfold C.INT_MAX, C.to_int, C.to_size_t, C.wrap_signed, C.wrap_unsigned.
  intros Hc.
  rewrite (Z.mod_eq c (2 ^ 64)) by lia.
  replace (c - 2 ^ 64 * (c / 2 ^ 64) + 2 ^ (32 - 1))
    with (c + 2 ^ 31 + (- (c / 2 ^ 64) * 2 ^ 32) * 2 ^ 32).
  2: { change (2 ^ 64) with (2 ^ 32 * 2 ^ 32). change (32 - 1) with 31. ring. }
  rewrite Z_mod_plus_full.
  rewrite Z.mod_small by (change (2 ^ 32) with (2 ^ 31 + 2 ^ 31); lia).
  change (32 - 1) with 31. lia.
Qed.

(** X10. The channel count Python passes as an [int] reaches the engine
    unchanged, although the session stores it as a [size_t]: when the
    converter type is good, the one call the Python constructor makes is
    [src_callback_new] for that converter and exactly that channel count,
    negative ones included. *)
Theorem init_passes_channels (O : Type) (callback_func : @callback_t py)
    (ratio : double) (converter_type : py_object) (channels ct : Z)
    (s : O * world py) :
  - 2 ^ 31 <= channels <= C.INT_MAX ->
  fst (get_converter_type converter_type s) = Returns ct ->
  exists st err tail,
    w_trace (snd (snd (__init__ callback_func ratio converter_type channels s)))
    = w_trace (snd s) ++ Ev_callback_new ct channels st err :: tail
    /\ (forall e, In e tail -> e = Ev_strerror err)
    /\ forall cb,
         fst (__init__ callback_func ratio converter_type channels s)
         = Returns cb ->
         _state cb = st /\ C.to_int (get_channels cb) = channels.
Proof.
  intros Hc Hct. unfold __init__. destruct s as [o w].
  rewrite constructor_run. rewrite Hct. cbv zeta.
  rewrite (int_size_t_int channels Hc). cbn [snd].
  destruct (src_callback_new ct channels (w_this w) (w_lib w))
    as [[st err] l].
  cbn [fst snd].
  assert (Hcb : forall cb : CallbackResampler py,
            cb = {| _state := st;
                    _callback := callback_func;
                    _current_buffer := empty_array;
                    _buffer_ndim := 0;
                    _callback_error_msg := EmptyString;
                    _ratio := ratio;
                    _converter_type := ct;
                    _channels := C.to_size_t channels |} ->
            _state cb = st /\ C.to_int (get_channels cb) = channels).
  { intros cb ->. split; [reflexivity|].
    apply int_size_t_int. exact Hc. }
  exists st, err.
  destruct st as [h|].
  - exists []. split; [reflexivity|]. split; [intros ? []|].
    intros cb [= <-]. apply Hcb. reflexivity.
  - destruct (err =? 0).
    + exists []. split; [reflexivity|]. split; [intros ? []|].
      intros cb [= <-]. apply Hcb. reflexivity.
    + unfold status_error.
      destruct ((1 <=? err) && (err <=? 23)).
      * exists [Ev_strerror err]. split.
        { cbn [snd w_trace with_lib log]. rewrite <- app_assoc. reflexivity. }
        split; [intros ? [<-|[]]; reflexivity|].
        intros cb Hr. destruct (src_strerror err); discriminate Hr.
      * exists []. split; [reflexivity|]. split; [intros ? []|].
        intros cb Hr. discriminate Hr.
Qed.

End CallbackLife.

(** ** The callback session: the bridge and what a read reports *)

Section CallbackReads.

Context {E : Engine} {py : Type}.

Import CallbackResampler.

(** X11. The bridge hands the engine an array only for a chunk it
    accepts: one of rank 1 or 2 whose channel count matches. It then
    reports the chunk's frame count, keeps that very array as the
    session's current buffer, so that the array stays referenced while
    the engine reads it, and leaves the deferred-error slot alone. In
    every other case it reports 0 frames and hands over nothing. *)
Theorem bridge_hands_over_what_it_keeps
    (cb cb' : CallbackResampler py) (w w' : world py) (n : Z)
    (data : option nb_array_f32) :
  the_callback_func (cb, w) = ((n, data), (cb', w')) ->
  match data with
  | Some a =>
      fst (_callback cb (w_py w)) = Some a
      /\ _current_buffer cb' = a
      /\ n = C.to_long (shape a 0)
      /\ 1 <= ndim a <= 2
      /\ channel_mismatch (_channels cb) a = false
      /\ _callback_error_msg cb' = _callback_error_msg cb
  | None => n = 0
  end.
Proof.
  unfold the_callback_func, callback. cbn [fst].
  destruct (_callback cb (w_py w)) as [[a|] p]; cbn [fst].
  2: { cbn. intros [= <- <- _ _]. reflexivity. }
  pose proof (ndim_nonneg a) as Hnn.
  destruct (Z.eqb_spec (ndim a) 0) as [H0|H0].
  { intros [= <- <- _ _]. reflexivity. }
  destruct (Z.ltb_spec 2 (ndim a)) as [H2|H2].
  { intros [= <- <- _ _]. reflexivity. }
  unfold get_channels.
  destruct (negb (C.to_int (if ndim a =? 2 then shape a 1 else 1)
                  =? C.to_int (_channels cb))
            || ((if ndim a =? 2 then shape a 1 else 1) =? 0)) eqn:Hbad.
  { intros [= <- <- _ _]. reflexivity. }
  intros [= <- <- <- _].
  split; [reflexivity|].
  split.
  { destruct ((0 <? ndim a) && (_buffer_ndim cb =? 0)); reflexivity. }
  split; [reflexivity|].
  split; [lia|].
  split.
  { unfold channel_mismatch, num_channels. rewrite Hbad.
    apply andb_false_r. }
  destruct ((0 <? ndim a) && (_buffer_ndim cb =? 0)); reflexivity.
Qed.

(** X12. The bridge reports 0 frames to the engine, the value by which
    it signals the end of the stream, in exactly these cases: the producer
    answered [None]; it answered an array of rank 0; the chunk was
    rejected for its rank or its channel count; or the chunk is a valid
    one of no frames ([(long)] of its first dimension is 0). *)
Theorem bridge_reports_no_frames (cb : CallbackResampler py) (w : world py) :
  fst (fst (the_callback_func (cb, w))) = 0
  <-> match fst (_callback cb (w_py w)) with
      | None => True
      | Some a =>
          ndim a = 0 \/ 2 < ndim a
          \/ channel_mismatch (_channels cb) a = true
          \/ C.to_long (shape a 0) = 0
      end.
Proof.
  destruct (the_callback_func_spec cb w) as [data ->]. cbv zeta. cbn [fst].
  destruct (fst (_callback cb (w_py w))) as [a|]; cbn [bridge_returns];
    [|tauto].
  destruct (Z.eqb_spec (ndim a) 0) as [H0|H0]; [tauto|].
  cbn [bridge_records].
  destruct (Z.ltb_spec 2 (ndim a)) as [H2|H2]; [tauto|].
  destruct (channel_mismatch (_channels cb) a); [tauto|].
  split; [tauto|].
  intros [H|[H|[H|H]]]; [contradiction|lia|discriminate|exact H].
Qed.

(** An answer the bridge got is an answer of the producer. *)
Lemma answers_to_in (a : address) (evs : list (@event E)) (c : bool) x :
  In x (answers_to a c evs) -> In (Ev_producer x) evs.
Proof.
  revert c. induction evs as [|ev evs IH]; intros c; [intros []|].
  destruct ev; cbn [answers_to]; intros H;
    try (right; exact (IH _ H)).
  apply in_app_or in H. destruct H as [H|H]; [|right; exact (IH _ H)].
  destruct c; [|destruct H]. destruct H as [->|[]]. left. reflexivity.
Qed.

(** The ways a [read] ends: before the engine is asked to read, without
    the engine returning, or with the engine's answer. *)
Lemma read_ends (frames : Z) (cb : CallbackResampler py) (w : world py)
    r cb' w' evs :
  read frames (cb, w) = (r, (cb', w')) ->
  w_trace w' = w_trace w ++ evs ->
  (own_answers (w_this w) evs = []
   /\ (r = Throws bad_alloc \/ exists err, err <> 0 /\ r = status_error err))
  \/ r = Undefined
  \/ (exists n,
        In (Ev_callback_read_returned n) evs
        /\ (forall m, In (Ev_callback_read_returned m) evs -> m = n)
        /\ _callback_error_msg cb'
           = deferred_error (_channels cb) EmptyString
               (own_answers (w_this w) evs)
        /\ r = read_outcome cb' n (src_error (_state cb') (w_lib w'))
        /\ _channels cb' = _channels cb).
Proof.
  intros Hrun Htr.
  destruct (read_cases _ _ _ _ _ _ _ Hrun Htr)
    as [(Hr & _ & Haside & _)
       |(st & xs & Hcb & Hans & _ & Hst & _ & [(Hr & _)|(n & Hin & Huniq & Hr)])].
  - left. split; [|exact Hr].
    exact (proj1 (answers_to_aside _ false _ Haside)).
  - right. left. exact Hr.
  - right. right. exists n. split; [exact Hin|]. split; [exact Huniq|].
    split.
    { unfold own_answers. rewrite Hcb, (Hans false). apply slot_after_read. }
    split; [rewrite Hst; exact Hr|].
    rewrite Hcb, fold_absorb_channels. reflexivity.
Qed.

Lemma status_error_is_no_domain_error (A : Type) (err : Z) (m : string) :
  status_error (E := E) (A := A) err <> Throws (domain_error m).
Proof.
  unfold status_error, ConversionFailed, FatalEngineContract.
  destruct ((1 <=? err) && (err <=? 23)); [|discriminate].
  destruct (src_strerror err); discriminate.
Qed.

(** X13. A [read] throws [CallbackError] only for a chunk the producer
    supplied during that very [read]: the message thrown is the one the
    bridge recorded for one of them. Whatever the slot held before the
    call, from an earlier failed [read], is not reported again. *)
Theorem callback_error_is_of_this_read
    (frames : Z) (cb : CallbackResampler py) (w : world py)
    (cb' : CallbackResampler py) (w' : world py) (evs : list event)
    (m : string) :
  read frames (cb, w) = (Throws (CallbackError m), (cb', w')) ->
  w_trace w' = w_trace w ++ evs ->
  _callback_error_msg cb' = m
  /\ exists x,
       In (Ev_producer x) evs /\ bridge_records (_channels cb) x = Some m.
Proof.
  intros Hrun Htr.
  destruct (read_ends _ _ _ _ _ _ _ Hrun Htr)
    as [(_ & [Hr|(err & _ & Hr)])|[Hr|(n & _ & _ & Hslot & Hr & _)]];
    try discriminate Hr.
  { symmetry in Hr. destruct (status_error_is_no_domain_error _ _ _ Hr). }
  unfold read_outcome in Hr.
  destruct (empty (_callback_error_msg cb')) eqn:Hempty; cbn [negb] in Hr.
  - exfalso.
    destruct (C.to_size_t n =? 0).
    + destruct (src_error (_state cb') (w_lib w') =? 0); [discriminate Hr|].
      symmetry in Hr. exact (status_error_is_no_domain_error _ _ _ Hr).
    + discriminate Hr.
  - injection Hr as Hm. split; [symmetry; exact Hm|].
    destruct (deferred_error_cases (_channels cb) EmptyString
                (own_answers (w_this w) evs))
      as [(Hsame & _)|(x & Hx & Hrec)].
    + rewrite <- Hslot in Hsame. rewrite Hsame in Hempty. discriminate Hempty.
    + exists x. split; [exact (answers_to_in _ _ _ _ Hx)|].
      rewrite Hrec, <- Hslot, Hm. reflexivity.
Qed.

(** X14. A [read] that returns an array got an answer from
    [src_callback_read], and the array has exactly the frames the engine
    reported there ([(size_t)] of the count); its second dimension, when
    it has one, is the session's channel count. The bridge, running on
    this session, recorded no error for any chunk it got during the call,
    the session's slot is empty, and when the engine reported no frames
    its status was 0. Of the chunks that went to the bridge of another
    session (a clone reads through the session it was cloned from)
    nothing is said. *)
Theorem read_returns_what_the_engine_generated
    (frames : Z) (cb : CallbackResampler py) (w : world py)
    (a : nb_array_f32) (cb' : CallbackResampler py) (w' : world py)
    (evs : list event) :
  read frames (cb, w) = (Returns a, (cb', w')) ->
  w_trace w' = w_trace w ++ evs ->
  exists n,
    In (Ev_callback_read_returned n) evs
    /\ (forall m, In (Ev_callback_read_returned m) evs -> m = n)
    /\ shape a 0 = C.to_size_t n
    /\ (ndim a = 2 -> shape a 1 = _channels cb)
    /\ _callback_error_msg cb' = EmptyString
    /\ (forall x, In x (own_answers (w_this w) evs) ->
          bridge_records (_channels cb) x = None)
    /\ (C.to_size_t n = 0 -> src_error (_state cb') (w_lib w') = 0).
Proof.
  intros Hrun Htr.
  destruct (read_ends _ _ _ _ _ _ _ Hrun Htr)
    as [(_ & [Hr|(err & _ & Hr)])
       |[Hr|(n & Hin & Huniq & Hslot & Hr & Hch)]];
    try discriminate Hr.
  { symmetry in Hr. destruct (status_error_returns_nothing _ _ _ Hr). }
  exists n. split; [exact Hin|]. split; [exact Huniq|].
  unfold read_outcome in Hr.
  destruct (empty (_callback_error_msg cb')) eqn:Hempty; cbn [negb] in Hr;
    [|discriminate Hr].
  assert (Hslot0 : _callback_error_msg cb' = EmptyString).
  { destruct (_callback_error_msg cb'); [reflexivity|discriminate Hempty]. }
  assert (Ha : a = read_result cb' (C.to_size_t n)
               /\ (C.to_size_t n = 0
                   -> src_error (_state cb') (w_lib w') = 0)).
  { destruct (Z.eqb_spec (C.to_size_t n) 0) as [H0|H0].
    - destruct (Z.eqb_spec (src_error (_state cb') (w_lib w')) 0) as [He|He].
      + injection Hr as ->. rewrite H0. split; [reflexivity|intros; exact He].
      + symmetry in Hr. destruct (status_error_returns_nothing _ _ _ Hr).
    - injection Hr as ->. split; [reflexivity|intros; contradiction]. }
  destruct Ha as [-> Hstatus].
  split.
  { unfold read_result.
    destruct ((_channels cb' =? 1) && (_buffer_ndim cb' =? 1)); reflexivity. }
  split.
  { unfold read_result.
    destruct ((_channels cb' =? 1) && (_buffer_ndim cb' =? 1)).
    - cbn. intros H; discriminate H.
    - intros _. cbn. exact Hch. }
  split; [exact Hslot0|]. split; [|exact Hstatus].
  intros x Hx.
  destruct (deferred_error_cases (_channels cb) EmptyString
              (own_answers (w_this w) evs))
    as [(_ & Hall)|(y & Hy & Hrec)].
  - exact (Hall x Hx).
  - exfalso. rewrite <- Hslot, Hslot0 in Hrec.
    destruct (bridge_records_message _ _ _ Hrec) as (_ & He & _).
    discriminate He.
Qed.

(** X21. What the bridge of another session does is lost on a [read]. A
    [read] during which the bridge never ran on the reading session
    (every call back of the engine went to another session, as it does
    for a clone, or there was none), and from which the engine returned
    [n] frames, records no rank and no error in the reading session: it
    throws no [CallbackError] whatever the producer supplied, and when
    the engine generated frames it returns them. *)
Theorem read_is_blind_to_other_bridges
    (frames : Z) (cb : CallbackResampler py) (w : world py)
    (r : outcome nb_array_f32) (cb' : CallbackResampler py) (w' : world py)
    (evs : list event) (n : Z) :
  read frames (cb, w) = (r, (cb', w')) ->
  w_trace w' = w_trace w ++ evs ->
  own_answers (w_this w) evs = [] ->
  In (Ev_callback_read_returned n) evs ->
  _buffer_ndim cb' = _buffer_ndim cb
  /\ _callback_error_msg cb' = EmptyString
  /\ (forall m, r <> Throws (CallbackError m))
  /\ (C.to_size_t n <> 0 -> r = Returns (read_result cb' (C.to_size_t n))).
Proof.
  intros Hrun Htr Hnone Hret.
  destruct (read_cases _ _ _ _ _ _ _ Hrun Htr)
    as [(_ & _ & _ & Hno & _)
       |(st & xs & Hcb & Hans & _ & _ & _ & Hend)].
  { destruct (Hno n Hret). }
  destruct Hend as [(_ & _ & Hno)|(k & _ & Huniq & Hr)];
    [destruct (Hno n Hret)|].
  rewrite <- (Huniq n Hret) in Hr.
  unfold own_answers in Hnone. rewrite (Hans false) in Hnone. subst xs.
  cbn [fold_left] in Hcb.
  assert (Hslot : _callback_error_msg cb' = EmptyString)
    by (rewrite Hcb; reflexivity).
  split; [rewrite Hcb; reflexivity|]. split; [exact Hslot|].
  unfold read_outcome in Hr. rewrite Hslot in Hr. cbn [empty negb] in Hr.
  split.
  - intros m Hm. rewrite Hm in Hr.
    destruct (C.to_size_t n =? 0); [|discriminate Hr].
    destruct (src_error st (w_lib w') =? 0); [discriminate Hr|].
    symmetry in Hr. exact (status_error_is_no_domain_error _ _ _ Hr).
  - intros Hn. apply Z.eqb_neq in Hn. rewrite Hn in Hr. exact Hr.
Qed.

End CallbackReads.

(** ** The callback session's life *)

Section CallbackLives.

Context {E : Engine} {py : Type}.

Import CallbackResampler.

Lemma held_after_app (h : option SRC_STATE) (xs ys : list (@event E)) :
  held_after h (xs ++ ys) = held_after (held_after h xs) ys.
Proof. unfold held_after. apply fold_left_app. Qed.

Lemma ratio_after_app (r : double) (xs ys : list (@event E)) :
  ratio_after r (xs ++ ys) = ratio_after (ratio_after r xs) ys.
Proof. unfold ratio_after. apply fold_left_app. Qed.

Lemma disciplined_app (h : option SRC_STATE) (xs ys : list (@event E)) :
  disciplined h (xs ++ ys)
  <-> disciplined h xs /\ disciplined (held_after h xs) ys.
Proof.
  revert h. induction xs as [|ev xs IH]; intros h.
  - cbn. tauto.
  - destruct ev; cbn [app disciplined held_after fold_left];
      try (fold (held_after h xs)); try (fold (held_after state xs));
      try (fold (held_after None xs));
      try rewrite IH; try tauto.
Qed.

Lemma reads_with_ratio_app (r : double) (xs ys : list (@event E)) :
  reads_with_ratio r (xs ++ ys)
  = reads_with_ratio r xs ++ reads_with_ratio (ratio_after r xs) ys.
Proof.
  revert r. induction xs as [|ev xs IH]; intros r; [reflexivity|].
  destruct ev; cbn [app reads_with_ratio];
    try (rewrite IH; cbn [ratio_after fold_left]; reflexivity).
Qed.

Lemma quiet_events (h : option SRC_STATE) (r : double)
    (evs : list (@event E)) :
  Forall (quiet h) evs ->
  disciplined h evs /\ held_after h evs = h /\ ratio_after r evs = r
  /\ reads_with_ratio r evs = [].
Proof.
  induction 1 as [|ev evs Hev _ IH]; [cbn; auto|].
  destruct IH as (Hd & Hh & Hr & Hreads).
  destruct ev; cbn in Hev; try contradiction;
    cbn [disciplined held_after ratio_after fold_left reads_with_ratio];
    fold (held_after h evs); fold (ratio_after r evs); auto.
Qed.

Lemma bridging_quiet (h : option SRC_STATE) (evs : list (@event E)) :
  Forall bridging evs -> Forall (quiet h) evs.
Proof.
  intros H. eapply Forall_impl; [|exact H].
  intros ev Hev. destruct ev; cbn in Hev |- *; try contradiction; exact I.
Qed.

Lemma strerror_quiet (h : option SRC_STATE) (err : Z)
    (tail : list (@event E)) :
  (forall e, In e tail -> e = Ev_strerror err) -> Forall (quiet h) tail.
Proof.
  intros H. apply Forall_forall. intros e He. rewrite (H e He). exact I.
Qed.

Lemma absorb_keeps (cb : CallbackResampler py) x :
  _ratio (absorb cb x) = _ratio cb
  /\ _callback (absorb cb x) = _callback cb
  /\ _converter_type (absorb cb x) = _converter_type cb.
Proof.
  unfold absorb. destruct x as [a|]; [|auto].
  destruct (bridge_records _ _), ((0 <? ndim a) && (_buffer_ndim cb =? 0));
    auto.
Qed.

Lemma fold_absorb_keeps xs (cb : CallbackResampler py) :
  _ratio (fold_left absorb xs cb) = _ratio cb
  /\ _callback (fold_left absorb xs cb) = _callback cb
  /\ _converter_type (fold_left absorb xs cb) = _converter_type cb.
Proof.
  revert cb; induction xs as [|x xs IH]; intros cb; [auto|].
  cbn. destruct (IH (absorb cb x)) as (H1 & H2 & H3).
  destruct (absorb_keeps cb x) as (K1 & K2 & K3).
  rewrite H1, H2, H3. auto.
Qed.

Lemma kept_nothing (cb : CallbackResampler py) : kept cb cb [].
Proof. unfold kept. cbn. repeat split; auto. intros ? ? []. Qed.

Lemma kept_trans (cb cb1 cb2 : CallbackResampler py) evs1 evs2 :
  kept cb cb1 evs1 -> kept cb1 cb2 evs2 -> kept cb cb2 (evs1 ++ evs2).
Proof.
  intros (R1 & Q1 & F1 & T1 & C1) (R2 & Q2 & F2 & T2 & C2).
  unfold kept.
  rewrite ratio_after_app, reads_with_ratio_app.
  rewrite <- R1.
  split; [exact R2|].
  split.
  { intros asked recorded Hin. apply in_app_or in Hin.
    destruct Hin as [Hin|Hin]; [exact (Q1 _ _ Hin)|exact (Q2 _ _ Hin)]. }
  split; [congruence|]. split; congruence.
Qed.

Lemma lived_nothing (cb : CallbackResampler py) : lived cb cb [].
Proof.
  unfold lived. split; [exact I|]. split; [reflexivity|apply kept_nothing].
Qed.

Lemma lived_trans (cb cb1 cb2 : CallbackResampler py) evs1 evs2 :
  lived cb cb1 evs1 -> lived cb1 cb2 evs2 -> lived cb cb2 (evs1 ++ evs2).
Proof.
  intros (D1 & H1 & K1) (D2 & H2 & K2).
  unfold lived.
  rewrite held_after_app.
  rewrite <- H1.
  split; [apply disciplined_app; rewrite <- H1; auto|].
  split; [exact H2|exact (kept_trans _ _ _ _ _ K1 K2)].
Qed.

(** Quiet events after the session's only change. *)
Lemma lived_quiet (cb : CallbackResampler py) (evs : list (@event E)) :
  Forall (quiet (_state cb)) evs -> lived cb cb evs.
Proof.
  intros Hq.
  destruct (quiet_events (_state cb) (_ratio cb) evs Hq) as (Hd & Hh & Hr & Hn).
  unfold lived, kept. rewrite Hh, Hr, Hn.
  repeat split; auto. intros ? ? [].
Qed.

(** One call on a callback session. *)
Lemma invoke_lived (c : method_call) (cb : CallbackResampler py)
    (w : world py) :
  exists evs,
    w_trace (snd (invoke c (cb, w))) = w_trace w ++ evs
    /\ lived cb (fst (invoke c (cb, w))) evs.
Proof.
  destruct c as [frames|new_ratio| | |]; cbn [invoke].
  - (* read *)
    destruct (read frames (cb, w)) as [r [cb' w']] eqn:Hrun. cbn [fst snd].
    apply read_inversion in Hrun.
    destruct Hrun
      as [(_ & -> & Htr & _)
         |[(err & tail & Hst & Herr & Htr & Htail & _ & -> & _)
          |(st & pre & xs & devs & ending & Hpre & Hcb & Htr & _ & Hall
              & _ & _ & Hend)]].
    + exists []. split; [rewrite app_nil_r; exact Htr|apply lived_nothing].
    + eexists. split; [exact Htr|].
      apply (lived_trans cb cb cb [_] tail).
      * unfold lived, kept. rewrite Hst. cbn. repeat split; auto.
        intros ? ? [].
      * apply lived_quiet. exact (strerror_quiet _ _ _ Htail).
    + eexists. split; [exact Htr|].
      destruct (fold_absorb_keeps xs (clear_callback_error (set_state st cb)))
        as (K1 & K2 & K3).
      assert (Hst' : _state cb' = st).
      { rewrite Hcb, fold_absorb_state. reflexivity. }
      assert (Hch : _channels cb' = _channels cb).
      { rewrite Hcb, fold_absorb_channels. reflexivity. }
      rewrite <- Hcb in K1, K2, K3. cbn in K1, K2, K3.
      assert (Hrest : Forall (quiet st) (devs ++ ending)).
      { apply Forall_app. split; [exact (bridging_quiet _ _ Hall)|].
        destruct Hend as [(_ & -> & _)|(n & post & -> & Hpost & _)];
          [constructor|].
        constructor; [exact I|]. apply Forall_forall. intros e He.
        destruct (Hpost e He) as [->| ->]; [reflexivity|exact I]. }
      destruct (quiet_events st (_ratio cb) _ Hrest) as (Hd & Hh & Hr & Hn).
      assert (Hread : forall h : option SRC_STATE,
                h = st ->
                lived (set_state h cb) cb'
                  (Ev_callback_read st (_ratio cb) (C.to_long frames)
                     :: devs ++ ending)).
      { intros h ->. unfold lived, kept.
        cbn [disciplined held_after ratio_after fold_left reads_with_ratio
             set_state _state _ratio _callback _converter_type _channels].
        fold (held_after st (devs ++ ending)).
        fold (ratio_after (_ratio cb) (devs ++ ending)).
        rewrite Hh, Hr, Hn.
        repeat split; auto.
        intros asked recorded [[= <- <-]|[]]. reflexivity. }
      destruct Hpre as [(Hs & _ & ->)|(Hs & err & -> & _)].
      * cbn [app]. specialize (Hread st eq_refl).
        rewrite <- Hs in Hread at 1. rewrite set_state_same in Hread.
        exact Hread.
      * apply (lived_trans cb (set_state st cb) cb' [_]);
          [|exact (Hread st eq_refl)].
        unfold lived, kept. rewrite Hs. cbn. repeat split; auto.
        intros ? ? [].
  - (* set_starting_ratio *)
    rewrite set_starting_ratio_unfold. cbv zeta.
    set (answer := src_set_ratio (_state cb) new_ratio (w_lib w)).
    set (w1 := with_lib _ _).
    rewrite error_handler_run. cbn [fst snd].
    destruct (Z.eqb_spec (fst answer) 0) as [H0|Hnz].
    + cbn [fst snd]. eexists. split; [reflexivity|].
      unfold lived, kept. rewrite H0. cbn. repeat split; auto.
      intros ? ? [].
    + assert (Hfail : forall (r : outcome unit) (w2 : world py) tail,
                w_trace w2 = w_trace w1 ++ tail ->
                (forall e, In e tail -> e = Ev_strerror (fst answer)) ->
                exists evs,
                  w_trace w2 = w_trace w ++ evs /\ lived cb cb evs).
      { intros r w2 tail Htr Htail.
        exists (Ev_set_ratio (_state cb) new_ratio (fst answer) :: tail).
        split.
        { rewrite Htr. subst w1. cbn [w_trace with_lib log].
          rewrite <- app_assoc. reflexivity. }
        apply (lived_trans cb cb cb [_] tail).
        - unfold lived, kept. cbn.
          rewrite (proj2 (Z.eqb_neq (fst answer) 0) Hnz).
          repeat split; auto. intros ? ? [].
        - apply lived_quiet. exact (strerror_quiet _ _ _ Htail). }
      destruct ((1 <=? fst answer) && (fst answer <=? 23)).
      * destruct (src_strerror (fst answer)); cbn [fst snd];
          apply (Hfail (Returns tt) _ [Ev_strerror (fst answer)]);
          try reflexivity; intros ? [<-|[]]; reflexivity.
      * cbn [fst snd].
        apply (Hfail (Returns tt) _ []);
          [symmetry; apply app_nil_r|intros ? []].
  - (* reset *)
    rewrite reset_unfold. cbv zeta.
    set (answer := src_reset (_state cb) (w_lib w)).
    set (w1 := with_lib _ _).
    destruct (error_handler_trace _ (fst answer) (cb, w1))
      as [Hk (tail & Ht & Htail)].
    destruct (error_handler (fst answer) (cb, w1)) as [r [cb2 w2]].
    cbn [fst snd] in Hk, Ht |- *. subst cb2.
    exists (Ev_reset (_state cb) (fst answer) :: tail). split.
    { rewrite Ht. subst w1. cbn [snd w_trace with_lib log].
      rewrite <- app_assoc. reflexivity. }
    apply (lived_trans cb cb cb [_] tail).
    + unfold lived, kept. cbn. repeat split; auto. intros ? ? [].
    + apply lived_quiet. exact (strerror_quiet _ _ _ Htail).
  - (* __enter__ *)
    unfold __enter__, this. cbn [fst snd]. exists [].
    split; [symmetry; apply app_nil_r|apply lived_nothing].
  - (* __exit__ *)
    rewrite exit_unfold.
    destruct (_state cb) as [h|] eqn:Hst; cbn [fst snd].
    + exists [Ev_delete (Some h)]. split; [reflexivity|].
      unfold lived, kept. rewrite Hst. cbn. repeat split; auto.
      * discriminate.
      * intros ? ? [].
    + exists []. split; [symmetry; apply app_nil_r|apply lived_nothing].
Qed.

Lemma invoke_all_lived (calls : list method_call)
    (cb : CallbackResampler py) (w : world py) :
  exists evs,
    w_trace (snd (invoke_all calls (cb, w))) = w_trace w ++ evs
    /\ lived cb (fst (invoke_all calls (cb, w))) evs.
Proof.
  revert cb w. induction calls as [|c calls IH]; intros cb w.
  - exists []. split; [symmetry; apply app_nil_r|apply lived_nothing].
  - unfold invoke_all. cbn [fold_left].
    fold (invoke_all calls (invoke c (cb, w))).
    destruct (invoke_lived c cb w) as (evs1 & Htr1 & L1).
    destruct (invoke c (cb, w)) as [cb1 w1]. cbn [fst snd] in Htr1, L1.
    destruct (IH cb1 w1) as (evs2 & Htr2 & L2).
    exists (evs1 ++ evs2). split.
    + rewrite Htr2, Htr1, app_assoc. reflexivity.
    + exact (lived_trans _ _ _ _ _ L1 L2).
Qed.


(** X15. A callback session keeps to one converter state at a time, from
    its construction through any calls of [read], [set_starting_ratio],
    [reset], [__enter__] and [__exit__], failing ones included, to its
    destruction. It asks the engine for a new state only while it holds
    none; it deletes only the state it holds, never a null one and never
    one twice; every other engine call is on the state it holds at that
    moment; and [_state] is at every moment what the events so far leave.
    Once destroyed, it holds nothing: every state it created has been
    deleted. *)
Theorem callback_session_state_discipline
    (callback_func : @callback_t py) (ratio : double)
    (converter_type : py_object) (channels : Z) (w0 w1 : world py)
    (cb : CallbackResampler py) (calls : list method_call) :
  constructor callback_func ratio converter_type channels (tt, w0)
    = (Returns cb, (tt, w1)) ->
  (exists during,
      w_trace (snd (invoke_all calls (cb, w1))) = w_trace w0 ++ during
      /\ disciplined None during
      /\ _state (fst (invoke_all calls (cb, w1))) = held_after None during)
  /\ exists evs,
       w_trace (snd (snd (destructor (invoke_all calls (cb, w1)))))
       = w_trace w0 ++ evs
       /\ disciplined None evs
       /\ held_after None evs = None.
Proof.
  intros Hc. rewrite constructor_run in Hc.
  destruct (fst (get_converter_type converter_type (tt, w0))) as [ct| |];
    try discriminate Hc.
  cbv zeta in Hc.
  destruct (src_callback_new ct (C.to_int channels) (w_this w0) (w_lib w0))
    as [[st err] l]. cbn [fst snd] in Hc.
  set (ev := Ev_callback_new ct (C.to_int channels) st err) in *.
  assert (Hborn : _state cb = st /\ w_trace w1 = w_trace w0 ++ [ev]).
  { destruct st as [h|].
    - injection Hc as <- <-. split; reflexivity.
    - destruct (err =? 0).
      + injection Hc as <- <-. split; reflexivity.
      + exfalso. destruct ((1 <=? err) && (err <=? 23));
          injection Hc as Hc _;
          exact (status_error_returns_nothing _ _ _ Hc). }
  destruct Hborn as [Hst Hw1].
  destruct (invoke_all_lived calls cb w1) as (evs2 & Htr & L).
  destruct L as (Hd & Hh & _).
  rewrite Hst in Hd, Hh.
  assert (Hduring :
    w_trace (snd (invoke_all calls (cb, w1))) = w_trace w0 ++ ev :: evs2
    /\ disciplined None (ev :: evs2)
    /\ _state (fst (invoke_all calls (cb, w1))) = held_after None (ev :: evs2)).
  { split; [rewrite Htr, Hw1, <- app_assoc; reflexivity|].
    split; [cbn; auto|exact Hh]. }
  split; [exists (ev :: evs2); exact Hduring|].
  destruct Hduring as (Htr' & Hd' & Hh').
  destruct (invoke_all calls (cb, w1)) as [cb2 w2]. cbn [fst snd] in *.
  change (destructor (cb2, w2)) with (__exit__ PyNone PyNone PyNone (cb2, w2)).
  rewrite exit_unfold.
  destruct (_state cb2) as [h|] eqn:Hst2; cbn [snd].
  - exists ((ev :: evs2) ++ [Ev_delete (Some h)]).
    split.
    { cbn [w_trace with_lib log]. rewrite Htr', <- app_assoc. reflexivity. }
    split.
    { apply disciplined_app. split; [exact Hd'|].
      rewrite <- Hh'. cbn. repeat split; auto. discriminate. }
    rewrite held_after_app. reflexivity.
  - exists (ev :: evs2). split; [exact Htr'|]. split; [exact Hd'|].
    symmetry. exact Hh'.
Qed.

(** [clone], step by step. *)
Lemma callback_clone_run (cb : CallbackResampler py) (w : world py) :
  clone (cb, w) =
  let answer := src_clone (_state cb) (w_lib w) in
  let st := fst (fst answer) in
  let err := snd (fst answer) in
  let w1 := with_lib (snd answer) (log (Ev_clone (_state cb) st err) w) in
  let copy :=
    {| _state := st;
       _callback := _callback cb;
       _current_buffer := empty_array;
       _buffer_ndim := 0;
       _callback_error_msg := EmptyString;
       _ratio := _ratio cb;
       _converter_type := _converter_type cb;
       _channels := _channels cb |} in
  match st with
  | Some _ => (Returns copy, (cb, w1))
  | None => (error_handler err ;; ret copy) (cb, w1)
  end.
Proof.
  unfold clone. unfold bind at 1, this. cbn [fst snd].
  unfold copy_constructor.
  unfold bind at 1, engine_clone, on_world. cbn [fst snd].
  destruct (src_clone (_state cb) (w_lib w)) as [[st err] l].
  cbn [fst snd]. destruct st; reflexivity.
Qed.

(** X17. [clone] of a callback session asks the engine once to duplicate
    the state the session holds, and leaves the session as it was. The
    engine's error is looked at only when it returned no state. The clone
    has the producer, the ratio, the converter type and the channel count
    of the session, but none of what the session has learnt: no rank is
    recorded, there is no buffer, and the deferred-error slot is empty. *)
Theorem callback_clone_outcome (cb : CallbackResampler py) (w : world py) :
  let answer := src_clone (_state cb) (w_lib w) in
  let st := fst (fst answer) in
  let err := snd (fst answer) in
  let copy :=
    {| _state := st;
       _callback := _callback cb;
       _current_buffer := empty_array;
       _buffer_ndim := 0;
       _callback_error_msg := EmptyString;
       _ratio := _ratio cb;
       _converter_type := _converter_type cb;
       _channels := _channels cb |} in
  fst (clone (cb, w))
  = (match st with
     | Some _ => Returns copy
     | None => if err =? 0 then Returns copy else status_error err
     end)
  /\ fst (snd (clone (cb, w))) = cb
  /\ exists tail,
       w_trace (snd (snd (clone (cb, w))))
       = w_trace w ++ Ev_clone (_state cb) st err :: tail
       /\ (forall e, In e tail -> e = Ev_strerror err)
       /\ (st <> None -> tail = []).
Proof.
  rewrite callback_clone_run. cbv zeta.
  set (answer := src_clone (_state cb) (w_lib w)).
  destruct (fst (fst answer)) as [h|] eqn:Hst.
  - cbn [fst snd]. split; [reflexivity|]. split; [reflexivity|].
    exists []. split; [reflexivity|]. split; [intros ? []|reflexivity].
  - match goal with
    | |- context [(error_handler ?e ;; ret ?c) ?s] =>
        destruct (error_handler_then (CallbackResampler py) _ e c s)
          as (Hr & Ho & tail & Htr & Htail & _)
    end.
    split; [exact Hr|]. split; [exact Ho|].
    exists tail. split.
    + rewrite Htr. cbn [snd w_trace with_lib log]. rewrite <- app_assoc.
      reflexivity.
    + split; [exact Htail|congruence].
Qed.

(** [clone] keeps the session, leaves it at work where it was, and leaves
    one [src_clone] and at most a look into the message table. *)
Lemma callback_clone_keeps (cb : CallbackResampler py) (w : world py) :
  fst (snd (clone (cb, w))) = cb
  /\ w_this (snd (snd (clone (cb, w)))) = w_this w
  /\ exists tail,
       w_trace (snd (snd (clone (cb, w))))
       = w_trace w
         ++ Ev_clone (_state cb) (fst (fst (src_clone (_state cb) (w_lib w))))
              (snd (fst (src_clone (_state cb) (w_lib w)))) :: tail
       /\ forall e, In e tail
            -> e = Ev_strerror (snd (fst (src_clone (_state cb) (w_lib w)))).
Proof.
  rewrite callback_clone_run. cbv zeta.
  set (answer := src_clone (_state cb) (w_lib w)).
  destruct (fst (fst answer)) as [h|] eqn:Hst.
  - cbn [fst snd]. split; [reflexivity|]. split; [reflexivity|].
    exists []. split; [reflexivity|intros ? []].
  - unfold bind, ret.
    set (w1 := with_lib _ _).
    pose proof (error_handler_this _ (snd (fst answer)) (cb, w1)) as Hthis.
    destruct (error_handler_trace _ (snd (fst answer)) (cb, w1))
      as (Hk & tail & Htr & Htail).
    destruct (error_handler (snd (fst answer)) (cb, w1)) as [[u| |] [cb2 w2]];
      cbn [fst snd] in Hthis, Hk, Htr |- *; subst cb2;
      (split; [reflexivity|]; split; [exact Hthis|];
       exists tail; split; [|exact Htail];
       rewrite Htr; subst w1; cbn [w_trace with_lib log];
       rewrite <- app_assoc; reflexivity).
Qed.

(** Storing a session at an address leaves the trace and the session at
    work alone. *)
Lemma put_session_this (b : address) (other : CallbackResampler py)
    (w : world py) :
  w_this (put_session b other w) = w_this w.
Proof. reflexivity. Qed.

(** One use of a callback session, as far as its ratio and what it was
    built with go. *)
Lemma use_kept (u : session_use) (cb : CallbackResampler py) (w : world py) :
  exists evs,
    w_trace (snd (apply_use u (cb, w))) = w_trace w ++ evs
    /\ kept cb (fst (apply_use u (cb, w))) evs.
Proof.
  destruct u as [c|b|ratio]; cbn [apply_use].
  - destruct (invoke_lived c cb w) as (evs & Htr & _ & _ & K).
    exists evs. split; [exact Htr|exact K].
  - destruct (callback_clone_keeps cb w) as (Hk & _ & tail & Htr & Htail).
    destruct (clone (cb, w)) as [r [cb2 w2]]. cbn [fst snd] in Hk, Htr.
    subst cb2.
    assert (Hkept : kept cb cb
              (Ev_clone (_state cb)
                 (fst (fst (src_clone (_state cb) (w_lib w))))
                 (snd (fst (src_clone (_state cb) (w_lib w)))) :: tail)).
    { apply (kept_trans cb cb cb [_] tail).
      - unfold kept. cbn. repeat split; auto. intros ? ? [].
      - destruct (lived_quiet cb tail (strerror_quiet _ _ _ Htail))
          as (_ & _ & K). exact K. }
    destruct r as [copy| |]; cbn [fst snd];
      (eexists; split; [|exact Hkept]);
      rewrite ?put_session_trace; exact Htr.
  - unfold setattr_ratio, bind, trace, update. cbn [fst snd].
    exists [Ev_ratio_assigned ratio]. split; [reflexivity|].
    unfold kept. cbn. repeat split; auto. intros ? ? [].
Qed.

Lemma uses_kept (uses : list session_use) (cb : CallbackResampler py)
    (w : world py) :
  exists evs,
    w_trace (snd (apply_uses uses (cb, w))) = w_trace w ++ evs
    /\ kept cb (fst (apply_uses uses (cb, w))) evs.
Proof.
  revert cb w. induction uses as [|u uses IH]; intros cb w.
  - exists []. split; [symmetry; apply app_nil_r|apply kept_nothing].
  - unfold apply_uses. cbn [fold_left].
    fold (apply_uses uses (apply_use u (cb, w))).
    destruct (use_kept u cb w) as (evs1 & Htr1 & K1).
    destruct (apply_use u (cb, w)) as [cb1 w1]. cbn [fst snd] in Htr1, K1.
    destruct (IH cb1 w1) as (evs2 & Htr2 & K2).
    exists (evs1 ++ evs2). split.
    + rewrite Htr2, Htr1, app_assoc. reflexivity.
    + exact (kept_trans _ _ _ _ _ K1 K2).
Qed.

(** X16. Through anything Python does to a callback session (calls of
    its five methods, [clone], and assignments to its attribute [ratio],
    which Python may write), the ratio it records is the one last
    assigned to the attribute or given to a [set_starting_ratio] that the
    engine accepted, whichever came last (the one it had before, when
    there was none), and every pull-mode read asks the engine for the
    ratio recorded at that moment. The producer, the converter type and
    the channel count never change. *)
Theorem reads_ask_for_the_recorded_ratio (uses : list session_use)
    (cb : CallbackResampler py) (w : world py) :
  exists evs,
    w_trace (snd (apply_uses uses (cb, w))) = w_trace w ++ evs
    /\ _ratio (fst (apply_uses uses (cb, w))) = ratio_after (_ratio cb) evs
    /\ (forall asked recorded,
          In (asked, recorded) (reads_with_ratio (_ratio cb) evs) ->
          asked = recorded)
    /\ _callback (fst (apply_uses uses (cb, w))) = _callback cb
    /\ _converter_type (fst (apply_uses uses (cb, w))) = _converter_type cb
    /\ _channels (fst (apply_uses uses (cb, w))) = _channels cb.
Proof.
  destruct (uses_kept uses cb w) as (evs & Htr & K).
  exists evs. split; [exact Htr|exact K].
Qed.

(** Events beside the bridge leave the rank a session has recorded. *)
Lemma aside_sticky (a : address) (n : Z) (evs : list (@event E)) :
  Forall aside evs ->
  forall c, n = sticky_ndim n (answers_to a c evs).
Proof.
  intros H c. rewrite (proj1 (answers_to_aside a c evs H)). reflexivity.
Qed.

Lemma strerror_aside (err : Z) (tail : list (@event E)) :
  (forall e, In e tail -> e = Ev_strerror err) -> Forall aside tail.
Proof.
  intros H. apply Forall_forall. intros e He. rewrite (H e He). exact I.
Qed.

(** One use of a callback session, as far as the rank it records goes:
    the rank is settled by the producer answers its own bridge got. *)
Lemma use_sticky (u : session_use) (cb : CallbackResampler py)
    (w : world py) :
  exists evs,
    w_trace (snd (apply_use u (cb, w))) = w_trace w ++ evs
    /\ w_this (snd (apply_use u (cb, w))) = w_this w
    /\ (forall c,
          _buffer_ndim (fst (apply_use u (cb, w)))
          = sticky_ndim (_buffer_ndim cb) (answers_to (w_this w) c evs))
    /\ _channels (fst (apply_use u (cb, w))) = _channels cb.
Proof.
  assert (Hside : forall (cb2 : CallbackResampler py) (w2 : world py) evs,
            w_trace w2 = w_trace w ++ evs ->
            w_this w2 = w_this w ->
            Forall aside evs ->
            _buffer_ndim cb2 = _buffer_ndim cb ->
            _channels cb2 = _channels cb ->
            exists evs,
              w_trace w2 = w_trace w ++ evs
              /\ w_this w2 = w_this w
              /\ (forall c,
                    _buffer_ndim cb2
                    = sticky_ndim (_buffer_ndim cb)
                        (answers_to (w_this w) c evs))
              /\ _channels cb2 = _channels cb).
  { intros cb2 w2 evs Htr Hthis Hall Hn Hc. exists evs.
    split; [exact Htr|]. split; [exact Hthis|]. split; [|exact Hc].
    intros c. rewrite Hn. apply aside_sticky. exact Hall. }
  destruct u as [c|b|ratio]; cbn [apply_use].
  - destruct c as [frames|new_ratio| | |]; cbn [invoke].
    + (* read *)
      destruct (read frames (cb, w)) as [r [cb' w']] eqn:Hrun.
      destruct (read_sticky _ _ _ _ _ _ Hrun)
        as (evs & Htr & Hthis & Hn & Hc & _).
      exists evs. cbn [fst snd]. auto.
    + (* set_starting_ratio *)
      rewrite set_starting_ratio_unfold. cbv zeta.
      set (answer := src_set_ratio (_state cb) new_ratio (w_lib w)).
      set (w1 := with_lib _ _).
      pose proof (error_handler_this _ (fst answer) (cb, w1)) as Hthis.
      destruct (error_handler_trace _ (fst answer) (cb, w1))
        as (Hk & tail & Htr & Htail).
      destruct (error_handler (fst answer) (cb, w1)) as [[u| |] [cb2 w2]];
        cbn [fst snd] in Hthis, Hk, Htr |- *; subst cb2;
        (apply (Hside _ _
                  (Ev_set_ratio (_state cb) new_ratio (fst answer) :: tail));
         [rewrite Htr; subst w1; cbn [w_trace with_lib log];
          rewrite <- app_assoc; reflexivity
         |exact Hthis
         |constructor; [exact I|exact (strerror_aside _ _ Htail)]
         |reflexivity|reflexivity]).
    + (* reset *)
      rewrite reset_unfold. cbv zeta.
      set (answer := src_reset (_state cb) (w_lib w)).
      set (w1 := with_lib _ _).
      pose proof (error_handler_this _ (fst answer) (cb, w1)) as Hthis.
      destruct (error_handler_trace _ (fst answer) (cb, w1))
        as (Hk & tail & Htr & Htail).
      destruct (error_handler (fst answer) (cb, w1)) as [r [cb2 w2]].
      cbn [fst snd] in Hthis, Hk, Htr |- *. subst cb2.
      apply (Hside _ _ (Ev_reset (_state cb) (fst answer) :: tail));
        [rewrite Htr; subst w1; cbn [w_trace with_lib log];
         rewrite <- app_assoc; reflexivity
        |exact Hthis
        |constructor; [exact I|exact (strerror_aside _ _ Htail)]
        |reflexivity|reflexivity].
    + (* __enter__ *)
      unfold __enter__, this. cbn [fst snd].
      apply (Hside _ _ []); auto. symmetry. apply app_nil_r.
    + (* __exit__ *)
      rewrite exit_unfold.
      destruct (_state cb) as [h|]; cbn [fst snd].
      * apply (Hside _ _ [Ev_delete (Some h)]);
          [reflexivity|reflexivity|repeat constructor|reflexivity
          |reflexivity].
      * apply (Hside _ _ []); auto. symmetry. apply app_nil_r.
  - (* clone *)
    destruct (callback_clone_keeps cb w) as (Hk & Hthis & tail & Htr & Htail).
    destruct (clone (cb, w)) as [r [cb2 w2]].
    cbn [fst snd] in Hk, Hthis, Htr. subst cb2.
    destruct r as [copy| |]; cbn [fst snd];
      (eapply Hside;
       [rewrite ?put_session_trace; exact Htr
       |rewrite ?put_session_this; exact Hthis
       |constructor; [exact I|exact (strerror_aside _ _ Htail)]
       |reflexivity|reflexivity]).
  - (* ratio = ... *)
    unfold setattr_ratio, bind, trace, update. cbn [fst snd].
    apply (Hside _ _ [Ev_ratio_assigned ratio]);
      [reflexivity|reflexivity|repeat constructor|reflexivity|reflexivity].
Qed.

Lemma uses_sticky (uses : list session_use) (cb : CallbackResampler py)
    (w : world py) :
  exists evs,
    w_trace (snd (apply_uses uses (cb, w))) = w_trace w ++ evs
    /\ w_this (snd (apply_uses uses (cb, w))) = w_this w
    /\ (forall c,
          _buffer_ndim (fst (apply_uses uses (cb, w)))
          = sticky_ndim (_buffer_ndim cb) (answers_to (w_this w) c evs))
    /\ _channels (fst (apply_uses uses (cb, w))) = _channels cb.
Proof.
  revert cb w. induction uses as [|u uses IH]; intros cb w.
  - exists []. split; [symmetry; apply app_nil_r|]. auto.
  - unfold apply_uses. cbn [fold_left].
    fold (apply_uses uses (apply_use u (cb, w))).
    destruct (use_sticky u cb w) as (evs1 & Htr1 & Ht1 & Hn1 & Hc1).
    destruct (apply_use u (cb, w)) as [cb1 w1].
    cbn [fst snd] in Htr1, Ht1, Hn1, Hc1.
    destruct (IH cb1 w1) as (evs2 & Htr2 & Ht2 & Hn2 & Hc2).
    exists (evs1 ++ evs2).
    split; [rewrite Htr2, Htr1, app_assoc; reflexivity|].
    split; [congruence|]. split; [|congruence].
    intros c. rewrite answers_to_app, sticky_ndim_app.
    rewrite <- (Hn1 c). rewrite <- Ht1. apply Hn2.
Qed.

(** X19. The rank a session built by the constructor has recorded is the
    rank of the first producer answer of rank above 0 that its own bridge
    got, from its construction on, through anything Python does to it
    (calls of the five methods, closing and reopening included, [clone],
    assignments to [ratio]); it is 0 while there was none. A [read] that
    returns has rank 1 exactly when the session has one channel and that
    recorded rank is 1, and rank 2 otherwise. Once a rank is recorded,
    nothing Python does to the session changes it. *)
Theorem read_rank_is_sticky
    (callback_func : @callback_t py) (ratio : double)
    (converter_type : py_object) (channels : Z) (w0 w1 : world py)
    (cb : CallbackResampler py) (uses : list session_use) (frames : Z)
    (a : nb_array_f32) (cb' : CallbackResampler py) (w' : world py)
    (evs : list event) :
  constructor callback_func ratio converter_type channels (tt, w0)
    = (Returns cb, (tt, w1)) ->
  read frames (apply_uses uses (cb, w1)) = (Returns a, (cb', w')) ->
  w_trace w' = w_trace w1 ++ evs ->
  _buffer_ndim cb' = first_rank (own_answers (w_this w0) evs)
  /\ ndim a
     = (if (channels =? 1)
           && (first_rank (own_answers (w_this w0) evs) =? 1)
        then 1 else 2)
  /\ forall more,
       _buffer_ndim cb' <> 0 ->
       _buffer_ndim (fst (apply_uses more (cb', w'))) = _buffer_ndim cb'.
Proof.
  intros Hc Hrun Htr.
  destruct (constructor_fresh _ _ _ _ _ _ _ _ Hc)
    as (Hn0 & Hch0 & _ & _ & Hthis0).
  cbn [snd] in Hthis0.
  destruct (uses_sticky uses cb w1) as (evs1 & Htr1 & Ht1 & Hn1 & Hc1).
  destruct (apply_uses uses (cb, w1)) as [cb1 w2].
  cbn [fst snd] in Htr1, Ht1, Hn1, Hc1.
  destruct (read_sticky _ _ _ _ _ _ Hrun)
    as (evs2 & Htr2 & Ht2 & Hn2 & Hc2 & Hrank).
  assert (Hevs : evs = evs1 ++ evs2).
  { rewrite Htr2, Htr1, <- app_assoc in Htr.
    apply app_inv_head in Htr. symmetry. exact Htr. }
  assert (Hndim : _buffer_ndim cb' = first_rank (own_answers (w_this w0) evs)).
  { unfold first_rank, own_answers. rewrite Hevs.
    rewrite answers_to_app, sticky_ndim_app.
    rewrite <- Hthis0, <- Hn0. rewrite <- (Hn1 false).
    rewrite <- Ht1. apply Hn2. }
  split; [exact Hndim|]. split.
  - rewrite (Hrank a eq_refl). rewrite Hndim, Hc2, Hc1, Hch0. reflexivity.
  - intros more Hset.
    destruct (uses_sticky more cb' w') as (evs3 & _ & _ & Hn3 & _).
    rewrite (Hn3 false). apply sticky_ndim_fixed. exact Hset.
Qed.

End CallbackLives.

(** ** The further properties on concrete sessions *)

(** The Python constructor asked for two channels. *)
Lemma init_passes_channels_witness :
  exists st err tail,
    w_trace
      (snd (snd (CallbackResampler.__init__ (E := Sim.sim) (O := unit)
                   Sim.next_chunk Sim.one (PyStr "linear") 2
                   (tt, Sim.start Sim.sim [] []))))
    = Ev_callback_new (E := Sim.sim) 4 2 st err :: tail.
Proof.
  destruct (init_passes_channels (E := Sim.sim) unit Sim.next_chunk Sim.one
              (PyStr "linear") 2 4 (tt, Sim.start Sim.sim [] []))
    as (st & err & tail & Htr & _).
  - vm_compute. split; discriminate.
  - reflexivity.
  - exists st, err, tail. exact Htr.
Defined.

(** The bridge on a mono session whose producer has a chunk of four
    frames. *)
Lemma bridge_hands_over_what_it_keeps_witness :
  exists cb' w',
    CallbackResampler.the_callback_func (E := Sim.sim)
      (Sim.closed_session Sim.sim 1, Sim.start Sim.sim [] [Sim.mono 4])
    = ((4, Sim.mono 4), (cb', w'))
    /\ CallbackResampler._current_buffer cb' = {| shape_of := [4] |}.
Proof.
  evaluate H1
    (CallbackResampler.the_callback_func (E := Sim.sim)
       (Sim.closed_session Sim.sim 1, Sim.start Sim.sim [] [Sim.mono 4])).
  match type of H1 with
  | _ = (_, (?cb', ?w')) => exists cb', w'
  end.
  split; [exact H1|].
  exact (proj1 (proj2 (bridge_hands_over_what_it_keeps (E := Sim.sim)
                         _ _ _ _ _ _ H1))).
Defined.

(** A mono session whose producer supplies a chunk of two channels: the
    error thrown is the one recorded for that chunk. *)
Lemma callback_error_is_of_this_read_witness :
  exists x,
    bridge_records 1 x = Some invalid_channels
    /\ fst (CallbackResampler.read (E := Sim.sim) 4
              (Sim.closed_session Sim.sim 1,
               Sim.start Sim.sim [] [Sim.chunk 4 2]))
       = Throws (CallbackError invalid_channels).
Proof.
  evaluate H1
    (CallbackResampler.read (E := Sim.sim) 4
       (Sim.closed_session Sim.sim 1,
        Sim.start Sim.sim [] [Sim.chunk 4 2])).
  match type of H1 with
  | _ = (_, (?cb', ?w')) =>
      evaluate H2 (w_trace w');
      match type of H2 with
      | _ = ?evs =>
          change (w_trace w'
                  = w_trace (Sim.start Sim.sim [] [Sim.chunk 4 2]) ++ evs)
            in H2
      end
  end.
  destruct (callback_error_is_of_this_read (E := Sim.sim) _ _ _ _ _ _ _ H1 H2)
    as (_ & x & _ & Hx).
  exists x. split; [exact Hx|]. rewrite H1. reflexivity.
Defined.

(** A mono session reading four frames its producer has. *)
Lemma read_returns_what_the_engine_generated_witness :
  exists n,
    shape {| shape_of := [4] |} 0 = C.to_size_t n
    /\ fst (CallbackResampler.read (E := Sim.sim) 4
              (Sim.closed_session Sim.sim 1,
               Sim.start Sim.sim [] [Sim.mono 4]))
       = Returns {| shape_of := [4] |}.
Proof.
  evaluate H1
    (CallbackResampler.read (E := Sim.sim) 4
       (Sim.closed_session Sim.sim 1, Sim.start Sim.sim [] [Sim.mono 4])).
  match type of H1 with
  | _ = (_, (?cb', ?w')) =>
      evaluate H2 (w_trace w');
      match type of H2 with
      | _ = ?evs =>
          change (w_trace w'
                  = w_trace (Sim.start Sim.sim [] [Sim.mono 4]) ++ evs)
            in H2
      end
  end.
  destruct (read_returns_what_the_engine_generated (E := Sim.sim)
              _ _ _ _ _ _ _ H1 H2) as (n & _ & _ & Hshape & _).
  exists n. split; [exact Hshape|]. rewrite H1. reflexivity.
Defined.

(** A session that reads, is closed, reads again and is destroyed. *)
Lemma callback_session_state_discipline_witness :
  exists cb w1 evs,
    CallbackResampler.constructor (E := Sim.sim) Sim.next_chunk Sim.one
      (PyStr "sinc_best") 1
      (tt, Sim.start Sim.sim [] [Sim.mono 4; Sim.mono 4])
    = (Returns cb, (tt, w1))
    /\ w_trace
         (snd (snd (CallbackResampler.destructor
                      (invoke_all [call_read 4; call_exit; call_read 4]
                         (cb, w1)))))
       = [] ++ evs
    /\ disciplined None evs
    /\ held_after None evs = None.
Proof.
  evaluate H1
    (CallbackResampler.constructor (E := Sim.sim) Sim.next_chunk Sim.one
       (PyStr "sinc_best") 1
       (tt, Sim.start Sim.sim [] [Sim.mono 4; Sim.mono 4])).
  match type of H1 with
  | _ = (Returns ?cb, (tt, ?w1)) =>
      destruct (callback_session_state_discipline (E := Sim.sim)
                  _ _ _ _ _ _ _ [call_read 4; call_exit; call_read 4] H1)
        as (_ & evs & Htr & Hd & Hh);
      exists cb, w1, evs
  end.
  split; [exact H1|]. split; [exact Htr|]. split; [exact Hd|exact Hh].
Defined.

(** A session of two channels, built, fed once and destroyed. *)
Lemma resampler_is_immutable_witness :
  exists self w1 ct evs,
    Resampler.constructor (E := Sim.sim) (PyStr "linear") 2
      (tt, Sim.start Sim.sim [] [])
    = (Returns self, (tt, w1))
    /\ w_trace
         (snd (snd (Resampler.destructor
                      (invoke_all_resampler
                         [r_process {| shape_of := [4; 2] |} Sim.one true]
                         (self, w1)))))
       = [] ++ Ev_new (E := Sim.sim) ct 2 (Resampler._state self) 0
                 :: evs ++ [Ev_delete (Resampler._state self)].
Proof.
  assert (Hrank : Forall ranked
                    [r_process {| shape_of := [4; 2] |} Sim.one true])
    by (repeat constructor; vm_compute; discriminate).
  evaluate H1
    (Resampler.constructor (E := Sim.sim) (PyStr "linear") 2
       (tt, Sim.start Sim.sim [] [])).
  match type of H1 with
  | _ = (Returns ?self, (tt, ?w1)) =>
      destruct (proj2 (resampler_is_immutable (E := Sim.sim) (py := Sim.script))
                  _ _ _ _ _
                  [r_process {| shape_of := [4; 2] |} Sim.one true]
                  Hrank H1)
        as (ct & evs & Htr & _);
      exists self, w1, ct, evs
  end.
  split; [exact H1|exact Htr].
Defined.

(** A mono session reads a chunk of rank 1, is cloned and closed, has
    its ratio assigned, and reads a chunk of rank 2: the result has rank
    1 still. *)
Lemma read_rank_is_sticky_witness :
  exists cb w1 cb' w',
    CallbackResampler.constructor (E := Sim.sim) Sim.next_chunk Sim.one
      (PyStr "sinc_best") 1
      (tt, Sim.start Sim.sim [] [Sim.mono 4; Sim.chunk 4 1])
    = (Returns cb, (tt, w1))
    /\ CallbackResampler.read 4
         (apply_uses
            [use_method (call_read 4); use_clone Sim.copy;
             use_method call_exit; use_assign_ratio Sim.half] (cb, w1))
       = (Returns {| shape_of := [4] |}, (cb', w'))
    /\ CallbackResampler._buffer_ndim cb' = 1.
Proof.
  evaluate H1
    (CallbackResampler.constructor (E := Sim.sim) Sim.next_chunk Sim.one
       (PyStr "sinc_best") 1
       (tt, Sim.start Sim.sim [] [Sim.mono 4; Sim.chunk 4 1])).
  match type of H1 with
  | _ = (Returns ?cb, (tt, ?w1)) =>
      evaluate H2
        (CallbackResampler.read 4
           (apply_uses
              [use_method (call_read 4); use_clone Sim.copy;
               use_method call_exit; use_assign_ratio Sim.half] (cb, w1)));
      match type of H2 with
      | _ = (_, (?cb', ?w')) =>
          evaluate H3 (w_trace w');
          match type of H3 with
          | _ = _ :: ?evs =>
              change (w_trace w' = w_trace w1 ++ evs) in H3;
              exists cb, w1, cb', w';
              pose proof (read_rank_is_sticky (E := Sim.sim)
                            _ _ _ _ _ _ _ _ _ _ _ _ evs H1 H2 H3)
                as (Hn & _)
          end
      end
  end.
  split; [exact H1|]. split; [exact H2|exact Hn].
Defined.

(** The clone of a mono session reads 8 frames; the producer supplies 4
    good frames, then a chunk of two channels, to the bridge of the
    original. *)
Lemma read_is_blind_to_other_bridges_witness :
  exists cb' w',
    CallbackResampler.read (E := Sim.sim) 8
      (CallbackResampler.set_state (E := Sim.sim) (Some 2%nat)
         (Sim.closed_session Sim.sim 1),
       with_this Sim.copy
         (drop_session Sim.copy
            (Sim.cloned Sim.sim [] [Sim.mono 4; Sim.chunk 4 2])))
    = (Returns {| shape_of := [4; 1] |}, (cb', w'))
    /\ CallbackResampler._buffer_ndim cb' = 0
    /\ CallbackResampler._callback_error_msg cb' = EmptyString.
Proof.
  evaluate H0
    (w_trace
       (with_this Sim.copy
          (drop_session Sim.copy
             (Sim.cloned Sim.sim [] [Sim.mono 4; Sim.chunk 4 2])))).
  evaluate H1
    (CallbackResampler.read (E := Sim.sim) 8
       (CallbackResampler.set_state (E := Sim.sim) (Some 2%nat)
          (Sim.closed_session Sim.sim 1),
        with_this Sim.copy
          (drop_session Sim.copy
             (Sim.cloned Sim.sim [] [Sim.mono 4; Sim.chunk 4 2])))).
  match type of H1 with
  | _ = (_, (?cb', ?w')) =>
      evaluate H2 (w_trace w');
      match type of H2 with
      | _ = _ :: _ :: ?evs =>
          rewrite <- (app_nil_l evs) in H2;
          rewrite 2 app_comm_cons in H2;
          rewrite <- H0 in H2;
          exists cb', w';
          destruct (read_is_blind_to_other_bridges (E := Sim.sim)
                      _ _ _ _ _ _ evs 4 H1 H2 eq_refl ltac:(among))
            as (Hn & Hslot & _)
      end
  end.
  split; [exact H1|]. split; [exact Hn|exact Hslot].
Defined.

(** X22. A clone does not keep the session it was cloned from alive, and
    needs it: once Python has destroyed the original, a [read] on the
    clone makes the engine call back the address of the destroyed
    object, where no session lives. (On the stand-in engine, whose clone
    of a converter state keeps the callback data of the original, as
    that of libsamplerate does.) *)
Lemma clone_read_after_original_is_destroyed :
  fst (Python.call_method Sim.copy (CallbackResampler.read 4)
         (Python.del Sim.original (Sim.cloned Sim.sim [] [Sim.mono 4])))
  = Undefined
  /\ session_at Sim.original
       (Python.del Sim.original (Sim.cloned Sim.sim [] [Sim.mono 4]))
     = None
  /\ w_trace
       (snd (Python.call_method Sim.copy (CallbackResampler.read 4)
               (Python.del Sim.original
                  (Sim.cloned Sim.sim [] [Sim.mono 4]))))
     = [Ev_callback_new (E := Sim.sim) 0 1 (Some 1%nat) 0;
        Ev_clone (E := Sim.sim) (Some 1%nat) (Some 2%nat) 0;
        Ev_delete (E := Sim.sim) (Some 1%nat);
        Ev_callback_read (E := Sim.sim) (Some 2%nat) Sim.one 4;
        Ev_callback Sim.original].
Proof. repeat split; vm_compute; reflexivity. Qed.
